(** * Quoting and routing core of the multichain DEX front end

    A shallow embedding of [BaseDexService] and of its three adapters
    ([UniswapV2Service] for Camelot on Arbitrum, [PancakeSwapService] on BSC,
    [KalySwapService] on KalyChain), with the properties of the
    specification settled against it; then of the price impact utilities
    ([multichainPriceImpact]) and of the token list service, with further
    properties of the code.

    Conventions of the embedding

    - an [async] method is a function into [result]: [Ok v] is a promise
      resolved with [v], [Throw e] a rejected promise (or a [throw]);
      [try { .. } catch] is [try_catch];
    - the chain is read through a [PublicClient]: [None] is a missing
      client ([null]/[undefined]), [Some chain] gives the read-only contract
      functions as oracles that may fail.  One call of a service method sees
      one snapshot of the chain;
    - a JavaScript [number] is a binary64 float ([PrimFloat.float]), a
      [bigint] an integer ([Z], or [N] where the ABI type is unsigned);
    - [console.log]/[console.error] have no effect on results and are left
      out. *)

From Stdlib Require Import ZArith NArith List String Ascii Bool Lia.
From Stdlib Require Import DecimalString.
From Stdlib Require Import Floats.
From Stdlib Require Import QArith Lqa.
Import ListNotations.

Local Open Scope string_scope.
Local Open Scope list_scope.

(** ** JavaScript strings *)

Module Js.

(** [String.prototype.toLowerCase] and [toUpperCase] on the ASCII range,
    which is where addresses (hexadecimal) and the symbols compared in the
    services live; other bytes are left as they are. *)
Definition lowerChar (c : ascii) : ascii :=
  let n := nat_of_ascii c in
  if (65 <=? n)%nat && (n <=? 90)%nat then ascii_of_nat (n + 32) else c.

Definition upperChar (c : ascii) : ascii :=
  let n := nat_of_ascii c in
  if (97 <=? n)%nat && (n <=? 122)%nat then ascii_of_nat (n - 32) else c.

Fixpoint toLowerCase (s : string) : string :=
  match s with
  | EmptyString => EmptyString
  | String c s' => String (lowerChar c) (toLowerCase s')
  end.

Fixpoint toUpperCase (s : string) : string :=
  match s with
  | EmptyString => EmptyString
  | String c s' => String (upperChar c) (toUpperCase s')
  end.

(** [bigint.toString()] *)
Definition bigintToString (z : Z) : string :=
  NilZero.string_of_int (Z.to_int z).

(** Truthiness of a [string | null] value: [null] and the empty string
    are falsy. *)
Definition truthy (o : option string) : bool :=
  match o with
  | None => false
  | Some s => negb (s =? "")
  end.

End Js.

(** ** Errors *)

(** Modelled from the spec: the error classes of [IDexService], which the
    services import but which is not part of the sources at hand.  Section 7
    of the specification gives the taxonomy: [PairNotFound],
    [UnsupportedToken], [SwapFailed] are conditions of their own, the
    remaining ones ([NoClient], [NoWallet], [NoAccount], [QuoteFailed]) are
    a [DexError] carrying a code.  All of them are [DexError]s to
    [instanceof]; [JsError] stands for every other thrown value (an RPC
    failure, a [TypeError], a viem error), with its rendering [`${error}`]
    and, when it is an [Error], its [message]. *)
Inductive exn : Type :=
| DexError (message code dex : string)
| PairNotFoundError (dex tokenA tokenB : string)
| UnsupportedTokenError (dex token : string)
| SwapFailedError (dex reason : string)
| JsError (text : string) (message : option string).

Definition instanceofDexError (e : exn) : bool :=
  match e with
  | JsError _ _ => false
  | _ => true
  end.

(** The condition of the taxonomy an error belongs to. *)
Inductive condition : Type :=
| PairNotFound | UnsupportedToken | SwapFailed
| NoClient | NoWallet | NoAccount | QuoteFailed | OtherDexError | Foreign.

Definition conditionOf (e : exn) : condition :=
  match e with
  | PairNotFoundError _ _ _ => PairNotFound
  | UnsupportedTokenError _ _ => UnsupportedToken
  | SwapFailedError _ _ => SwapFailed
  | DexError _ code _ =>
      if code =? "NO_CLIENT" then NoClient
      else if code =? "NO_WALLET" then NoWallet
      else if code =? "NO_ACCOUNT" then NoAccount
      else if code =? "QUOTE_FAILED" then QuoteFailed
      else OtherDexError
  | JsError _ _ => Foreign
  end.

(** ** Promises that resolve or reject *)

Inductive result (A : Type) : Type :=
| Ok (a : A)
| Throw (e : exn).

Arguments Ok {A} a.
Arguments Throw {A} e.

Definition bind {A B : Type} (c : result A) (k : A -> result B) : result B :=
  match c with
  | Ok a => k a
  | Throw e => Throw e
  end.

Definition try_catch {A : Type} (c : result A) (handler : exn -> result A)
  : result A :=
  match c with
  | Ok a => Ok a
  | Throw e => handler e
  end.

Declare Scope js_scope.
Delimit Scope js_scope with js.
Notation "x <- c ;; k" := (bind c (fun x => k))
  (at level 61, c at next level, right associativity) : js_scope.
Notation "' pat <- c ;; k" := (bind c (fun x => match x with pat => k end))
  (at level 61, pat pattern, c at next level, right associativity) : js_scope.
Local Open Scope js_scope.

(** ** Data model *)

Record Token : Type := mkToken {
  chainId : Z;
  address : string;
  decimals : Z;
  symbol : string;
  name : string;
  logoURI : string;
  isNative : option bool   (* [isNative?: boolean] *)
}.

(** [token.isNative] as a condition, and [token.isNative === true]. *)
Definition native (t : Token) : bool :=
  match isNative t with
  | Some true => true
  | _ => false
  end.

(** A JavaScript value of the kinds a quote carries in [priceImpact]. *)
Inductive JsValue : Type :=
| JNum (x : float)
| JStr (s : string).


Record QuoteResult : Type := mkQuote {
  amountOut : string;
  priceImpact : JsValue;
  route : list string;
  gasEstimate : option string;
  executionPrice : option string
}.

Record PairInfo : Type := mkPairInfo {
  token0 : Token;
  token1 : Token;
  pairAddress : string;
  reserve0 : string;
  reserve1 : string;
  totalSupply : string
}.

(** The chain configuration of an adapter ([DexConfig]); the ABIs carry no
    behaviour here. *)
Record DexConfig : Type := mkConfig {
  tokens : list Token;
  router : string;
  factory : string;
  wethAddress : string;
  subgraphUrl : string
}.

(** ** The on-chain read interface *)

(** What a public client can read, contract by contract: the factory's
    [getPair], a pair's [getReserves], [token0] and [totalSupply], the
    router's [getAmountsOut].  Each call resolves or rejects. *)
Record Chain : Type := mkChain {
  factory_getPair : string -> string -> string -> result string;
  pair_getReserves : string -> result (N * N * N);
  pair_token0 : string -> result string;
  pair_totalSupply : string -> result N;
  router_getAmountsOut : string -> Z -> list string -> result (list Z)
}.

Definition PublicClient : Type := option Chain.

Definition ZERO_ADDRESS : string := "0x0000000000000000000000000000000000000000".

(** ** Library functions

    [parseUnits] and [formatUnits] come from viem and [parseFloat] from the
    JavaScript runtime; their code is not part of the repository, so the
    services take them as a parameter.  [parseUnits] rejects strings that
    are not decimal numbers. *)
Record Runtime : Type := mkRuntime {
  parseUnits : string -> Z -> result Z;
  formatUnits : Z -> Z -> string;
  parseFloat : string -> float
}.

(** ** JavaScript numbers *)

Module JsMath.

Local Open Scope float_scope.

(** [Math.min(x, y)]: [NaN] when an argument is, and [-0] below [+0]. *)
Definition min (x y : float) : float :=
  if is_nan x || is_nan y then nan
  else if x <? y then x
  else if y <? x then y
  else if get_sign x then x else y.

(** The sign of a double, read on its IEEE 754 form: not negative is
    [NaN], a zero of either sign, or a number with the sign bit clear. *)
Definition notNegative (f : spec_float) : Prop :=
  match f with
  | S754_nan | S754_zero _ => True
  | S754_infinity s | S754_finite s _ _ => s = false
  end.

(** The results an operation can round to under a given sign. *)
Definition signed (sx : bool) (f : spec_float) : Prop :=
  match f with
  | S754_nan => True
  | S754_zero s | S754_infinity s | S754_finite s _ _ => s = sx
  end.

(** A denominator [d] that does not turn a non-negative numerator [n]
    negative: non-negative, and [-0] only under a zero. *)
Definition denominatorFor (n d : spec_float) : Prop :=
  notNegative d
  /\ (d = S754_zero true -> exists s, n = S754_zero s).

End JsMath.

(** ** The order of doubles *)

Module FloatOrder.

(** The place of a double that is not [NaN] on the number line: its sign
    class, then its exponent, then its mantissa. *)
Definition rank (f : spec_float) : Z * Z * Z :=
  match f with
  | S754_nan | S754_zero _ => (0, 0, 0)%Z
  | S754_infinity true => (-2, 0, 0)%Z
  | S754_infinity false => (2, 0, 0)%Z
  | S754_finite true m e => (-1, - e, Zneg m)%Z
  | S754_finite false m e => (1, e, Zpos m)%Z
  end.

Definition lexCompare (a b : Z * Z * Z) : comparison :=
  let '(a1, a2, a3) := a in
  let '(b1, b2, b3) := b in
  match (a1 ?= b1)%Z with
  | Eq => match (a2 ?= b2)%Z with
          | Eq => (a3 ?= b3)%Z
          | c => c
          end
  | c => c
  end.

End FloatOrder.

(** The expression of [calculatePriceImpact],
    [(amountInValue / (reserveInFormatted + amountInValue)) * 100],
    over the arithmetic it is read in: the service evaluates it on doubles,
    the specification reads it on exact numbers. *)
Section Formula.

Context {num : Type}.
Variables (add mul div : num -> num -> num) (hundred : num).

Definition impactFormula (amountInValue reserveInFormatted : num) : num :=
  mul (div amountInValue (add reserveInFormatted amountInValue)) hundred.

End Formula.

(** Early return: a step that may produce the result of the method. *)
Definition or_else {A : Type} (step : result (option A)) (rest : result A)
  : result A :=
  bind step (fun r => match r with Some a => Ok a | None => rest end).

Notation "'return_if' step ;; rest" := (or_else step rest)
  (at level 61, step at next level, right associativity) : js_scope.

(** ** BaseDexService *)

Module BaseDexService.

Section Service.

(** [this.config], the runtime, and the two methods the subclasses
    provide: [getName] and [getSwapRoute] (every adapter overrides it,
    and [getQuote] calls it through [this]). *)
Variable config : DexConfig.
Variable rt : Runtime.
Variable getName : string.

Definition getWethAddress : string := wethAddress config.

(** The addressable form of a token:
    [token.isNative ? this.getWethAddress() : token.address]. *)
Definition resolve (t : Token) : string :=
  if native t then getWethAddress else address t.

Definition requireClient (publicClient : PublicClient) : result Chain :=
  match publicClient with
  | None => Throw (DexError "Public client not available" "NO_CLIENT" getName)
  | Some chain => Ok chain
  end.

Definition getPairAddress (tokenA tokenB : Token) (publicClient : PublicClient)
  : result (option string) :=
  try_catch
    (chain <- requireClient publicClient ;;
     let addressA := resolve tokenA in
     let addressB := resolve tokenB in
     pairAddress <- factory_getPair chain (factory config) addressA addressB ;;
     if pairAddress =? ZERO_ADDRESS then Ok None else Ok (Some pairAddress))
    (fun _ => Ok None).

Definition getPairInfo (tokenA tokenB : Token) (publicClient : PublicClient)
  : result (option PairInfo) :=
  try_catch
    (pairAddress <- getPairAddress tokenA tokenB publicClient ;;
     if negb (Js.truthy pairAddress) then Ok None
     else
       match pairAddress with
       | None => Ok None
       | Some pairAddress =>
           chain <- requireClient publicClient ;;
           '(r0, r1, _) <- pair_getReserves chain pairAddress ;;
           supply <- pair_totalSupply chain pairAddress ;;
           Ok (Some {| token0 := tokenA;
                       token1 := tokenB;
                       pairAddress := pairAddress;
                       reserve0 := Js.bigintToString (Z.of_N r0);
                       reserve1 := Js.bigintToString (Z.of_N r1);
                       totalSupply := Js.bigintToString (Z.of_N supply) |})
       end)
    (fun _ => Ok None).

Definition canSwapDirectly (tokenA tokenB : Token) (publicClient : PublicClient)
  : result bool :=
  pairAddress <- getPairAddress tokenA tokenB publicClient ;;
  Ok (match pairAddress with None => false | Some _ => true end).

Definition calculatePriceImpact (tokenIn tokenOut : Token) (amountIn : string)
    (publicClient : PublicClient) : result float :=
  try_catch
    (pairAddress <- getPairAddress tokenIn tokenOut publicClient ;;
     if negb (Js.truthy pairAddress) then Ok 0%float
     else
       match pairAddress with
       | None => Ok 0%float
       | Some pairAddress =>
           chain <- match publicClient with
                    | Some chain => Ok chain
                    | None => Throw (JsError "TypeError" (Some "client is undefined"))
                    end ;;
           '(r0, r1, _) <- pair_getReserves chain pairAddress ;;
           token0Address <- pair_token0 chain pairAddress ;;
           let tokenInAddress := resolve tokenIn in
           let isTokenInToken0 :=
             Js.toLowerCase token0Address =? Js.toLowerCase tokenInAddress in
           let reserveIn := if isTokenInToken0 then r0 else r1 in
           let reserveInFormatted :=
             parseFloat rt (formatUnits rt (Z.of_N reserveIn) (decimals tokenIn)) in
           let amountInValue := parseFloat rt amountIn in
           let priceImpact :=
             impactFormula PrimFloat.add PrimFloat.mul PrimFloat.div 100%float
               amountInValue reserveInFormatted in
           Ok (JsMath.min priceImpact 100%float)
       end)
    (fun _ => Ok 0%float).

(** The wrapped-native bridge of [getSwapRoute], which the base class
    and the three adapters spell out in the same way. *)
Definition getSwapRoute (tokenIn tokenOut : Token) (publicClient : PublicClient)
  : result (list string) :=
  let addressIn := resolve tokenIn in
  let addressOut := resolve tokenOut in
  directPairExists <- canSwapDirectly tokenIn tokenOut publicClient ;;
  if directPairExists then Ok [addressIn; addressOut]
  else
    let wethAddress := getWethAddress in
    return_if
      (if negb (addressIn =? wethAddress) && negb (addressOut =? wethAddress) then
         match find (fun t => Js.toLowerCase (address t) =? Js.toLowerCase wethAddress)
                    (tokens config) with
         | Some wethToken =>
             c0 <- canSwapDirectly tokenIn wethToken publicClient ;;
             c1 <- canSwapDirectly wethToken tokenOut publicClient ;;
             if c0 && c1 then Ok (Some [addressIn; wethAddress; addressOut])
             else Ok None
         | None => Ok None
         end
       else Ok None) ;;
    Ok [].

(** The method the subclass provides for [this.getSwapRoute]. *)
Variable this_getSwapRoute : Token -> Token -> PublicClient -> result (list string).

Definition getQuote (tokenIn tokenOut : Token) (amountIn : string)
    (publicClient : PublicClient) : result QuoteResult :=
  try_catch
    (route <- this_getSwapRoute tokenIn tokenOut publicClient ;;
     if (List.length route =? 0)%nat
     then Throw (PairNotFoundError getName (symbol tokenIn) (symbol tokenOut))
     else
       amountInWei <- parseUnits rt amountIn (decimals tokenIn) ;;
       chain <- requireClient publicClient ;;
       amounts <- router_getAmountsOut chain (router config) amountInWei route ;;
       (* amounts[amounts.length - 1]; of an empty answer it is undefined,
          and amountOut.toString() fails *)
       amountOut <- match last (map Some amounts) None with
                    | Some a => Ok a
                    | None => Throw (JsError "TypeError" (Some "amountOut is undefined"))
                    end ;;
       let formattedAmountOut := formatUnits rt amountOut (decimals tokenOut) in
       priceImpact <- calculatePriceImpact tokenIn tokenOut amountIn publicClient ;;
       Ok {| amountOut := formattedAmountOut;
             priceImpact := JNum priceImpact;
             route := route;
             gasEstimate := Some "200000";
             executionPrice := None |})
    (fun error =>
       match error with
       | JsError text _ =>
           Throw (DexError ("Failed to get quote: " ++ text) "QUOTE_FAILED" getName)
       | _ => Throw error
       end).


(** [Number.prototype.toString], of the JavaScript runtime. *)
Variable numberToString : float -> string.

Definition getAmountOutMin (amountOut : string) (slippageTolerance : float) : string :=
  let amount := parseFloat rt amountOut in
  let slippageMultiplier := ((100 - slippageTolerance) / 100)%float in
  numberToString (amount * slippageMultiplier)%float.

End Service.

End BaseDexService.

(** ** The on-chain write interface *)

Inductive AbiArg : Type :=
| AUint (n : Z)
| AAddress (a : string)
| AAddressList (l : list string).

(** The argument of [walletClient.writeContract]. *)
Record WriteCall : Type := mkCall {
  call_address : string;
  call_functionName : string;
  call_args : list AbiArg;
  call_value : option Z;
  call_account : string
}.

(** A wallet client: its account, what submitting a call answers (the
    transaction hash, or a rejection), and what the chain answers when the
    client is handed to a read path ([walletClient as any]). *)
Record WalletClient : Type := mkWallet {
  account : option string;
  wallet_send : WriteCall -> result string;
  wallet_reads : Chain
}.

Record SwapParams : Type := mkParams {
  p_tokenIn : Token;
  p_tokenOut : Token;
  p_amountIn : string;
  p_amountOutMin : string;
  p_to : string;
  p_deadline : Z;                      (* minutes *)
  p_slippageTolerance : float;
  p_route : option (list string)
}.

(** The write path threads the calls submitted so far. *)
Definition Tx (A : Type) : Type := list WriteCall -> list WriteCall * result A.

Definition liftTx {A : Type} (c : result A) : Tx A := fun log => (log, c).

Definition bindTx {A B : Type} (c : Tx A) (k : A -> Tx B) : Tx B :=
  fun log =>
    match c log with
    | (log', Ok a) => k a log'
    | (log', Throw e) => (log', Throw e)
    end.

Definition catchTx {A : Type} (c : Tx A) (handler : exn -> Tx A) : Tx A :=
  fun log =>
    match c log with
    | (log', Ok a) => (log', Ok a)
    | (log', Throw e) => handler e log'
    end.

Definition writeContract (w : WalletClient) (call : WriteCall) : Tx string :=
  fun log => (log ++ [call], wallet_send w call).

Notation "x <~ c ;; k" := (bindTx c (fun x => k))
  (at level 61, c at next level, right associativity) : js_scope.

(** [Math.floor(Date.now() / 1000) + params.deadline * 60], with the clock
    in milliseconds and the deadline a whole number of minutes. *)
Definition deadlineAt (now : Z) (minutes : Z) : Z := (now / 1000 + minutes * 60)%Z.

(** The handler every [executeSwap] ends with. *)
Definition swapFailure (dex : string) (error : exn) : Tx string :=
  liftTx
    (match error with
     | JsError _ (Some message) => Throw (SwapFailedError dex message)
     | JsError _ None => Throw (SwapFailedError dex "Unknown error")
     | _ => Throw error
     end).

(** ** UniswapV2Service (Camelot, Arbitrum) *)

Module UniswapV2Service.

Section Service.

Variable config : DexConfig.
Variable rt : Runtime.

Definition WETH_ADDRESS : string := "0x82aF49447D8a07e3bd95BD0d56f35241523fBab1".

Definition getName : string := "Camelot".

Definition getChainId : Z := 42161.

Let resolve := BaseDexService.resolve config.
Let canSwapDirectly := BaseDexService.canSwapDirectly config getName.

(** ETH -> WETH *)
Definition isWrapOperation (tokenIn tokenOut : Token) : bool :=
  let isFromETH := native tokenIn in
  let isToWETH :=
    (Js.toUpperCase (symbol tokenOut) =? "WETH")
    || (Js.toLowerCase (address tokenOut) =? Js.toLowerCase WETH_ADDRESS) in
  isFromETH && isToWETH.

(** WETH -> ETH *)
Definition isUnwrapOperation (tokenIn tokenOut : Token) : bool :=
  let isFromWETH :=
    (Js.toUpperCase (symbol tokenIn) =? "WETH")
    || (Js.toLowerCase (address tokenIn) =? Js.toLowerCase WETH_ADDRESS) in
  let isToETH := native tokenOut in
  isFromWETH && isToETH.

Definition getSwapRoute (tokenIn tokenOut : Token) (publicClient : PublicClient)
  : result (list string) :=
  let addressIn := resolve tokenIn in
  let addressOut := resolve tokenOut in
  directPairExists <- canSwapDirectly tokenIn tokenOut publicClient ;;
  if directPairExists then Ok [addressIn; addressOut]
  else
    let wethAddress := BaseDexService.getWethAddress config in
    return_if
      (if negb (addressIn =? wethAddress) && negb (addressOut =? wethAddress) then
         match find (fun t => Js.toLowerCase (address t) =? Js.toLowerCase wethAddress)
                    (tokens config) with
         | Some wethToken =>
             c0 <- canSwapDirectly tokenIn wethToken publicClient ;;
             c1 <- canSwapDirectly wethToken tokenOut publicClient ;;
             if c0 && c1 then Ok (Some [addressIn; wethAddress; addressOut])
             else Ok None
         | None => Ok None
         end
       else Ok None) ;;
    let usdcToken := find (fun t => symbol t =? "USDC") (tokens config) in
    return_if
      (match usdcToken with
       | Some usdcToken =>
           if negb (addressIn =? address usdcToken)
              && negb (addressOut =? address usdcToken) then
             c0 <- canSwapDirectly tokenIn usdcToken publicClient ;;
             c1 <- canSwapDirectly usdcToken tokenOut publicClient ;;
             if c0 && c1 then Ok (Some [addressIn; address usdcToken; addressOut])
             else Ok None
           else Ok None
       | None => Ok None
       end) ;;
    let usdtToken := find (fun t => symbol t =? "USDT") (tokens config) in
    return_if
      (match usdtToken with
       | Some usdtToken =>
           if negb (addressIn =? address usdtToken)
              && negb (addressOut =? address usdtToken) then
             c0 <- canSwapDirectly tokenIn usdtToken publicClient ;;
             c1 <- canSwapDirectly usdtToken tokenOut publicClient ;;
             if c0 && c1 then Ok (Some [addressIn; address usdtToken; addressOut])
             else Ok None
           else Ok None
       | None => Ok None
       end) ;;
    Ok [].

Definition getQuote (tokenIn tokenOut : Token) (amountIn : string)
    (publicClient : PublicClient) : result QuoteResult :=
  if isWrapOperation tokenIn tokenOut || isUnwrapOperation tokenIn tokenOut then
    Ok {| amountOut := amountIn;
          route := [address tokenIn; address tokenOut];
          priceImpact := JStr "0";
          executionPrice := Some "1.0";
          gasEstimate := None |}
  else
    BaseDexService.getQuote config rt getName getSwapRoute
      tokenIn tokenOut amountIn publicClient.

Definition executeSwap (params : SwapParams) (walletClient : option WalletClient)
    (now : Z) : Tx string :=
  catchTx
    (wallet <~ liftTx match walletClient with
                      | None => Throw (DexError "Wallet client not available"
                                         "NO_WALLET" getName)
                      | Some w => Ok w
                      end ;;
     account <~ liftTx match account wallet with
                       | None => Throw (DexError "No account found in wallet client"
                                          "NO_ACCOUNT" getName)
                       | Some a => Ok a
                       end ;;
     amountIn <~ liftTx (parseUnits rt (p_amountIn params)
                           (decimals (p_tokenIn params))) ;;
     let isWrap := isWrapOperation (p_tokenIn params) (p_tokenOut params) in
     let isUnwrap := isUnwrapOperation (p_tokenIn params) (p_tokenOut params) in
     if isWrap then
       writeContract wallet
         {| call_address := WETH_ADDRESS;
            call_functionName := "deposit";
            call_args := [];
            call_value := Some amountIn;
            call_account := account |}
     else if isUnwrap then
       writeContract wallet
         {| call_address := WETH_ADDRESS;
            call_functionName := "withdraw";
            call_args := [AUint amountIn];
            call_value := None;
            call_account := account |}
     else
       route <~ liftTx match p_route params with
                       | Some r => Ok r
                       | None => getSwapRoute (p_tokenIn params) (p_tokenOut params)
                                   (Some (wallet_reads wallet))
                       end ;;
       if (List.length route =? 0)%nat
       then liftTx (Throw (SwapFailedError getName "No swap route available"))
       else
         amountOutMin <~ liftTx (parseUnits rt (p_amountOutMin params)
                                   (decimals (p_tokenOut params))) ;;
         let deadline := deadlineAt now (p_deadline params) in
         if native (p_tokenIn params) then
           writeContract wallet
             {| call_address := router config;
                call_functionName := "swapExactETHForTokens";
                call_args := [AUint amountOutMin; AAddressList route;
                              AAddress (p_to params); AUint deadline];
                call_value := Some amountIn;
                call_account := account |}
         else if native (p_tokenOut params) then
           writeContract wallet
             {| call_address := router config;
                call_functionName := "swapExactTokensForETH";
                call_args := [AUint amountIn; AUint amountOutMin; AAddressList route;
                              AAddress (p_to params); AUint deadline];
                call_value := None;
                call_account := account |}
         else
           writeContract wallet
             {| call_address := router config;
                call_functionName := "swapExactTokensForTokens";
                call_args := [AUint amountIn; AUint amountOutMin; AAddressList route;
                              AAddress (p_to params); AUint deadline];
                call_value := None;
                call_account := account |})
    (swapFailure getName).

(** The price helpers read through a client of their own, the one
    [createPublicClient] makes for the RPC endpoint of the chain: [chain]. *)
Definition getETHPrice (chain : Chain) : result float :=
  try_catch
    (let ethToken := find native (tokens config) in
     let usdcToken := find (fun t => symbol t =? "USDC") (tokens config) in
     match ethToken, usdcToken with
     | Some ethToken, Some usdcToken =>
         pairInfo <- BaseDexService.getPairInfo config getName ethToken usdcToken
                       (Some chain) ;;
         match pairInfo with
         | None => Ok 0%float
         | Some pairInfo =>
             let ethReserve := parseFloat rt (reserve0 pairInfo) in
             let usdcReserve := parseFloat rt (reserve1 pairInfo) in
             Ok (usdcReserve / ethReserve)%float
         end
     | _, _ => Ok 0%float
     end)
    (fun _ => Ok 0%float).

Definition getARBPrice (chain : Chain) : result float :=
  try_catch
    (let arbToken := find (fun t => symbol t =? "ARB") (tokens config) in
     let ethToken := find native (tokens config) in
     match arbToken, ethToken with
     | Some arbToken, Some ethToken =>
         pairInfo <- BaseDexService.getPairInfo config getName arbToken ethToken
                       (Some chain) ;;
         match pairInfo with
         | None => Ok 0%float
         | Some pairInfo =>
             let arbReserve := parseFloat rt (reserve0 pairInfo) in
             let ethReserve := parseFloat rt (reserve1 pairInfo) in
             let arbPriceInETH := (ethReserve / arbReserve)%float in
             ethPriceUSD <- getETHPrice chain ;;
             Ok (arbPriceInETH * ethPriceUSD)%float
         end
     | _, _ => Ok 0%float
     end)
    (fun _ => Ok 0%float).

End Service.

End UniswapV2Service.

(** ** PancakeSwapService (PancakeSwap, BSC) *)

Module PancakeSwapService.

Section Service.

Variable config : DexConfig.
Variable rt : Runtime.

Definition WBNB_ADDRESS : string := "0xbb4CdB9CBd36B01bD1cBaEBF2De08d9173bc095c".

Definition getName : string := "PancakeSwap".

Definition getChainId : Z := 56.

Let resolve := BaseDexService.resolve config.
Let canSwapDirectly := BaseDexService.canSwapDirectly config getName.

(** BNB -> WBNB *)
Definition isWrapOperation (tokenIn tokenOut : Token) : bool :=
  let isFromBNB := native tokenIn in
  let isToWBNB :=
    (Js.toUpperCase (symbol tokenOut) =? "WBNB")
    || (Js.toLowerCase (address tokenOut) =? Js.toLowerCase WBNB_ADDRESS) in
  isFromBNB && isToWBNB.

(** WBNB -> BNB *)
Definition isUnwrapOperation (tokenIn tokenOut : Token) : bool :=
  let isFromWBNB :=
    (Js.toUpperCase (symbol tokenIn) =? "WBNB")
    || (Js.toLowerCase (address tokenIn) =? Js.toLowerCase WBNB_ADDRESS) in
  let isToBNB := native tokenOut in
  isFromWBNB && isToBNB.

Definition getSwapRoute (tokenIn tokenOut : Token) (publicClient : PublicClient)
  : result (list string) :=
  let addressIn := resolve tokenIn in
  let addressOut := resolve tokenOut in
  directPairExists <- canSwapDirectly tokenIn tokenOut publicClient ;;
  if directPairExists then Ok [addressIn; addressOut]
  else
    let wbnbAddress := BaseDexService.getWethAddress config in
    return_if
      (if negb (addressIn =? wbnbAddress) && negb (addressOut =? wbnbAddress) then
         match find (fun t => Js.toLowerCase (address t) =? Js.toLowerCase wbnbAddress)
                    (tokens config) with
         | Some wbnbToken =>
             c0 <- canSwapDirectly tokenIn wbnbToken publicClient ;;
             c1 <- canSwapDirectly wbnbToken tokenOut publicClient ;;
             if c0 && c1 then Ok (Some [addressIn; wbnbAddress; addressOut])
             else Ok None
         | None => Ok None
         end
       else Ok None) ;;
    let usdtToken := find (fun t => symbol t =? "USDT") (tokens config) in
    return_if
      (match usdtToken with
       | Some usdtToken =>
           if negb (addressIn =? address usdtToken)
              && negb (addressOut =? address usdtToken) then
             c0 <- canSwapDirectly tokenIn usdtToken publicClient ;;
             c1 <- canSwapDirectly usdtToken tokenOut publicClient ;;
             if c0 && c1 then Ok (Some [addressIn; address usdtToken; addressOut])
             else Ok None
           else Ok None
       | None => Ok None
       end) ;;
    let busdToken := find (fun t => symbol t =? "BUSD") (tokens config) in
    return_if
      (match busdToken with
       | Some busdToken =>
           if negb (addressIn =? address busdToken)
              && negb (addressOut =? address busdToken) then
             c0 <- canSwapDirectly tokenIn busdToken publicClient ;;
             c1 <- canSwapDirectly busdToken tokenOut publicClient ;;
             if c0 && c1 then Ok (Some [addressIn; address busdToken; addressOut])
             else Ok None
           else Ok None
       | None => Ok None
       end) ;;
    Ok [].

Definition getQuote (tokenIn tokenOut : Token) (amountIn : string)
    (publicClient : PublicClient) : result QuoteResult :=
  if isWrapOperation tokenIn tokenOut || isUnwrapOperation tokenIn tokenOut then
    Ok {| amountOut := amountIn;
          route := [address tokenIn; address tokenOut];
          priceImpact := JNum 0%float;
          executionPrice := None;
          gasEstimate := None |}
  else
    BaseDexService.getQuote config rt getName getSwapRoute
      tokenIn tokenOut amountIn publicClient.

Definition executeSwap (params : SwapParams) (walletClient : option WalletClient)
    (now : Z) : Tx string :=
  catchTx
    (wallet <~ liftTx match walletClient with
                      | None => Throw (DexError "Wallet client not available"
                                         "NO_WALLET" getName)
                      | Some w => Ok w
                      end ;;
     account <~ liftTx match account wallet with
                       | None => Throw (DexError "No account found in wallet client"
                                          "NO_ACCOUNT" getName)
                       | Some a => Ok a
                       end ;;
     amountIn <~ liftTx (parseUnits rt (p_amountIn params)
                           (decimals (p_tokenIn params))) ;;
     let isWrap := isWrapOperation (p_tokenIn params) (p_tokenOut params) in
     let isUnwrap := isUnwrapOperation (p_tokenIn params) (p_tokenOut params) in
     if isWrap then
       writeContract wallet
         {| call_address := WBNB_ADDRESS;
            call_functionName := "deposit";
            call_args := [];
            call_value := Some amountIn;
            call_account := account |}
     else if isUnwrap then
       writeContract wallet
         {| call_address := WBNB_ADDRESS;
            call_functionName := "withdraw";
            call_args := [AUint amountIn];
            call_value := None;
            call_account := account |}
     else
       route <~ liftTx match p_route params with
                       | Some r => Ok r
                       | None => getSwapRoute (p_tokenIn params) (p_tokenOut params)
                                   (Some (wallet_reads wallet))
                       end ;;
       if (List.length route =? 0)%nat
       then liftTx (Throw (SwapFailedError getName "No swap route available"))
       else
         amountOutMin <~ liftTx (parseUnits rt (p_amountOutMin params)
                                   (decimals (p_tokenOut params))) ;;
         let deadline := deadlineAt now (p_deadline params) in
         if native (p_tokenIn params) then
           writeContract wallet
             {| call_address := router config;
                call_functionName := "swapExactETHForTokens";
                call_args := [AUint amountOutMin; AAddressList route;
                              AAddress (p_to params); AUint deadline];
                call_value := Some amountIn;
                call_account := account |}
         else if native (p_tokenOut params) then
           writeContract wallet
             {| call_address := router config;
                call_functionName := "swapExactTokensForETH";
                call_args := [AUint amountIn; AUint amountOutMin; AAddressList route;
                              AAddress (p_to params); AUint deadline];
                call_value := None;
                call_account := account |}
         else
           writeContract wallet
             {| call_address := router config;
                call_functionName := "swapExactTokensForTokens";
                call_args := [AUint amountIn; AUint amountOutMin; AAddressList route;
                              AAddress (p_to params); AUint deadline];
                call_value := None;
                call_account := account |})
    (swapFailure getName).

(** The price helpers read through a client of their own, the one
    [createPublicClient] makes for the RPC endpoint of the chain: [chain]. *)
Definition getBNBPrice (chain : Chain) : result float :=
  try_catch
    (let bnbToken := find native (tokens config) in
     let usdtToken := find (fun t => symbol t =? "USDT") (tokens config) in
     match bnbToken, usdtToken with
     | Some bnbToken, Some usdtToken =>
         pairInfo <- BaseDexService.getPairInfo config getName bnbToken usdtToken
                       (Some chain) ;;
         match pairInfo with
         | None => Ok 0%float
         | Some pairInfo =>
             let bnbReserve := parseFloat rt (reserve0 pairInfo) in
             let usdtReserve := parseFloat rt (reserve1 pairInfo) in
             Ok (usdtReserve / bnbReserve)%float
         end
     | _, _ => Ok 0%float
     end)
    (fun _ => Ok 0%float).

Definition getCAKEPrice (chain : Chain) : result float :=
  try_catch
    (let cakeToken := find (fun t => symbol t =? "CAKE") (tokens config) in
     let bnbToken := find native (tokens config) in
     match cakeToken, bnbToken with
     | Some cakeToken, Some bnbToken =>
         pairInfo <- BaseDexService.getPairInfo config getName cakeToken bnbToken
                       (Some chain) ;;
         match pairInfo with
         | None => Ok 0%float
         | Some pairInfo =>
             let cakeReserve := parseFloat rt (reserve0 pairInfo) in
             let bnbReserve := parseFloat rt (reserve1 pairInfo) in
             let cakePriceInBNB := (bnbReserve / cakeReserve)%float in
             bnbPriceUSD <- getBNBPrice chain ;;
             Ok (cakePriceInBNB * bnbPriceUSD)%float
         end
     | _, _ => Ok 0%float
     end)
    (fun _ => Ok 0%float).

End Service.

End PancakeSwapService.

(** ** KalySwapService (KalySwap, KalyChain) *)

Module KalySwapService.

Section Service.

Variable config : DexConfig.
Variable rt : Runtime.

Definition WKLC_ADDRESS : string := "0x069255299Bb729399f3CECaBdc73d15d3D10a2A3".

Definition getName : string := "KalySwap".

Definition getChainId : Z := 3888.

Let resolve := BaseDexService.resolve config.
Let canSwapDirectly := BaseDexService.canSwapDirectly config getName.

(** KLC -> WKLC *)
Definition isWrapOperation (tokenIn tokenOut : Token) : bool :=
  let isFromKLC := native tokenIn in
  let isToWKLC :=
    (Js.toUpperCase (symbol tokenOut) =? "WKLC")
    || (Js.toLowerCase (address tokenOut) =? Js.toLowerCase WKLC_ADDRESS) in
  isFromKLC && isToWKLC.

(** WKLC -> KLC *)
Definition isUnwrapOperation (tokenIn tokenOut : Token) : bool :=
  let isFromWKLC :=
    (Js.toUpperCase (symbol tokenIn) =? "WKLC")
    || (Js.toLowerCase (address tokenIn) =? Js.toLowerCase WKLC_ADDRESS) in
  let isToKLC := native tokenOut in
  isFromWKLC && isToKLC.

Definition getSwapRoute (tokenIn tokenOut : Token) (publicClient : PublicClient)
  : result (list string) :=
  let addressIn := resolve tokenIn in
  let addressOut := resolve tokenOut in
  directPairExists <- canSwapDirectly tokenIn tokenOut publicClient ;;
  if directPairExists then Ok [addressIn; addressOut]
  else
    let wklcAddress := BaseDexService.getWethAddress config in
    return_if
      (if negb (addressIn =? wklcAddress) && negb (addressOut =? wklcAddress) then
         match find (fun t => Js.toLowerCase (address t) =? Js.toLowerCase wklcAddress)
                    (tokens config) with
         | Some wklcToken =>
             c0 <- canSwapDirectly tokenIn wklcToken publicClient ;;
             c1 <- canSwapDirectly wklcToken tokenOut publicClient ;;
             if c0 && c1 then Ok (Some [addressIn; wklcAddress; addressOut])
             else Ok None
         | None => Ok None
         end
       else Ok None) ;;
    let usdtToken := find (fun t => symbol t =? "USDT") (tokens config) in
    return_if
      (match usdtToken with
       | Some usdtToken =>
           if negb (addressIn =? address usdtToken)
              && negb (addressOut =? address usdtToken) then
             c0 <- canSwapDirectly tokenIn usdtToken publicClient ;;
             c1 <- canSwapDirectly usdtToken tokenOut publicClient ;;
             if c0 && c1 then Ok (Some [addressIn; address usdtToken; addressOut])
             else Ok None
           else Ok None
       | None => Ok None
       end) ;;
    Ok [].

Definition getQuote (tokenIn tokenOut : Token) (amountIn : string)
    (publicClient : PublicClient) : result QuoteResult :=
  if isWrapOperation tokenIn tokenOut || isUnwrapOperation tokenIn tokenOut then
    Ok {| amountOut := amountIn;
          route := [address tokenIn; address tokenOut];
          priceImpact := JNum 0%float;
          executionPrice := None;
          gasEstimate := None |}
  else
    BaseDexService.getQuote config rt getName getSwapRoute
      tokenIn tokenOut amountIn publicClient.

Definition executeSwap (params : SwapParams) (walletClient : option WalletClient)
    (now : Z) : Tx string :=
  catchTx
    (wallet <~ liftTx match walletClient with
                      | None => Throw (DexError "Wallet client not available"
                                         "NO_WALLET" getName)
                      | Some w => Ok w
                      end ;;
     account <~ liftTx match account wallet with
                       | None => Throw (DexError "No account found in wallet client"
                                          "NO_ACCOUNT" getName)
                       | Some a => Ok a
                       end ;;
     amountIn <~ liftTx (parseUnits rt (p_amountIn params)
                           (decimals (p_tokenIn params))) ;;
     let isWrap := isWrapOperation (p_tokenIn params) (p_tokenOut params) in
     let isUnwrap := isUnwrapOperation (p_tokenIn params) (p_tokenOut params) in
     if isWrap then
       writeContract wallet
         {| call_address := WKLC_ADDRESS;
            call_functionName := "deposit";
            call_args := [];
            call_value := Some amountIn;
            call_account := account |}
     else if isUnwrap then
       writeContract wallet
         {| call_address := WKLC_ADDRESS;
            call_functionName := "withdraw";
            call_args := [AUint amountIn];
            call_value := None;
            call_account := account |}
     else
       route <~ liftTx match p_route params with
                       | Some r => Ok r
                       | None => getSwapRoute (p_tokenIn params) (p_tokenOut params)
                                   (Some (wallet_reads wallet))
                       end ;;
       if (List.length route =? 0)%nat
       then liftTx (Throw (SwapFailedError getName "No swap route available"))
       else
         amountOutMin <~ liftTx (parseUnits rt (p_amountOutMin params)
                                   (decimals (p_tokenOut params))) ;;
         let deadline := deadlineAt now (p_deadline params) in
         if native (p_tokenIn params) then
           writeContract wallet
             {| call_address := router config;
                call_functionName := "swapExactKLCForTokens";
                call_args := [AUint amountOutMin; AAddressList route;
                              AAddress (p_to params); AUint deadline];
                call_value := Some amountIn;
                call_account := account |}
         else if native (p_tokenOut params) then
           writeContract wallet
             {| call_address := router config;
                call_functionName := "swapExactTokensForKLC";
                call_args := [AUint amountIn; AUint amountOutMin; AAddressList route;
                              AAddress (p_to params); AUint deadline];
                call_value := None;
                call_account := account |}
         else
           writeContract wallet
             {| call_address := router config;
                call_functionName := "swapExactTokensForTokens";
                call_args := [AUint amountIn; AUint amountOutMin; AAddressList route;
                              AAddress (p_to params); AUint deadline];
                call_value := None;
                call_account := account |})
    (swapFailure getName).

(** The price helpers read through a client of their own, the one
    [createPublicClient] makes for the RPC endpoint of the chain: [chain]. *)
Definition getKLCPrice (chain : Chain) : result float :=
  try_catch
    (let klcToken := find native (tokens config) in
     let usdtToken := find (fun t => symbol t =? "USDT") (tokens config) in
     match klcToken, usdtToken with
     | Some klcToken, Some usdtToken =>
         pairInfo <- BaseDexService.getPairInfo config getName klcToken usdtToken
                       (Some chain) ;;
         match pairInfo with
         | None => Ok 0%float
         | Some pairInfo =>
             let klcReserve := parseFloat rt (reserve0 pairInfo) in
             let usdtReserve := parseFloat rt (reserve1 pairInfo) in
             Ok (usdtReserve / klcReserve)%float
         end
     | _, _ => Ok 0%float
     end)
    (fun _ => Ok 0%float).

Definition getKSWAPPrice (chain : Chain) : result float :=
  try_catch
    (let kswapToken := find (fun t => symbol t =? "KSWAP") (tokens config) in
     let klcToken := find native (tokens config) in
     match kswapToken, klcToken with
     | Some kswapToken, Some klcToken =>
         pairInfo <- BaseDexService.getPairInfo config getName kswapToken klcToken
                       (Some chain) ;;
         match pairInfo with
         | None => Ok 0%float
         | Some pairInfo =>
             let kswapReserve := parseFloat rt (reserve0 pairInfo) in
             let klcReserve := parseFloat rt (reserve1 pairInfo) in
             let kswapPriceInKLC := (klcReserve / kswapReserve)%float in
             klcPriceUSD <- getKLCPrice chain ;;
             Ok (kswapPriceInKLC * klcPriceUSD)%float
         end
     | _, _ => Ok 0%float
     end)
    (fun _ => Ok 0%float).

End Service.

End KalySwapService.

(** ** The uniform adapter contract *)

(** [IDexService], as the callers see a service: the methods of the
    interface, with [getPairAddress] and [calculatePriceImpact] of the base
    class. *)
Record IDexService : Type := mkService {
  getName : string;
  getChainId : Z;
  getQuote : Token -> Token -> string -> PublicClient -> result QuoteResult;
  getSwapRoute : Token -> Token -> PublicClient -> result (list string);
  executeSwap : SwapParams -> option WalletClient -> Z -> Tx string;
  getPairAddress : Token -> Token -> PublicClient -> result (option string);
  getPairInfo : Token -> Token -> PublicClient -> result (option PairInfo);
  calculatePriceImpact : Token -> Token -> string -> PublicClient -> result float
}.

Inductive Adapter : Type := Camelot | PancakeSwap | KalySwap.

Definition service (a : Adapter) (config : DexConfig) (rt : Runtime) : IDexService :=
  match a with
  | Camelot =>
      {| getName := UniswapV2Service.getName;
         getChainId := UniswapV2Service.getChainId;
         getQuote := UniswapV2Service.getQuote config rt;
         getSwapRoute := UniswapV2Service.getSwapRoute config;
         executeSwap := UniswapV2Service.executeSwap config rt;
         getPairAddress := BaseDexService.getPairAddress config UniswapV2Service.getName;
         getPairInfo := BaseDexService.getPairInfo config UniswapV2Service.getName;
         calculatePriceImpact :=
           BaseDexService.calculatePriceImpact config rt UniswapV2Service.getName |}
  | PancakeSwap =>
      {| getName := PancakeSwapService.getName;
         getChainId := PancakeSwapService.getChainId;
         getQuote := PancakeSwapService.getQuote config rt;
         getSwapRoute := PancakeSwapService.getSwapRoute config;
         executeSwap := PancakeSwapService.executeSwap config rt;
         getPairAddress := BaseDexService.getPairAddress config PancakeSwapService.getName;
         getPairInfo := BaseDexService.getPairInfo config PancakeSwapService.getName;
         calculatePriceImpact :=
           BaseDexService.calculatePriceImpact config rt PancakeSwapService.getName |}
  | KalySwap =>
      {| getName := KalySwapService.getName;
         getChainId := KalySwapService.getChainId;
         getQuote := KalySwapService.getQuote config rt;
         getSwapRoute := KalySwapService.getSwapRoute config;
         executeSwap := KalySwapService.executeSwap config rt;
         getPairAddress := BaseDexService.getPairAddress config KalySwapService.getName;
         getPairInfo := BaseDexService.getPairInfo config KalySwapService.getName;
         calculatePriceImpact :=
           BaseDexService.calculatePriceImpact config rt KalySwapService.getName |}
  end.

(** The private wrap and unwrap tests of each adapter. *)
Definition isWrapOperation (a : Adapter) : Token -> Token -> bool :=
  match a with
  | Camelot => UniswapV2Service.isWrapOperation
  | PancakeSwap => PancakeSwapService.isWrapOperation
  | KalySwap => KalySwapService.isWrapOperation
  end.

Definition isUnwrapOperation (a : Adapter) : Token -> Token -> bool :=
  match a with
  | Camelot => UniswapV2Service.isUnwrapOperation
  | PancakeSwap => PancakeSwapService.isUnwrapOperation
  | KalySwap => KalySwapService.isUnwrapOperation
  end.

(** The price helpers of each adapter: the price of the native token in
    the chain's quote stablecoin, and the price of the exchange's own token
    through the native one. *)
Definition quoteSymbol (a : Adapter) : string :=
  match a with
  | Camelot => "USDC"
  | PancakeSwap => "USDT"
  | KalySwap => "USDT"
  end.

Definition ownSymbol (a : Adapter) : string :=
  match a with
  | Camelot => "ARB"
  | PancakeSwap => "CAKE"
  | KalySwap => "KSWAP"
  end.

Definition getNativePrice (a : Adapter) (config : DexConfig) (rt : Runtime)
  : Chain -> result float :=
  match a with
  | Camelot => UniswapV2Service.getETHPrice config rt
  | PancakeSwap => PancakeSwapService.getBNBPrice config rt
  | KalySwap => KalySwapService.getKLCPrice config rt
  end.

Definition getOwnTokenPrice (a : Adapter) (config : DexConfig) (rt : Runtime)
  : Chain -> result float :=
  match a with
  | Camelot => UniswapV2Service.getARBPrice config rt
  | PancakeSwap => PancakeSwapService.getCAKEPrice config rt
  | KalySwap => KalySwapService.getKSWAPPrice config rt
  end.

(** A route of three addresses between the two resolved endpoints, whose
    bridge is neither of them. *)
Definition bridged (config : DexConfig) (tokenIn tokenOut : Token)
    (path : list string) : Prop :=
  exists bridge,
    path = [BaseDexService.resolve config tokenIn; bridge;
            BaseDexService.resolve config tokenOut]
    /\ bridge <> BaseDexService.resolve config tokenIn
    /\ bridge <> BaseDexService.resolve config tokenOut.

(** ** Price impact utilities ([utils/multichainPriceImpact.ts]) *)

Module MultichainPriceImpact.

Inductive Severity : Type := low | medium | high | critical.

(** The levels in their order. *)
Definition level (s : Severity) : nat :=
  match s with
  | low => 0
  | medium => 1
  | high => 2
  | critical => 3
  end.

(** [Array.prototype.includes] on strings. *)
Definition includes (l : list string) (s : string) : bool :=
  existsb (String.eqb s) l.

Section Utilities.

(** [parseFloat] of the runtime, [Number.prototype.toString] and
    [Number.prototype.toFixed]. *)
Variable rt : Runtime.
Variable numberToString : float -> string.
Variable toFixed : float -> Z -> string.

Definition formatPriceImpact (priceImpact : float) : string :=
  if (priceImpact =? 0)%float then "0.00%"
  else if (priceImpact <? 0x1.47ae147ae147bp-7)%float (* 0.01 *) then "< 0.01%"
  else if (priceImpact <? 1)%float then toFixed priceImpact 2 ++ "%"
  else if (priceImpact <? 10)%float then toFixed priceImpact 1 ++ "%"
  else toFixed priceImpact 0 ++ "%".

Definition getPriceImpactColor (priceImpact : float) : string :=
  if (priceImpact <? 1)%float then "text-green-400"
  else if (priceImpact <? 3)%float then "text-yellow-400"
  else if (priceImpact <? 5)%float then "text-orange-400"
  else "text-red-400".

Definition getPriceImpactSeverity (priceImpact : float) : Severity :=
  if (priceImpact <? 1)%float then low
  else if (priceImpact <? 3)%float then medium
  else if (priceImpact <? 5)%float then high
  else critical.

Definition shouldWarnPriceImpact (priceImpact : float) : bool :=
  (3 <=? priceImpact)%float.

Definition getPriceImpactWarning (priceImpact : float) : option string :=
  if (priceImpact <? 3)%float then None
  else if (priceImpact <? 5)%float then
    Some "High price impact. You may lose a significant portion of your tokens."
  else if (priceImpact <? 15)%float then
    Some "Very high price impact. You will lose a significant portion of your tokens."
  else Some "Extremely high price impact. This swap is not recommended.".

Definition calculateMinAmountOut (amountOut : string) (slippageTolerance : float)
  : string :=
  let amount := parseFloat rt amountOut in
  if is_nan amount || (amount <=? 0)%float then "0"
  else
    let slippageMultiplier := ((100 - slippageTolerance) / 100)%float in
    let minAmount := (amount * slippageMultiplier)%float in
    numberToString minAmount.

Definition isValidSlippage (slippage : float) : bool :=
  (0x1.999999999999ap-4 <=? slippage)%float (* 0.1 *) && (slippage <=? 50)%float.

Definition getRecommendedSlippage (tokenASymbol tokenBSymbol : string) : float :=
  let stablecoins := ["USDT"; "USDC"; "USDC.e"; "DAI"; "BUSD"; "FRAX"] in
  let isStablePair :=
    includes stablecoins tokenASymbol && includes stablecoins tokenBSymbol in
  if isStablePair then 0x1.999999999999ap-4%float (* 0.1 *)
  else
    let majorTokens := ["ETH"; "WETH"; "BTC"; "WBTC"; "BNB"; "WBNB"; "KLC"; "wKLC"] in
    let isMajorPair :=
      includes majorTokens tokenASymbol || includes majorTokens tokenBSymbol in
    if isMajorPair then 0.5%float
    else 1%float.

End Utilities.

End MultichainPriceImpact.

(** ** Token lists ([services/tokenListService.ts]) *)

(** A JavaScript [Map] with string keys: its entries in insertion order.
    [set] on a key that is present replaces the value where it stands, on a
    new key it adds an entry at the end. *)
Module JsMap.

Section Entries.

Context {V : Type}.

Fixpoint get (m : list (string * V)) (key : string) : option V :=
  match m with
  | [] => None
  | (k, v) :: m' => if k =? key then Some v else get m' key
  end.

Fixpoint set (m : list (string * V)) (key : string) (value : V) : list (string * V) :=
  match m with
  | [] => [(key, value)]
  | (k, v) :: m' => if k =? key then (k, value) :: m' else (k, v) :: set m' key value
  end.

Definition keys (m : list (string * V)) : list string := map fst m.

Definition values (m : list (string * V)) : list V := map snd m.

End Entries.

End JsMap.

Module TokenListService.

(** [TokenList]; its name, version, timestamp, logo and keywords carry no
    behaviour here. *)
Record TokenList : Type := mkTokenList {
  tokens : list Token
}.

Record TokenListConfig : Type := mkTokenListConfig {
  name : string;
  url : string;
  priority : Z;
  enabled : bool
}.

(** [Token & { priority: number }] *)
Record PrioritizedToken : Type := mkPrioritized {
  token : Token;
  token_priority : Z
}.

(** [`${token.chainId}-${token.address.toLowerCase()}`] *)
Definition keyOf (t : Token) : string :=
  Js.bigintToString (chainId t) ++ "-" ++ Js.toLowerCase (address t).

(** One turn of the loop of [deduplicateTokens]. *)
Definition keepHighest (tokenMap : list (string * PrioritizedToken))
    (t : PrioritizedToken) : list (string * PrioritizedToken) :=
  let key := keyOf (token t) in
  match JsMap.get tokenMap key with
  | None => JsMap.set tokenMap key t
  | Some existing =>
      if (token_priority t >? token_priority existing)%Z
      then JsMap.set tokenMap key t
      else tokenMap
  end.

Definition deduplicateTokens (all : list PrioritizedToken) : list Token :=
  let tokenMap := fold_left keepHighest all [] in
  map token (JsMap.values tokenMap).

(** What the loop of [deduplicateTokens] keeps true of its map after the
    tokens [seen]: no key twice; every entry under the key of its token, a
    token that was seen; and every token seen has an entry under its key
    whose priority is not lower. *)
Definition kept (tokenMap : list (string * PrioritizedToken))
    (seen : list PrioritizedToken) : Prop :=
  NoDup (JsMap.keys tokenMap)
  /\ (forall k v, In (k, v) tokenMap -> k = keyOf (token v) /\ In v seen)
  /\ (forall t, In t seen ->
        exists v, JsMap.get tokenMap (keyOf (token t)) = Some v
                  /\ (token_priority t <= token_priority v)%Z).

Section Service.

(** What [fetchTokenList] resolves with (a list, or [null] after any
    failure: it never rejects) depends on its cache, on the clock and on
    the network, the [World] it runs in and changes.  The configured lists
    ([TOKEN_LIST_CONFIGS], by chain id) are not part of the sources at
    hand. *)
Variable World : Type.
Variable fetchTokenList : string -> World -> option TokenList * World.
Variable TOKEN_LIST_CONFIGS : Z -> option (list TokenListConfig).

(** One turn of the loop of [getTokensForChain] for the chain [id]. *)
Definition addList (id : Z) (state : list PrioritizedToken * World)
    (config : TokenListConfig) : list PrioritizedToken * World :=
  let '(allTokens, w) := state in
  match fetchTokenList (url config) w with
  | (Some tokenList, w') =>
      let chainTokens :=
        map (fun t => {| token := t; token_priority := priority config |})
            (filter (fun t => (chainId t =? id)%Z) (tokens tokenList)) in
      (allTokens ++ chainTokens, w')
  | (None, w') => (allTokens, w')
  end.

Definition getTokensForChain (id : Z) (w : World) : list Token * World :=
  let configs := match TOKEN_LIST_CONFIGS id with
                 | Some configs => configs
                 | None => []
                 end in
  let enabledConfigs := filter enabled configs in
  if (List.length enabledConfigs =? 0)%nat then ([], w)
  else
    let '(allTokens, w') := fold_left (addList id) enabledConfigs ([], w) in
    (deduplicateTokens allTokens, w').

Definition getTokenListConfigs (id : Z) : list TokenListConfig :=
  match TOKEN_LIST_CONFIGS id with
  | Some configs => configs
  | None => []
  end.

End Service.

End TokenListService.

(** ** A reference runtime

    The library functions on the inputs the examples below use: decimal
    strings and non-negative amounts.  [parseFloat] reads the longest prefix
    that is a decimal literal and rounds it to the nearest double;
    [formatUnits] and [parseUnits] follow viem. *)

Module Reference.

Definition isDigit (c : ascii) : bool :=
  let n := nat_of_ascii c in (48 <=? n)%nat && (n <=? 57)%nat.

Definition digitValue (c : ascii) : Z := Z.of_nat (nat_of_ascii c - 48).

Definition isWhiteSpace (c : ascii) : bool :=
  let n := nat_of_ascii c in
  (n =? 32)%nat || ((9 <=? n)%nat && (n <=? 13)%nat).

Fixpoint skipWhiteSpace (s : string) : string :=
  match s with
  | String c s' => if isWhiteSpace c then skipWhiteSpace s' else s
  | EmptyString => s
  end.

(** The digits at the head of [s]: their value after [acc], how many they
    are, and the rest of the string. *)
Fixpoint readDigits (s : string) (acc : Z) (count : nat) : Z * nat * string :=
  match s with
  | String c s' =>
      if isDigit c then readDigits s' (acc * 10 + digitValue c)%Z (S count)
      else (acc, count, s)
  | EmptyString => (acc, count, s)
  end.

Definition readSign (s : string) : bool * string :=
  match s with
  | String "-" s' => (true, s')
  | String "+" s' => (false, s')
  | _ => (false, s)
  end.

(** The exponent part [e[+-]digits], if there is one with a digit. *)
Definition readExponent (s : string) : Z :=
  match s with
  | String c s' =>
      if (c =? "e")%char || (c =? "E")%char then
        let '(neg, s'') := readSign s' in
        let '(e, n, _) := readDigits s'' 0%Z 0%nat in
        match n with
        | O => 0%Z
        | _ => if neg then (- e)%Z else e
        end
      else 0%Z
  | EmptyString => 0%Z
  end.

(** The double nearest to [(-1)^neg * m * 10^e]. *)
Definition decimalToFloat (neg : bool) (m : Z) (e : Z) : float :=
  match m with
  | Zpos p =>
      let num := if (0 <=? e)%Z then (Zpos p * 10 ^ e)%Z else Zpos p in
      let den := if (0 <=? e)%Z then 1%Z else (10 ^ (- e))%Z in
      match num, den with
      | Zpos n, Zpos d =>
          SF2Prim (SFdiv prec emax (S754_finite neg n 0) (S754_finite false d 0))
      | _, _ => nan
      end
  | _ => if neg then (-0)%float else 0%float
  end.

Definition parseFloat (s : string) : float :=
  let '(neg, s1) := readSign (skipWhiteSpace s) in
  if prefix "Infinity" s1 then (if neg then neg_infinity else infinity)
  else
    let '(int, ni, s2) := readDigits s1 0%Z 0%nat in
    let '(m, nf, s3) :=
      match s2 with
      | String "." s2' => readDigits s2' int 0%nat
      | _ => (int, 0%nat, s2)
      end in
    match (ni + nf)%nat with
    | O => nan
    | _ => decimalToFloat neg m (readExponent s3 - Z.of_nat nf)
    end.

Fixpoint repeatZero (n : nat) : string :=
  match n with
  | O => ""
  | S n' => String "0" (repeatZero n')
  end.

Fixpoint trimTrailingZeros (s : string) : string :=
  match s with
  | EmptyString => EmptyString
  | String c s' =>
      match trimTrailingZeros s' with
      | EmptyString => if (c =? "0")%char then EmptyString else String c EmptyString
      | t => String c t
      end
  end.

Definition formatUnits (value : Z) (decimals : Z) : string :=
  let negative := (value <? 0)%Z in
  let digits := Js.bigintToString (Z.abs value) in
  let d := Z.to_nat decimals in
  let display := (repeatZero (d - String.length digits) ++ digits)%string in
  let cut := (String.length display - d)%nat in
  let integer := substring 0 cut display in
  let fraction := trimTrailingZeros (substring cut d display) in
  ((if negative then "-" else "")
   ++ (if integer =? "" then "0" else integer)
   ++ (if fraction =? "" then "" else "." ++ fraction))%string.

(** [value] is an optional minus sign, digits, and an optional point
    followed by digits; the fraction beyond [decimals] digits is rounded
    half up. *)
Definition parseUnits (value : string) (decimals : Z) : result Z :=
  let '(negative, s1) :=
    match value with
    | String "-" s' => (true, s')
    | _ => (false, value)
    end in
  let '(int, _, s2) := readDigits s1 0%Z 0%nat in
  let s2' := match s2 with String "." r => r | _ => s2 end in
  let '(all, nf, s3) := readDigits s2' int 0%nat in
  if negb (s3 =? "") then
    Throw (JsError "InvalidDecimalNumberError" (Some "not a valid decimal number"))
  else
    let d := Z.to_nat decimals in
    let scaled :=
      if (nf <=? d)%nat then (all * 10 ^ Z.of_nat (d - nf))%Z
      else
        let drop := (10 ^ Z.of_nat (nf - d))%Z in
        ((all + drop / 2) / drop)%Z in
    Ok (if negative then (- scaled)%Z else scaled).

(** The value of a finite double [m * 2^e], as a fraction. *)
Definition fractionOf (m : positive) (e : Z) : Z * Z :=
  if (0 <=? e)%Z then (Zpos m * 2 ^ e, 1)%Z else (Zpos m, 2 ^ (- e))%Z.

(** The least [j] from which [num * 10^j >= den]. *)
Fixpoint firstScale (fuel : nat) (num den j : Z) : Z :=
  match fuel with
  | O => j
  | S fuel' =>
      if (den <=? num * 10 ^ j)%Z then j else firstScale fuel' num den (j + 1)%Z
  end.

(** The [n] of [10^(n-1) <= num / den < 10^n]. *)
Definition decimalExponent (num den : Z) : Z :=
  if (den <=? num)%Z then Z.of_nat (String.length (Js.bigintToString (num / den)))
  else (1 - firstScale 400 num den 1)%Z.

(** The shortest digits [s] ([k] of them) with [s * 10^(n-k)] rounding to
    [x], the nearest to [x] when there are two: [Number::toString]. *)
Fixpoint shortestDigits (fuel : nat) (x : float) (num den n k : Z) : Z * Z :=
  match fuel with
  | O => (0%Z, k)
  | S fuel' =>
      let shift := (k - n)%Z in
      let N := if (0 <=? shift)%Z then (num * 10 ^ shift)%Z else num in
      let D := if (0 <=? shift)%Z then den else (den * 10 ^ (- shift))%Z in
      let lo := (N / D)%Z in
      let hi := (lo + 1)%Z in
      let nearer := (2 * (N - lo * D) <=? D)%Z in
      let first := if nearer then lo else hi in
      let second := if nearer then hi else lo in
      let trips s := (decimalToFloat false s (n - k) =? x)%float in
      if trips first then (first, k)
      else if trips second then (second, k)
      else shortestDigits fuel' x num den n (k + 1)%Z
  end.

(** [Number.prototype.toString()] *)
Definition numberToString (x : float) : string :=
  match Prim2SF x with
  | S754_nan => "NaN"
  | S754_infinity s => if s then "-Infinity" else "Infinity"
  | S754_zero _ => "0"
  | S754_finite negative m e =>
      let '(num, den) := fractionOf m e in
      let n0 := decimalExponent num den in
      let '(s0, k) := shortestDigits 17 (abs x) num den n0 1%Z in
      let carried := (s0 =? 10 ^ k)%Z in
      let s := if carried then (10 ^ (k - 1))%Z else s0 in
      let n := if carried then (n0 + 1)%Z else n0 in
      let digits := Js.bigintToString s in
      let sign := if negative then "-" else "" in
      sign ++
      (if (k <=? n)%Z && (n <=? 21)%Z then digits ++ repeatZero (Z.to_nat (n - k))
       else if (0 <? n)%Z && (n <=? 21)%Z then
         substring 0 (Z.to_nat n) digits ++ "."
         ++ substring (Z.to_nat n) (Z.to_nat (k - n)) digits
       else if (-6 <? n)%Z && (n <=? 0)%Z then
         "0." ++ repeatZero (Z.to_nat (- n)) ++ digits
       else
         let exponent :=
           ((if (n - 1 <? 0)%Z then "-" else "+")
            ++ Js.bigintToString (Z.abs (n - 1)))%string in
         if (k =? 1)%Z then digits ++ "e" ++ exponent
         else substring 0 1 digits ++ "." ++ substring 1 (Z.to_nat (k - 1)) digits
              ++ "e" ++ exponent)
  end.

(** The digits of [n] with a point before the last [fractionDigits]. *)
Definition fixedDigits (n fractionDigits : Z) : string :=
  let m := Js.bigintToString n in
  if (fractionDigits =? 0)%Z then m
  else
    let f := Z.to_nat fractionDigits in
    let padded := (repeatZero (f + 1 - String.length m) ++ m)%string in
    let cut := (String.length padded - f)%nat in
    substring 0 cut padded ++ "." ++ substring cut f padded.

(** [Number.prototype.toFixed(fractionDigits)]: the nearest multiple of
    [10^-fractionDigits], the larger one of two. *)
Definition toFixed (x : float) (fractionDigits : Z) : string :=
  match Prim2SF x with
  | S754_zero _ => fixedDigits 0 fractionDigits
  | S754_finite negative m e =>
      let '(num, den) := fractionOf m e in
      if (10 ^ 21 * den <=? num)%Z then numberToString x
      else
        let n := ((2 * num * 10 ^ fractionDigits + den) / (2 * den))%Z in
        (if negative then "-" else "") ++ fixedDigits n fractionDigits
  | _ => numberToString x
  end.

Definition runtime : Runtime := mkRuntime parseUnits formatUnits parseFloat.

End Reference.

(** ** The properties of the specification, as it words them *)

Module Spec.

Section Planner.

Variable config : DexConfig.

(** Section 4.1: a pair exists between two addresses when the factory
    answers with an address other than the all-zero one. *)
Definition hasPair (publicClient : PublicClient) (a b : string) : bool :=
  match publicClient with
  | None => false
  | Some chain =>
      match factory_getPair chain (factory config) a b with
      | Ok found => negb (found =? ZERO_ADDRESS)
      | Throw _ => false
      end
  end.

(** Section 4.2, steps 3 and 4: the two-pair-existence check of a bridge,
    and the first bridge of an ordered list that passes it. *)
Definition viaBridge (publicClient : PublicClient) (addressIn addressOut bridge : string)
  : option (list string) :=
  if hasPair publicClient addressIn bridge && hasPair publicClient bridge addressOut
  then Some [addressIn; bridge; addressOut]
  else None.

Fixpoint firstRoute (publicClient : PublicClient) (addressIn addressOut : string)
    (bridges : list string) : list string :=
  match bridges with
  | [] => []
  | bridge :: rest =>
      match viaBridge publicClient addressIn addressOut bridge with
      | Some r => r
      | None => firstRoute publicClient addressIn addressOut rest
      end
  end.

(** The stablecoins of a chain, by symbol, as the registry lists them. *)
Definition stablecoin (sym : string) : list string :=
  match find (fun t => symbol t =? sym) (tokens config) with
  | Some t => [address t]
  | None => []
  end.

(** Section 4.2: direct pair, then the wrapped-native bridge when neither
    endpoint is the wrapped-native address, then the stablecoins in their
    order, then the empty route. *)
Definition getSwapRoute (stableOrder : list string) (tokenIn tokenOut : Token)
    (publicClient : PublicClient) : list string :=
  let addressIn := BaseDexService.resolve config tokenIn in
  let addressOut := BaseDexService.resolve config tokenOut in
  if hasPair publicClient addressIn addressOut then [addressIn; addressOut]
  else
    let wrapped := wethAddress config in
    let wrappedBridge :=
      if negb (addressIn =? wrapped) && negb (addressOut =? wrapped)
      then [wrapped] else [] in
    firstRoute publicClient addressIn addressOut
      (wrappedBridge ++ flat_map stablecoin stableOrder).



End Planner.

(** The stablecoin bridges of each chain, in their order: USDC then USDT on
    Arbitrum, USDT then BUSD on BSC, USDT on KalyChain. *)
Definition stableOrder (a : Adapter) : list string :=
  match a with
  | Camelot => ["USDC"; "USDT"]
  | PancakeSwap => ["USDT"; "BUSD"]
  | KalySwap => ["USDT"]
  end.

(** The wrapped-native token of each chain: its symbol and its contract. *)
Definition wrappedSymbol (a : Adapter) : string :=
  match a with
  | Camelot => "WETH"
  | PancakeSwap => "WBNB"
  | KalySwap => "WKLC"
  end.

Definition wrappedAddress (a : Adapter) : string :=
  match a with
  | Camelot => "0x82aF49447D8a07e3bd95BD0d56f35241523fBab1"
  | PancakeSwap => "0xbb4CdB9CBd36B01bD1cBaEBF2De08d9173bc095c"
  | KalySwap => "0x069255299Bb729399f3CECaBdc73d15d3D10a2A3"
  end.

(** A wrap: the chain's native asset into its wrapped form, that is the
    token held at the wrapped-native contract; an unwrap is the reverse. *)
Definition isWrap (a : Adapter) (tokenIn tokenOut : Token) : Prop :=
  isNative tokenIn = Some true
  /\ Js.toLowerCase (address tokenOut) = Js.toLowerCase (wrappedAddress a).

Definition isUnwrap (a : Adapter) (tokenIn tokenOut : Token) : Prop :=
  Js.toLowerCase (address tokenIn) = Js.toLowerCase (wrappedAddress a)
  /\ isNative tokenOut = Some true.

(** The zero a wrap quote carries as its impact, as each adapter writes
    it: the number 0, and in the Camelot adapter the string ['0']. *)
Definition zeroImpact (a : Adapter) : JsValue :=
  match a with
  | Camelot => JStr "0"
  | _ => JNum 0%float
  end.







End Spec.

(** ** Sample data *)

(** The token list of KalyChain ([KALYCHAIN_TOKENS]). *)
Definition kalyToken (addr : string) (dec : Z) (nm sym logo : string) : Token :=
  {| chainId := 3888; address := addr; decimals := dec; symbol := sym;
     name := nm; logoURI := logo; isNative := None |}.

Definition KLC : Token :=
  {| chainId := 3888; address := "0x0000000000000000000000000000000000000000";
     decimals := 18; symbol := "KLC"; name := "KalyCoin";
     logoURI := "/tokens/klc.png"; isNative := Some true |}.
Definition wKLC : Token :=
  kalyToken "0x069255299Bb729399f3CECaBdc73d15d3D10a2A3" 18
    "Wrapped KalyCoin" "wKLC" "/tokens/klc.png".
Definition KSWAP : Token :=
  kalyToken "0xCC93b84cEed74Dc28c746b7697d6fA477ffFf65a" 18
    "KalySwap Token" "KSWAP" "/tokens/kswap.png".
Definition USDT : Token :=
  kalyToken "0x2CA775C77B922A51FcF3097F52bFFdbc0250D99A" 6
    "Tether USD" "USDT" "/tokens/usdt.png".
Definition USDC : Token :=
  kalyToken "0x9cAb0c396cF0F4325913f2269a0b72BD4d46E3A9" 6
    "USD Coin" "USDC" "/tokens/usdc.png".
Definition DAI : Token :=
  kalyToken "0x6E92CAC380F7A7B86f4163fad0df2F277B16Edc6" 18
    "DAI Token" "DAI" "/tokens/dai.png".
Definition WBTC : Token :=
  kalyToken "0xaA77D4a26d432B82DB07F8a47B7f7F623fd92455" 8
    "Wrapped BTC" "WBTC" "/tokens/wbtc.png".
Definition ETH : Token :=
  kalyToken "0xfdbB253753dDE60b11211B169dC872AaE672879b" 18
    "Ether Token" "ETH" "/tokens/eth.png".
Definition BNB : Token :=
  kalyToken "0x0e2318b62a096AC68ad2D7F37592CBf0cA9c4Ddb" 18
    "Binance" "BNB" "/tokens/bnb.png".
Definition POL : Token :=
  kalyToken "0x706C9a63d7c8b7Aaf85DDCca52654645f470E8Ac" 18
    "Polygon Token" "POL" "/tokens/pol.png".
Definition CLISHA : Token :=
  kalyToken "0x376E0ac0B55aA79F9B30aAc8842e5E84fF06360C" 18
    "Clisha Coin" "CLISHA" "/tokens/clisha.png".
Definition KNT : Token :=
  kalyToken "0xdbba43d094bc683f7420d4b5a44cd9d6bf4f1773" 18
    "KNETWORK" "KNT" "/tokens/knt.png".
Definition KUSD : Token :=
  kalyToken "0xCd02480926317748e95c5bBBbb7D1070b2327f1A" 18
    "Kusd Stablecoin" "KUSD" "/tokens/kusd.png".

Definition KALYCHAIN_TOKENS : list Token :=
  [KLC; wKLC; KSWAP; USDT; USDC; DAI; WBTC; ETH; BNB; POL; CLISHA; KNT; KUSD].

Module Sample.

(** A chain made of constant-product pools.  The factory keeps each pool
    under the two orders of its tokens, with [token0] the one it assigned
    at creation; the router simulates a route hop by hop with the 0.3% fee
    of a Uniswap V2 router. *)
Record Pool : Type := mkPool {
  pool_address : string;
  pool_token0 : string;
  pool_token1 : string;
  pool_reserve0 : N;
  pool_reserve1 : N;
  pool_supply : N
}.

Definition sameAddress (a b : string) : bool :=
  Js.toLowerCase a =? Js.toLowerCase b.

Definition joins (a b : string) (p : Pool) : bool :=
  (sameAddress (pool_token0 p) a && sameAddress (pool_token1 p) b)
  || (sameAddress (pool_token0 p) b && sameAddress (pool_token1 p) a).

Definition poolAt (pools : list Pool) (addr : string) : result Pool :=
  match find (fun p => pool_address p =? addr) pools with
  | Some p => Ok p
  | None => Throw (JsError "ContractFunctionExecutionError" (Some "no contract"))
  end.

Definition amountOutOf (amountIn reserveIn reserveOut : Z) : Z :=
  (amountIn * 997 * reserveOut / (reserveIn * 1000 + amountIn * 997))%Z.

Fixpoint amountsOut (pools : list Pool) (amountIn : Z) (path : list string)
  : result (list Z) :=
  match path with
  | a :: ((b :: _) as rest) =>
      match find (joins a b) pools with
      | Some p =>
          let '(rIn, rOut) :=
            if sameAddress (pool_token0 p) a
            then (pool_reserve0 p, pool_reserve1 p)
            else (pool_reserve1 p, pool_reserve0 p) in
          bind (amountsOut pools (amountOutOf amountIn (Z.of_N rIn) (Z.of_N rOut)) rest)
               (fun l => Ok (amountIn :: l))
      | None => Throw (JsError "ContractFunctionExecutionError" (Some "execution reverted"))
      end
  | _ => Ok [amountIn]
  end.

Definition chainOf (pools : list Pool) : Chain :=
  {| factory_getPair := fun _ a b =>
       match find (joins a b) pools with
       | Some p => Ok (pool_address p)
       | None => Ok ZERO_ADDRESS
       end;
     pair_getReserves := fun addr =>
       bind (poolAt pools addr) (fun p => Ok (pool_reserve0 p, pool_reserve1 p, 0%N));
     pair_token0 := fun addr => bind (poolAt pools addr) (fun p => Ok (pool_token0 p));
     pair_totalSupply := fun addr => bind (poolAt pools addr) (fun p => Ok (pool_supply p));
     router_getAmountsOut := fun _ amountIn path => amountsOut pools amountIn path |}.

(** A node that cannot be reached: every read rejects. *)
Definition unreachable : Chain :=
  let down := JsError "HttpRequestError: HTTP request failed." (Some "HTTP request failed.") in
  {| factory_getPair := fun _ _ _ => Throw down;
     pair_getReserves := fun _ => Throw down;
     pair_token0 := fun _ => Throw down;
     pair_totalSupply := fun _ => Throw down;
     router_getAmountsOut := fun _ _ _ => Throw down |}.

(** A chain whose pools are as in [chainOf] but whose router rejects the
    simulation. *)
Definition routerDown (pools : list Pool) : Chain :=
  let c := chainOf pools in
  {| factory_getPair := factory_getPair c;
     pair_getReserves := pair_getReserves c;
     pair_token0 := pair_token0 c;
     pair_totalSupply := pair_totalSupply c;
     router_getAmountsOut := fun _ _ _ =>
       Throw (JsError "ContractFunctionExecutionError: execution reverted"
                (Some "execution reverted")) |}.

(** KalySwap with three pools: wKLC/KSWAP and wKLC/USDT, both with wKLC as
    [token0] (the smaller address), and a DAI/KUSD pool left with one base
    unit on each side.  KSWAP and USDT have no pool of their own. *)
Definition kalyswap : DexConfig :=
  {| tokens := KALYCHAIN_TOKENS;
     router := "0x4000000000000000000000000000000000000001";
     factory := "0x4000000000000000000000000000000000000002";
     wethAddress := "0x069255299Bb729399f3CECaBdc73d15d3D10a2A3";
     subgraphUrl := "" |}.

Definition poolKswap : Pool :=
  {| pool_address := "0x5000000000000000000000000000000000000001";
     pool_token0 := address wKLC;
     pool_token1 := address KSWAP;
     pool_reserve0 := 4000000000000000000000;
     pool_reserve1 := 100000000000000000000;
     pool_supply := 600000000000000000000 |}.

Definition poolUsdt : Pool :=
  {| pool_address := "0x5000000000000000000000000000000000000002";
     pool_token0 := address wKLC;
     pool_token1 := address USDT;
     pool_reserve0 := 1000000000000000000000;
     pool_reserve1 := 50000000;
     pool_supply := 200000000000000 |}.

Definition poolDust : Pool :=
  {| pool_address := "0x5000000000000000000000000000000000000003";
     pool_token0 := address DAI;
     pool_token1 := address KUSD;
     pool_reserve0 := 1;
     pool_reserve1 := 1;
     pool_supply := 1000 |}.

Definition chain : Chain := chainOf [poolKswap; poolUsdt; poolDust].

Definition wallet : WalletClient :=
  {| account := Some "0x6000000000000000000000000000000000000001";
     wallet_send := fun _ => Ok "0x7000000000000000000000000000000000000000000000000000000000000001";
     wallet_reads := chain |}.

Definition swap (tokenIn tokenOut : Token) (amount minimum : string)
    (path : option (list string)) : SwapParams :=
  {| p_tokenIn := tokenIn; p_tokenOut := tokenOut;
     p_amountIn := amount; p_amountOutMin := minimum;
     p_to := "0x6000000000000000000000000000000000000001";
     p_deadline := 20; p_slippageTolerance := 0.5%float;
     p_route := path |}.

(** Arbitrum: the native asset, its wrapped form at the WETH contract, and a
    token of another contract that only carries the symbol. *)
Definition nativeETH : Token :=
  {| chainId := 42161; address := "0x0000000000000000000000000000000000000000";
     decimals := 18; symbol := "ETH"; name := "Ether"; logoURI := "";
     isNative := Some true |}.

Definition WETH : Token :=
  {| chainId := 42161; address := "0x82aF49447D8a07e3bd95BD0d56f35241523fBab1";
     decimals := 18; symbol := "WETH"; name := "Wrapped Ether"; logoURI := "";
     isNative := None |}.

Definition lookalike : Token :=
  {| chainId := 42161; address := "0x9000000000000000000000000000000000000009";
     decimals := 18; symbol := "wEth"; name := "Not Wrapped Ether"; logoURI := "";
     isNative := None |}.

Definition camelot : DexConfig :=
  {| tokens := [nativeETH; WETH];
     router := "0x4000000000000000000000000000000000000003";
     factory := "0x4000000000000000000000000000000000000004";
     wethAddress := "0x82aF49447D8a07e3bd95BD0d56f35241523fBab1";
     subgraphUrl := "" |}.

End Sample.

(** Token lists for KalyChain: the default list, and a community list of
    higher priority that lists USDT again, its address in lower case, next
    to a token of another chain; a third list is switched off and a fourth
    cannot be fetched.  The world is the URLs fetched so far. *)
Module SampleLists.

Definition tether : Token :=
  {| chainId := 3888; address := Js.toLowerCase (address USDT); decimals := 6;
     symbol := "USDT"; name := "Tether"; logoURI := "/tokens/tether.png";
     isNative := None |}.

Definition defaultList : TokenListService.TokenList :=
  TokenListService.mkTokenList [KLC; wKLC; USDT; KSWAP].

Definition communityList : TokenListService.TokenList :=
  TokenListService.mkTokenList [tether; Sample.WETH; DAI].

Definition configs (id : Z) : option (list TokenListService.TokenListConfig) :=
  if (id =? 3888)%Z then
    Some [ TokenListService.mkTokenListConfig
             "KalySwap Default" "/api/token-lists/default" 1 true;
           TokenListService.mkTokenListConfig
             "Community" "https://lists.example/community.json" 2 true;
           TokenListService.mkTokenListConfig
             "Legacy" "https://lists.example/legacy.json" 3 false;
           TokenListService.mkTokenListConfig
             "Mirror" "https://lists.example/mirror.json" 4 true ]
  else None.

Definition fetch (u : string) (fetched : list string)
  : option TokenListService.TokenList * list string :=
  (if u =? "/api/token-lists/default" then Some defaultList
   else if u =? "https://lists.example/community.json" then Some communityList
   else None,
   fetched ++ [u]).

End SampleLists.

(** * Properties *)

(** ** The model on sample inputs *)

Example reference_parseFloat_tenth :
  Reference.parseFloat "0.1" = 0x1.999999999999ap-4%float.
Proof. vm_compute. reflexivity. Qed.

Example reference_parseFloat_prefix :
  Reference.parseFloat " -2.5e3 KLC" = (-2500)%float.
Proof. vm_compute. reflexivity. Qed.

Example reference_parseFloat_overflow :
  Reference.parseFloat "2e308" = infinity.
Proof. vm_compute. reflexivity. Qed.

Example reference_parseFloat_not_a_number :
  is_nan (Reference.parseFloat "abc") = true.
Proof. vm_compute. reflexivity. Qed.

Example reference_formatUnits_base_unit :
  Reference.formatUnits 1 18 = "0.000000000000000001".
Proof. vm_compute. reflexivity. Qed.

Example reference_formatUnits_trims :
  Reference.formatUnits 1500000 6 = "1.5".
Proof. vm_compute. reflexivity. Qed.

Example reference_parseUnits_scales :
  Reference.parseUnits "1.5" 6 = Ok 1500000%Z.
Proof. vm_compute. reflexivity. Qed.

(** A direct pair: 100 KSWAP into the wKLC/KSWAP pool of 4000 wKLC and 100
    KSWAP. *)
Example quote_direct_pair :
  getQuote (service KalySwap Sample.kalyswap Reference.runtime)
    KSWAP wKLC "100" (Some Sample.chain)
  = Ok {| amountOut := "1996.995493239859789684";
          priceImpact := JNum 50%float;
          route := [address KSWAP; address wKLC];
          gasEstimate := Some "200000";
          executionPrice := None |}.
Proof. vm_compute. reflexivity. Qed.

(** No path between KSWAP and DAI. *)
Example quote_no_path :
  getQuote (service KalySwap Sample.kalyswap Reference.runtime)
    KSWAP DAI "100" (Some Sample.chain)
  = Throw (PairNotFoundError "KalySwap" "KSWAP" "DAI").
Proof. vm_compute. reflexivity. Qed.

(** A route, and a router that rejects the simulation. *)
Example quote_router_down :
  getQuote (service KalySwap Sample.kalyswap Reference.runtime)
    KSWAP USDT "100" (Some (Sample.routerDown [Sample.poolKswap; Sample.poolUsdt]))
  = Throw (DexError
             "Failed to get quote: ContractFunctionExecutionError: execution reverted"
             "QUOTE_FAILED" "KalySwap").
Proof. vm_compute. reflexivity. Qed.

(** A wrap on KalySwap and on PancakeSwap, without a client. *)
Example quote_wrap_kalyswap :
  getQuote (service KalySwap Sample.kalyswap Reference.runtime) KLC wKLC "1.5" None
  = Ok {| amountOut := "1.5";
          priceImpact := JNum 0%float;
          route := [address KLC; address wKLC];
          gasEstimate := None;
          executionPrice := None |}.
Proof. vm_compute. reflexivity. Qed.

(** A wrap executes as a deposit on the wrapped-native contract. *)
Example swap_wrap_is_deposit :
  fst (executeSwap (service KalySwap Sample.kalyswap Reference.runtime)
         (Sample.swap KLC wKLC "1" "1" None) (Some Sample.wallet) 1700000000123 [])
  = [ {| call_address := "0x069255299Bb729399f3CECaBdc73d15d3D10a2A3";
         call_functionName := "deposit";
         call_args := [];
         call_value := Some 1000000000000000000%Z;
         call_account := "0x6000000000000000000000000000000000000001" |} ].
Proof. vm_compute. reflexivity. Qed.

(** ** The pair resolver *)

Section PairResolver.

Variable config : DexConfig.
Variable dex : string.

(** [getPairAddress] never rejects, and what it resolves with is read off
    the factory's answer. *)
Lemma getPairAddress_eq (tokenA tokenB : Token) (publicClient : PublicClient) :
  BaseDexService.getPairAddress config dex tokenA tokenB publicClient
  = Ok match publicClient with
       | None => None
       | Some chain =>
           match factory_getPair chain (factory config)
                   (BaseDexService.resolve config tokenA)
                   (BaseDexService.resolve config tokenB) with
           | Ok found => if found =? ZERO_ADDRESS then None else Some found
           | Throw _ => None
           end
       end.
Proof.
  unfold BaseDexService.getPairAddress, BaseDexService.requireClient.
  destruct publicClient as [chain|]; cbn; [|reflexivity].
  destruct (factory_getPair chain _ _ _) as [found|e]; cbn; [|reflexivity].
  destruct (found =? ZERO_ADDRESS); reflexivity.
Qed.

Lemma canSwapDirectly_eq (tokenA tokenB : Token) (publicClient : PublicClient) :
  BaseDexService.canSwapDirectly config dex tokenA tokenB publicClient
  = Ok (Spec.hasPair config publicClient
          (BaseDexService.resolve config tokenA)
          (BaseDexService.resolve config tokenB)).
Proof.
  unfold BaseDexService.canSwapDirectly, Spec.hasPair.
  rewrite getPairAddress_eq.
  destruct publicClient as [chain|]; cbn; [|reflexivity].
  destruct (factory_getPair chain _ _ _) as [found|e]; cbn; [|reflexivity].
  destruct (found =? ZERO_ADDRESS); reflexivity.
Qed.


(** [getPairInfo] never rejects either. *)
Lemma getPairInfo_total (tokenA tokenB : Token) (publicClient : PublicClient) :
  exists info,
    BaseDexService.getPairInfo config dex tokenA tokenB publicClient = Ok info.
Proof.
  unfold BaseDexService.getPairInfo.
  destruct (bind _ _) as [info|e]; cbn; eauto.
Qed.

End PairResolver.


Lemma getPairInfo_labels (config : DexConfig) (dex : string)
    (tokenA tokenB : Token) (publicClient : PublicClient) (info : PairInfo) :
  BaseDexService.getPairInfo config dex tokenA tokenB publicClient = Ok (Some info) ->
  token0 info = tokenA /\ token1 info = tokenB
  /\ exists chain r0 r1 ts,
       publicClient = Some chain
       /\ pair_getReserves chain (pairAddress info) = Ok (r0, r1, ts)
       /\ reserve0 info = Js.bigintToString (Z.of_N r0)
       /\ reserve1 info = Js.bigintToString (Z.of_N r1).
Proof.
  unfold BaseDexService.getPairInfo. rewrite getPairAddress_eq.
  unfold BaseDexService.requireClient.
  destruct publicClient as [chain|]; cbn; [|discriminate].
  destruct (factory_getPair chain _ _ _) as [found|e]; cbn; [|discriminate].
  destruct (found =? ZERO_ADDRESS); cbn; [discriminate|].
  destruct (found =? ""); cbn; [discriminate|].
  destruct (pair_getReserves chain found) as [[[r0 r1] ts]|e] eqn:R; cbn; [|discriminate].
  destruct (pair_totalSupply chain found) as [supply|e]; cbn; [|discriminate].
  intros H. inversion H; subst; clear H. cbn.
  repeat split. exists chain, r0, r1, ts. auto.
Qed.

(** C6.  On KalySwap, with the wKLC/KSWAP pool whose [token0] is wKLC,
    [getPairInfo(KSWAP, KLC)] (the call of [getKSWAPPrice]) answers with
    [token0] the caller's first token, KSWAP, next to [reserve0], which is
    the reserve of the pool's [token0], wKLC. *)
Theorem getPairInfo_tokens_in_caller_order :
  exists info,
    getPairInfo (service KalySwap Sample.kalyswap Reference.runtime)
      KSWAP KLC (Some Sample.chain) = Ok (Some info)
    /\ pair_token0 Sample.chain (pairAddress info) = Ok (address wKLC)
    /\ token0 info = KSWAP
    /\ token1 info = KLC
    /\ BaseDexService.resolve Sample.kalyswap (token0 info) <> address wKLC
    /\ reserve0 info = Js.bigintToString (Z.of_N (Sample.pool_reserve0 Sample.poolKswap))
    /\ reserve1 info = Js.bigintToString (Z.of_N (Sample.pool_reserve1 Sample.poolKswap)).
Proof.
  eexists. split; [vm_compute; reflexivity|].
  repeat split; try (vm_compute; reflexivity).
  vm_compute. discriminate.
Qed.

(** ** The route planner *)

Section RoutePlanner.

Variable config : DexConfig.
Variable dex : string.
Variables (tokenIn tokenOut : Token) (publicClient : PublicClient).

Let addressIn := BaseDexService.resolve config tokenIn.
Let addressOut := BaseDexService.resolve config tokenOut.



End RoutePlanner.

Ltac unfold_route :=
  cbn [service getSwapRoute];
  unfold UniswapV2Service.getSwapRoute, PancakeSwapService.getSwapRoute,
    KalySwapService.getSwapRoute, Spec.getSwapRoute;
  cbv zeta; rewrite canSwapDirectly_eq; cbn [bind].




(** Without a client no pair is found, and the route is empty. *)
Lemma hasPair_no_client (config : DexConfig) (x y : string) :
  Spec.hasPair config None x y = false.
Proof. reflexivity. Qed.

Lemma getSwapRoute_no_client
    (a : Adapter) (config : DexConfig) (rt : Runtime) (tokenIn tokenOut : Token) :
  getSwapRoute (service a config rt) tokenIn tokenOut None = Ok [].
Proof.
  destruct a; unfold_route; cbn [Spec.hasPair]; unfold or_else;
    repeat match goal with
      | |- context [find ?f ?l] => destruct (find f l); cbn
      | |- context [negb ?x && negb ?y] => destruct (negb x && negb y); cbn
      end;
    repeat (rewrite canSwapDirectly_eq; cbn);
    reflexivity.
Qed.

(** ** The quote engine *)

Section QuoteEngine.

Variable config : DexConfig.
Variable rt : Runtime.
Variable dex : string.
Variable planner : Token -> Token -> PublicClient -> result (list string).

Abbreviation baseQuote := (BaseDexService.getQuote config rt dex planner).

(** An empty route fails the quote with [PairNotFoundError]. *)
Lemma getQuote_empty_route (tokenIn tokenOut : Token) (amountIn : string)
    (publicClient : PublicClient) :
  planner tokenIn tokenOut publicClient = Ok [] ->
  baseQuote tokenIn tokenOut amountIn publicClient
  = Throw (PairNotFoundError dex (symbol tokenIn) (symbol tokenOut)).
Proof.
  intros H. unfold BaseDexService.getQuote. rewrite H. reflexivity.
Qed.

(** A rejected simulation of the router fails the quote with a [DexError]
    of code [QUOTE_FAILED]. *)
Lemma getQuote_router_failure (tokenIn tokenOut : Token) (amountIn : string)
    (chain : Chain) (path : list string) (wei : Z) (text : string)
    (message : option string) :
  planner tokenIn tokenOut (Some chain) = Ok path ->
  path <> [] ->
  parseUnits rt amountIn (decimals tokenIn) = Ok wei ->
  router_getAmountsOut chain (router config) wei path = Throw (JsError text message) ->
  baseQuote tokenIn tokenOut amountIn (Some chain)
  = Throw (DexError ("Failed to get quote: " ++ text) "QUOTE_FAILED" dex).
Proof.
  intros H N P R. unfold BaseDexService.getQuote. rewrite H. cbn.
  destruct path as [|x path]; [congruence|]. cbn.
  rewrite P. cbn. rewrite R. reflexivity.
Qed.



(** The impact is always a value, never a rejection. *)
Lemma calculatePriceImpact_total (tokenIn tokenOut : Token) (amountIn : string)
    (publicClient : PublicClient) :
  exists impact,
    BaseDexService.calculatePriceImpact config rt dex
      tokenIn tokenOut amountIn publicClient = Ok impact.
Proof.
  unfold BaseDexService.calculatePriceImpact.
  destruct (bind _ _) as [impact|e]; cbn; eauto.
Qed.

End QuoteEngine.

Ltac unfold_quote :=
  cbn [service getQuote getName];
  unfold UniswapV2Service.getQuote, PancakeSwapService.getQuote,
    KalySwapService.getQuote.

(** C3.  Without a client, the quote of a pair that is neither a wrap nor an
    unwrap fails with [PairNotFoundError], a condition other than
    [NoClient]: every pair lookup turns the missing client into "no pair",
    the route comes back empty, and the test for the client in [getQuote]
    is not reached. *)
Theorem getQuote_missing_client_is_PairNotFound
    (a : Adapter) (config : DexConfig) (rt : Runtime)
    (tokenIn tokenOut : Token) (amountIn : string) :
  isWrapOperation a tokenIn tokenOut = false ->
  isUnwrapOperation a tokenIn tokenOut = false ->
  getQuote (service a config rt) tokenIn tokenOut amountIn None
  = Throw (PairNotFoundError (getName (service a config rt))
             (symbol tokenIn) (symbol tokenOut))
  /\ (forall e, getQuote (service a config rt) tokenIn tokenOut amountIn None = Throw e ->
                conditionOf e = PairNotFound /\ conditionOf e <> NoClient).
Proof.
  intros W U.
  assert (E : getQuote (service a config rt) tokenIn tokenOut amountIn None
              = Throw (PairNotFoundError (getName (service a config rt))
                         (symbol tokenIn) (symbol tokenOut))).
  { destruct a; unfold_quote; cbn [isWrapOperation isUnwrapOperation] in W, U;
      rewrite W, U; cbn [orb];
      apply getQuote_empty_route;
      [ apply (getSwapRoute_no_client Camelot config rt)
      | apply (getSwapRoute_no_client PancakeSwap config rt)
      | apply (getSwapRoute_no_client KalySwap config rt) ]. }
  split; [exact E|].
  intros e H. rewrite E in H. inversion H; subst. cbn. split; [reflexivity|discriminate].
Qed.

Lemma getQuote_missing_client_is_PairNotFound_witness :
  isWrapOperation KalySwap KSWAP USDT = false
  /\ isUnwrapOperation KalySwap KSWAP USDT = false
  /\ getQuote (service KalySwap Sample.kalyswap Reference.runtime) KSWAP USDT "100" None
     = Throw (PairNotFoundError "KalySwap" "KSWAP" "USDT").
Proof.
  split; [reflexivity|]. split; [reflexivity|].
  exact (proj1 (getQuote_missing_client_is_PairNotFound KalySwap Sample.kalyswap
                  Reference.runtime KSWAP USDT "100" eq_refl eq_refl)).
Defined.






(** *** Wrap and unwrap *)

Lemma isWrap_detected (a : Adapter) (tokenIn tokenOut : Token) :
  Spec.isWrap a tokenIn tokenOut -> isWrapOperation a tokenIn tokenOut = true.
Proof.
  intros [N A].
  destruct a; cbn; unfold UniswapV2Service.isWrapOperation,
    PancakeSwapService.isWrapOperation, KalySwapService.isWrapOperation, native;
    rewrite N; cbn [andb]; apply orb_true_iff; right;
    apply String.eqb_eq; exact A.
Qed.

Lemma isUnwrap_detected (a : Adapter) (tokenIn tokenOut : Token) :
  Spec.isUnwrap a tokenIn tokenOut -> isUnwrapOperation a tokenIn tokenOut = true.
Proof.
  intros [A N].
  destruct a; cbn; unfold UniswapV2Service.isUnwrapOperation,
    PancakeSwapService.isUnwrapOperation, KalySwapService.isUnwrapOperation, native;
    rewrite N, andb_true_r; apply orb_true_iff; right;
    apply String.eqb_eq; exact A.
Qed.

(** The short-circuit of [getQuote]: what each adapter answers once its
    wrap or unwrap test holds, whatever the client and the chain. *)
Lemma wrap_short_circuit
    (a : Adapter) (config : DexConfig) (rt : Runtime)
    (tokenIn tokenOut : Token) (amountIn : string) (publicClient : PublicClient) :
  isWrapOperation a tokenIn tokenOut || isUnwrapOperation a tokenIn tokenOut = true ->
  getQuote (service a config rt) tokenIn tokenOut amountIn publicClient
  = Ok {| amountOut := amountIn;
          priceImpact := Spec.zeroImpact a;
          route := [address tokenIn; address tokenOut];
          gasEstimate := None;
          executionPrice := match a with Camelot => Some "1.0" | _ => None end |}.
Proof.
  intros H. destruct a; unfold_quote; cbn [isWrapOperation isUnwrapOperation] in H;
    rewrite H; reflexivity.
Qed.

(** On PancakeSwap and KalySwap a wrap or an unwrap is quoted with the
    amount as it was given, the number 0 as impact, and the two token
    addresses as route. *)
Lemma wrap_quote_one_to_one
    (a : Adapter) (config : DexConfig) (rt : Runtime)
    (tokenIn tokenOut : Token) (amountIn : string) (publicClient : PublicClient) :
  a <> Camelot ->
  Spec.isWrap a tokenIn tokenOut \/ Spec.isUnwrap a tokenIn tokenOut ->
  exists q,
    getQuote (service a config rt) tokenIn tokenOut amountIn publicClient = Ok q
    /\ amountOut q = amountIn
    /\ priceImpact q = JNum 0%float
    /\ route q = [address tokenIn; address tokenOut].
Proof.
  intros NC H. eexists. split.
  - apply wrap_short_circuit.
    destruct H as [H|H];
      [rewrite (isWrap_detected _ _ _ H) | rewrite (isUnwrap_detected _ _ _ H)];
      auto using orb_true_r.
  - destruct a; [congruence| |]; cbn; auto.
Qed.

(** C1.  On Camelot a wrap or an unwrap is quoted with the amount as it was
    given and the two token addresses as route, whatever the client and the
    chain, but the impact is the string ['0'], not the number 0 of the two
    other adapters, and the quote carries an [executionPrice]. *)
Theorem camelot_wrap_quote_impact_is_a_string
    (config : DexConfig) (rt : Runtime)
    (tokenIn tokenOut : Token) (amountIn : string) (publicClient : PublicClient) :
  Spec.isWrap Camelot tokenIn tokenOut \/ Spec.isUnwrap Camelot tokenIn tokenOut ->
  exists q,
    getQuote (service Camelot config rt) tokenIn tokenOut amountIn publicClient = Ok q
    /\ amountOut q = amountIn
    /\ route q = [address tokenIn; address tokenOut]
    /\ priceImpact q = JStr "0"
    /\ priceImpact q <> JNum 0%float
    /\ executionPrice q = Some "1.0".
Proof.
  intros H. eexists. split.
  - apply wrap_short_circuit.
    destruct H as [H|H];
      [rewrite (isWrap_detected _ _ _ H) | rewrite (isUnwrap_detected _ _ _ H)];
      auto using orb_true_r.
  - cbn. repeat split. discriminate.
Qed.

Lemma camelot_wrap_quote_impact_is_a_string_witness :
  Spec.isWrap Camelot Sample.nativeETH Sample.WETH
  /\ exists q,
       getQuote (service Camelot Sample.camelot Reference.runtime)
         Sample.nativeETH Sample.WETH "1.5" None = Ok q
       /\ amountOut q = "1.5"
       /\ priceImpact q = JStr "0".
Proof.
  assert (W : Spec.isWrap Camelot Sample.nativeETH Sample.WETH)
    by (split; reflexivity).
  split; [exact W|].
  destruct (camelot_wrap_quote_impact_is_a_string Sample.camelot Reference.runtime
              Sample.nativeETH Sample.WETH "1.5" None (or_introl W))
    as [q [Q [A [_ [P _]]]]].
  exists q. auto.
Defined.

(** C10.  The wrap test of each adapter holds as soon as the input token is
    native and the symbol of the output token, in upper case, is the
    wrapped-native symbol of the chain, whatever the address of that token;
    the same for the unwrap test on the input side.  The quote is then the
    short-circuit one: the amount as it was given, the zero impact of the
    adapter, and the two token addresses as route, without any read of the
    chain. *)
Theorem wrap_detected_by_symbol_alone
    (a : Adapter) (config : DexConfig) (rt : Runtime)
    (tokenIn tokenOut : Token) (amountIn : string) (publicClient : PublicClient) :
  (isNative tokenIn = Some true
   /\ Js.toUpperCase (symbol tokenOut) = Spec.wrappedSymbol a)
  \/ (Js.toUpperCase (symbol tokenIn) = Spec.wrappedSymbol a
      /\ isNative tokenOut = Some true) ->
  exists q,
    getQuote (service a config rt) tokenIn tokenOut amountIn publicClient = Ok q
    /\ amountOut q = amountIn
    /\ priceImpact q = Spec.zeroImpact a
    /\ route q = [address tokenIn; address tokenOut].
Proof.
  intros H. eexists. split; [apply wrap_short_circuit|cbn; auto].
  destruct H as [[N S]|[S N]].
  - apply orb_true_iff. left.
    destruct a; cbn in *; unfold UniswapV2Service.isWrapOperation,
      PancakeSwapService.isWrapOperation, KalySwapService.isWrapOperation, native;
      rewrite N, S; reflexivity.
  - apply orb_true_iff. right.
    destruct a; cbn in *; unfold UniswapV2Service.isUnwrapOperation,
      PancakeSwapService.isUnwrapOperation, KalySwapService.isUnwrapOperation, native;
      rewrite N, S; reflexivity.
Qed.

Lemma wrap_detected_by_symbol_alone_witness :
  isNative Sample.nativeETH = Some true
  /\ Js.toUpperCase (symbol Sample.lookalike) = Spec.wrappedSymbol Camelot
  /\ Js.toLowerCase (address Sample.lookalike)
     <> Js.toLowerCase (Spec.wrappedAddress Camelot)
  /\ exists q,
       getQuote (service Camelot Sample.camelot Reference.runtime)
         Sample.nativeETH Sample.lookalike "1.5" (Some Sample.unreachable) = Ok q
       /\ amountOut q = "1.5"
       /\ priceImpact q = Spec.zeroImpact Camelot
       /\ route q = [address Sample.nativeETH; address Sample.lookalike].
Proof.
  split; [reflexivity|]. split; [reflexivity|]. split; [vm_compute; discriminate|].
  apply (wrap_detected_by_symbol_alone Camelot Sample.camelot Reference.runtime
           Sample.nativeETH Sample.lookalike "1.5" (Some Sample.unreachable)).
  left. split; reflexivity.
Defined.

(** ** The swap executor *)



(** ** Price impact *)

Section DoubleArithmetic.

Import JsMath.

Lemma binary_round_aux_signed (sx : bool) (mx ex : Z) (lx : location) :
  signed sx (binary_round_aux prec emax sx mx ex lx).
Proof.
  unfold binary_round_aux.
  destruct (shr_fexp prec emax mx ex lx) as [mrs e'].
  destruct (shr_fexp prec emax _ e' loc_Exact) as [mrs' e''].
  destruct (shr_m mrs') as [|m|m]; cbn; auto.
  destruct (Z.leb e'' _); cbn; auto.
Qed.

Lemma binary_round_signed (sx : bool) (mx : positive) (ex : Z) :
  signed sx (binary_round prec emax sx mx ex).
Proof.
  unfold binary_round.
  destruct (shl_align mx ex _) as [mz ez]. apply binary_round_aux_signed.
Qed.

Lemma signed_notNegative (f : spec_float) : signed false f -> notNegative f.
Proof. destruct f; cbn; auto. Qed.

Lemma signed_not_minus_zero (f : spec_float) : signed false f -> f <> S754_zero true.
Proof. destruct f; cbn; congruence. Qed.

(** The sum of two non-negative doubles is a denominator for the second. *)
Lemma SFadd_denominator (r a : spec_float) :
  notNegative r -> notNegative a -> denominatorFor a (SF64add r a).
Proof.
  unfold SF64add, SFadd, denominatorFor.
  destruct r as [sr|sr| |sr mr er], a as [sa|sa| |sa ma ea]; cbn;
    intros R A; subst; try (split; [exact I || reflexivity | congruence || eauto]).
  - destruct sr, sa; cbn; (split; [exact I | eauto]).
  - unfold cond_Zopp. cbn [IntDef.Z.add binary_normalize].
    match goal with
    | |- notNegative ?x /\ _ => assert (S : signed false x) by apply binary_round_signed
    end.
    split; [apply signed_notNegative; exact S|].
    intros E. exfalso. revert E. apply signed_not_minus_zero. exact S.
Qed.

(** A non-negative double over such a denominator is not negative. *)
Lemma SFdiv_notNegative (a d : spec_float) :
  notNegative a -> denominatorFor a d -> notNegative (SF64div a d).
Proof.
  unfold SF64div, SFdiv, denominatorFor.
  destruct a as [sa|sa| |sa ma ea], d as [sd|sd| |sd md ed]; cbn;
    intros A [D Z]; subst; cbn; auto.
  - destruct sd; [|reflexivity]. destruct (Z eq_refl) as [s E]. discriminate.
  - destruct sd; [|reflexivity]. destruct (Z eq_refl) as [s E]. discriminate.
  - destruct (SFdiv_core_binary prec emax _ _ _ _) as [[mz ez] lz].
    apply signed_notNegative, binary_round_aux_signed.
Qed.

(** A non-negative double times a positive number is not negative. *)
Lemma SFmul_notNegative (x : spec_float) (m : positive) (e : Z) :
  notNegative x -> notNegative (SF64mul x (S754_finite false m e)).
Proof.
  unfold SF64mul, SFmul.
  destruct x as [sx|sx| |sx mx ex]; cbn; intros X; subst; cbn; auto.
  apply signed_notNegative, binary_round_aux_signed.
Qed.

(** Comparisons with zero. *)
Lemma leb_zero_notNegative (x : float) :
  (0 <=? x)%float = true ->
  notNegative (Prim2SF x) /\ Prim2SF x <> S754_nan.
Proof.
  rewrite FloatAxioms.leb_spec. change (Prim2SF 0) with (S754_zero false).
  unfold SFleb, SFcompare.
  destruct (Prim2SF x) as [s|s| |s m e]; cbn; try destruct s; cbn;
    intros H; try discriminate; split; auto; discriminate.
Qed.

Lemma notNegative_leb_zero (x : float) :
  notNegative (Prim2SF x) -> Prim2SF x <> S754_nan -> (0 <=? x)%float = true.
Proof.
  rewrite FloatAxioms.leb_spec. change (Prim2SF 0) with (S754_zero false).
  unfold SFleb, SFcompare.
  destruct (Prim2SF x) as [s|s| |s m e]; cbn; intros N NN; subst; auto; congruence.
Qed.

Lemma is_nan_spec (x : float) : is_nan x = true <-> Prim2SF x = S754_nan.
Proof.
  unfold is_nan. rewrite FloatAxioms.eqb_spec. unfold SFeqb, SFcompare.
  destruct (Prim2SF x) as [s|s| |s m e]; cbn.
  - split; discriminate.
  - destruct s; split; discriminate.
  - tauto.
  - destruct s; rewrite Z.compare_refl, Pos.compare_cont_refl; cbn; split; discriminate.
Qed.

(** The expression of the impact, on non-negative operands. *)
Lemma impact_notNegative (a r : float) :
  notNegative (Prim2SF a) -> notNegative (Prim2SF r) ->
  notNegative
    (Prim2SF (impactFormula PrimFloat.add PrimFloat.mul PrimFloat.div 100%float a r)).
Proof.
  intros A R. unfold impactFormula.
  rewrite FloatAxioms.mul_spec, FloatAxioms.div_spec, FloatAxioms.add_spec.
  change (Prim2SF 100) with (S754_finite false 7036874417766400 (-46)).
  apply SFmul_notNegative, SFdiv_notNegative; [exact A|].
  apply SFadd_denominator; assumption.
Qed.

End DoubleArithmetic.

Section Clamp.

Import JsMath.

(** [Math.min(p, 100)] of a double that is not negative is [NaN] or lies
    between 0 and 100. *)
Lemma min_100_range (p : float) :
  notNegative (Prim2SF p) ->
  is_nan (JsMath.min p 100) = true
  \/ ((0 <=? JsMath.min p 100)%float = true
      /\ (JsMath.min p 100 <=? 100)%float = true).
Proof.
  intros N. unfold JsMath.min.
  destruct (is_nan p) eqn:NaN; cbn [orb]; [left; reflexivity|].
  change (is_nan 100) with false. cbn [orb]. right.
  assert (NN : Prim2SF p <> S754_nan).
  { intros E. apply is_nan_spec in E. congruence. }
  pose proof (notNegative_leb_zero p N NN) as Z.
  assert (C : (p <? 100)%float = true /\ (p <=? 100)%float = true
              \/ (p <? 100)%float = false
                 /\ ((100 <? p)%float = true \/ get_sign p = false)).
  { unfold get_sign, is_zero.
    rewrite FloatAxioms.eqb_spec, !FloatAxioms.ltb_spec, FloatAxioms.leb_spec.
    change (Prim2SF 100) with (S754_finite false 7036874417766400 (-46)).
    change (Prim2SF 0) with (S754_zero false).
    destruct (Prim2SF p) as [s|s| |s m e] eqn:E; cbn in N; subst;
      try congruence.
    - left. split; reflexivity.
    - right. split; [reflexivity|]. left. reflexivity.
    - unfold SFltb, SFleb.
      destruct (SFcompare (S754_finite false m e) _) as [[| |]|] eqn:Cmp;
        [ right | left; split; reflexivity | right | right ];
        (split; [reflexivity|]); right;
        change (Prim2SF zero) with (S754_zero false); cbn [SFeqb SFcompare];
        rewrite E; reflexivity. }
  destruct C as [[L LE]|[L [G|S]]].
  - rewrite L. split; assumption.
  - rewrite L, G. split; reflexivity.
  - rewrite L, S. destruct (100 <? p)%float; split; reflexivity.
Qed.

Lemma SFcompare_antisym (x y : spec_float) :
  SFcompare y x = option_map CompOpp (SFcompare x y).
Proof.
  destruct x as [sx|sx| |sx mx ex], y as [sy|sy| |sy my ey]; cbn;
    try destruct sx; try destruct sy; cbn; try reflexivity;
    change (IntDef.Z.compare ey ex) with (Z.compare ey ex);
    change (IntDef.Z.compare ex ey) with (Z.compare ex ey);
    rewrite (Z.compare_antisym ex ey);
    (destruct (Z.compare ex ey); cbn; try reflexivity);
    change (PosDef.Pos.compare_cont Eq my mx) with (Pos.compare_cont Eq my mx);
    change (PosDef.Pos.compare_cont Eq mx my) with (Pos.compare_cont Eq mx my);
    pose proof (Pos.compare_cont_antisym mx my Eq) as H; cbn [CompOpp] in H;
    rewrite <- H; reflexivity.
Qed.

(** [Math.min(p, 100)] is [NaN] or at most 100. *)
Lemma min_100_upper (p : float) :
  is_nan (JsMath.min p 100) = true \/ (JsMath.min p 100 <=? 100)%float = true.
Proof.
  unfold JsMath.min.
  destruct (is_nan p) eqn:NaN; cbn [orb]; [left; reflexivity|].
  change (is_nan 100) with false. cbn [orb]. right.
  assert (LE : (p <? 100)%float = false -> (100 <? p)%float = false ->
               (p <=? 100)%float = true).
  { rewrite !FloatAxioms.ltb_spec, FloatAxioms.leb_spec.
    unfold SFltb, SFleb. rewrite (SFcompare_antisym (Prim2SF p) (Prim2SF 100)).
    destruct (SFcompare (Prim2SF p) (Prim2SF 100)) as [[| |]|] eqn:C; cbn;
      try congruence.
    intros _ _. exfalso.
    assert (E : Prim2SF p = S754_nan).
    { revert C. change (Prim2SF 100) with (S754_finite false 7036874417766400 (-46)).
      unfold SFcompare.
      destruct (Prim2SF p) as [s|s| |s m e]; try destruct s;
        first [reflexivity | discriminate]. }
    apply is_nan_spec in E. congruence. }
  destruct (p <? 100)%float eqn:L.
  - rewrite FloatAxioms.leb_spec. rewrite FloatAxioms.ltb_spec in L.
    unfold SFleb. unfold SFltb in L.
    destruct (SFcompare _ _) as [[| |]|]; congruence.
  - destruct (100 <? p)%float eqn:G; [reflexivity|].
    destruct (get_sign p); [apply LE; reflexivity|reflexivity].
Qed.

End Clamp.

Section RoundingToNumbers.

Import JsMath.

Lemma shr_1_nonneg (mrs : shr_record) :
  (0 <= shr_m mrs)%Z -> (0 <= shr_m (shr_1 mrs))%Z.
Proof.
  destruct mrs as [m r s]. destruct m as [|[p|p|]|p]; cbn; lia.
Qed.

Lemma iter_shr_1_nonneg (n : positive) (mrs : shr_record) :
  (0 <= shr_m mrs)%Z -> (0 <= shr_m (SpecFloat.iter_pos shr_1 n mrs))%Z.
Proof.
  revert mrs. induction n as [n IH|n IH|]; intros mrs H; cbn.
  - apply IH, IH, shr_1_nonneg, H.
  - apply IH, IH, H.
  - apply shr_1_nonneg, H.
Qed.

Lemma shr_fexp_nonneg (m e : Z) (l : location) :
  (0 <= m)%Z -> (0 <= shr_m (fst (shr_fexp prec emax m e l)))%Z.
Proof.
  intros H. unfold shr_fexp, shr.
  assert (R : (0 <= shr_m (shr_record_of_loc m l))%Z).
  { destruct l as [|[| |]]; exact H. }
  destruct (Z.sub _ e) as [|n|n]; cbn [fst]; auto using iter_shr_1_nonneg.
Qed.

Lemma round_nearest_even_nonneg (m : Z) (l : location) :
  (0 <= m)%Z -> (0 <= round_nearest_even m l)%Z.
Proof.
  intros H. unfold round_nearest_even.
  destruct l as [|[| |]]; try destruct (Z.even m); try exact H;
    change (IntDef.Z.add m 1) with (m + 1)%Z; lia.
Qed.

(** Rounding a mantissa that is not negative gives a number. *)
Lemma binary_round_aux_defined (sx : bool) (mx ex : Z) (lx : location) :
  (0 <= mx)%Z -> binary_round_aux prec emax sx mx ex lx <> S754_nan.
Proof.
  intros H. unfold binary_round_aux.
  pose proof (shr_fexp_nonneg mx ex lx H) as H1.
  destruct (shr_fexp prec emax mx ex lx) as [mrs e']. cbn [fst] in H1.
  pose proof (shr_fexp_nonneg _ e' loc_Exact
                (round_nearest_even_nonneg _ (loc_of_shr_record mrs) H1)) as H2.
  destruct (shr_fexp prec emax _ e' loc_Exact) as [mrs' e'']. cbn [fst] in H2.
  destruct (shr_m mrs') as [|m|m]; [discriminate| |lia].
  destruct (Z.leb e'' _); discriminate.
Qed.

End RoundingToNumbers.

Section PositiveAmounts.

Import JsMath.

Lemma SFdiv_core_nonneg (mx : positive) (ex : Z) (my : positive) (ey : Z) :
  (0 <= fst (fst (SFdiv_core_binary prec emax (Zpos mx) ex (Zpos my) ey)))%Z.
Proof.
  unfold SFdiv_core_binary.
  match goal with
  | |- context [IntDef.Z.div_eucl ?m _] => set (m' := m)
  end.
  assert (M : (0 <= m')%Z).
  { subst m'. destruct (Z.sub (Z.sub ex ey) _) as [|s|s]; try lia.
    apply Z.shiftl_nonneg. lia. }
  pose proof (Z.div_pos m' (Zpos my) M ltac:(lia)) as D.
  unfold Z.div in D.
  change (IntDef.Z.div_eucl m' (Zpos my)) with (Z.div_eucl m' (Zpos my)).
  destruct (Z.div_eucl m' (Zpos my)) as [q r]. exact D.
Qed.

(** A number: not [NaN], and with the sign bit clear. *)
Lemma SFadd_defined (r a : spec_float) :
  (exists s, r = S754_zero s) \/ (exists m e, r = S754_finite false m e) ->
  (exists m e, a = S754_finite false m e) ->
  signed false (SF64add r a) /\ SF64add r a <> S754_nan.
Proof.
  intros [[s ->]|[mr [er ->]]] [ma [ea ->]]; unfold SF64add, SFadd.
  - split; [reflexivity|discriminate].
  - unfold cond_Zopp. cbn [IntDef.Z.add binary_normalize].
    split; [apply binary_round_signed|].
    unfold binary_round. destruct (shl_align _ _ _) as [mz ez].
    apply binary_round_aux_defined. lia.
Qed.

Lemma SFdiv_defined (a d : spec_float) :
  (exists m e, a = S754_finite false m e) ->
  signed false d -> d <> S754_nan ->
  signed false (SF64div a d) /\ SF64div a d <> S754_nan.
Proof.
  intros [ma [ea ->]] S N. unfold SF64div, SFdiv.
  destruct d as [sd|sd| |sd md ed]; cbn in S; subst; try congruence.
  - split; [reflexivity|discriminate].
  - split; [reflexivity|discriminate].
  - pose proof (SFdiv_core_nonneg ma ea md ed) as Q.
    destruct (SFdiv_core_binary prec emax _ _ _ _) as [[mz ez] lz]. cbn in Q.
    split; [apply binary_round_aux_signed|apply binary_round_aux_defined; exact Q].
Qed.

Lemma SFmul_defined (x : spec_float) (m : positive) (e : Z) :
  signed false x -> x <> S754_nan ->
  signed false (SF64mul x (S754_finite false m e))
  /\ SF64mul x (S754_finite false m e) <> S754_nan.
Proof.
  intros S N. unfold SF64mul, SFmul.
  destruct x as [sx|sx| |sx mx ex]; cbn in S; subst; try congruence.
  - split; [reflexivity|discriminate].
  - split; [reflexivity|discriminate].
  - split; [apply binary_round_aux_signed|apply binary_round_aux_defined; lia].
Qed.

(** What the comparisons tell of the form of a double. *)
Lemma positive_finite_form (x : float) :
  (0 <? x)%float = true -> (x <? infinity)%float = true ->
  exists m e, Prim2SF x = S754_finite false m e.
Proof.
  rewrite !FloatAxioms.ltb_spec.
  change (Prim2SF 0) with (S754_zero false).
  change (Prim2SF infinity) with (S754_infinity false).
  unfold SFltb, SFcompare.
  destruct (Prim2SF x) as [s|s| |s m e]; try destruct s; try discriminate; eauto.
Qed.

Lemma nonneg_finite_form (x : float) :
  (0 <=? x)%float = true -> (x <? infinity)%float = true ->
  (exists s, Prim2SF x = S754_zero s) \/ (exists m e, Prim2SF x = S754_finite false m e).
Proof.
  rewrite FloatAxioms.leb_spec, FloatAxioms.ltb_spec.
  change (Prim2SF 0) with (S754_zero false).
  change (Prim2SF infinity) with (S754_infinity false).
  unfold SFleb, SFltb, SFcompare.
  destruct (Prim2SF x) as [s|s| |s m e]; try destruct s; try discriminate; eauto.
Qed.

(** For a positive amount and a reserve that is not negative, both finite,
    the expression of the impact is a number that is not negative. *)
Lemma impact_defined (a r : float) :
  (0 <? a)%float = true -> (a <? infinity)%float = true ->
  (0 <=? r)%float = true -> (r <? infinity)%float = true ->
  let p := impactFormula PrimFloat.add PrimFloat.mul PrimFloat.div 100%float a r in
  notNegative (Prim2SF p) /\ is_nan p = false.
Proof.
  intros A0 A1 R0 R1 p. subst p. unfold impactFormula.
  pose proof (positive_finite_form a A0 A1) as FA.
  pose proof (nonneg_finite_form r R0 R1) as FR.
  destruct (SFadd_defined _ _ FR FA) as [S1 N1].
  destruct (SFdiv_defined _ _ FA S1 N1) as [S2 N2].
  destruct (SFmul_defined _ 7036874417766400 (-46) S2 N2) as [S3 N3].
  assert (E : Prim2SF (a / (r + a) * 100)
              = SF64mul (SF64div (Prim2SF a) (SF64add (Prim2SF r) (Prim2SF a)))
                  (S754_finite false 7036874417766400 (-46))).
  { rewrite FloatAxioms.mul_spec, FloatAxioms.div_spec, FloatAxioms.add_spec. reflexivity. }
  rewrite E. split; [apply signed_notNegative; exact S3|].
  destruct (is_nan _) eqn:I; [|reflexivity].
  apply is_nan_spec in I. rewrite E in I. congruence.
Qed.

Lemma min_100_defined (p : float) :
  is_nan p = false -> is_nan (JsMath.min p 100) = false.
Proof.
  intros N. unfold JsMath.min. rewrite N. change (is_nan 100) with false. cbn [orb].
  destruct (p <? 100)%float; [exact N|].
  destruct (100 <? p)%float; [reflexivity|].
  destruct (get_sign p); [exact N|reflexivity].
Qed.

End PositiveAmounts.

(** C4, as stated, fails: the returned value need not lie in [0, 100].  On
    the KSWAP/wKLC pool, an input amount of -1 KSWAP has a negative impact,
    and an empty amount has the impact [NaN]. *)
Lemma price_impact_outside_range :
  exists below undefined,
    Spec.hasPair Sample.kalyswap (Some Sample.chain)
      (BaseDexService.resolve Sample.kalyswap KSWAP)
      (BaseDexService.resolve Sample.kalyswap wKLC) = true
    /\ calculatePriceImpact (service KalySwap Sample.kalyswap Reference.runtime)
         KSWAP wKLC "-1" (Some Sample.chain) = Ok below
    /\ (below <? 0)%float = true
    /\ calculatePriceImpact (service KalySwap Sample.kalyswap Reference.runtime)
         KSWAP wKLC "" (Some Sample.chain) = Ok undefined
    /\ is_nan undefined = true
    /\ (0 <=? undefined)%float = false.
Proof.
  do 2 eexists. split; [reflexivity|].
  split; [vm_compute; reflexivity|]. split; [reflexivity|].
  split; [vm_compute; reflexivity|]. split; reflexivity.
Qed.

(** C4, amended.  [calculatePriceImpact] never rejects.  It answers 0 when
    there is no pair and when a read of the pair fails.  With a pair read,
    the input-side reserve is [reserve0] when the pair's [token0] is the
    addressable form of [tokenIn] (native as wrapped-native, compared
    without case) and [reserve1] otherwise, and the answer is
    [min(amountIn / (reserveIn + amountIn) * 100, 100)] on doubles.  That
    value is [NaN] or at most 100 in every case; it is [NaN] or within
    [0, 100] when the amount and the reserve parse to numbers that are not
    negative, and within [0, 100] when the amount parses to a positive
    finite number and the reserve to a finite one that is not negative. *)
Theorem calculatePriceImpact_contract
    (a : Adapter) (config : DexConfig) (rt : Runtime)
    (tokenIn tokenOut : Token) (amountIn : string) (publicClient : PublicClient) :
  (getPairAddress (service a config rt) tokenIn tokenOut publicClient = Ok None ->
   calculatePriceImpact (service a config rt) tokenIn tokenOut amountIn publicClient
   = Ok 0%float)
  /\ (forall chain pair,
        publicClient = Some chain ->
        getPairAddress (service a config rt) tokenIn tokenOut publicClient
        = Ok (Some pair) ->
        (exists e, pair_getReserves chain pair = Throw e)
        \/ (exists e, pair_token0 chain pair = Throw e) ->
        calculatePriceImpact (service a config rt) tokenIn tokenOut amountIn publicClient
        = Ok 0%float)
  /\ (forall chain pair r0 r1 ts t0,
        publicClient = Some chain ->
        getPairAddress (service a config rt) tokenIn tokenOut publicClient
        = Ok (Some pair) ->
        pair <> "" ->
        pair_getReserves chain pair = Ok (r0, r1, ts) ->
        pair_token0 chain pair = Ok t0 ->
        let reserveIn :=
          if Js.toLowerCase t0 =? Js.toLowerCase (BaseDexService.resolve config tokenIn)
          then r0 else r1 in
        let amountInValue := parseFloat rt amountIn in
        let reserveInFormatted :=
          parseFloat rt (formatUnits rt (Z.of_N reserveIn) (decimals tokenIn)) in
        let impact :=
          JsMath.min (amountInValue / (reserveInFormatted + amountInValue) * 100)%float
            100%float in
        calculatePriceImpact (service a config rt) tokenIn tokenOut amountIn publicClient
        = Ok impact
        /\ (is_nan impact = true \/ (impact <=? 100)%float = true)
        /\ ((0 <=? amountInValue)%float = true ->
            (0 <=? reserveInFormatted)%float = true ->
            is_nan impact = true
            \/ ((0 <=? impact)%float = true /\ (impact <=? 100)%float = true))
        /\ ((0 <? amountInValue)%float = true ->
            (amountInValue <? infinity)%float = true ->
            (0 <=? reserveInFormatted)%float = true ->
            (reserveInFormatted <? infinity)%float = true ->
            (0 <=? impact)%float = true /\ (impact <=? 100)%float = true)).
Proof.
  assert (G : forall dex,
    (BaseDexService.getPairAddress config dex tokenIn tokenOut publicClient = Ok None ->
     BaseDexService.calculatePriceImpact config rt dex tokenIn tokenOut amountIn publicClient
     = Ok 0%float)
    /\ (forall chain pair,
          publicClient = Some chain ->
          BaseDexService.getPairAddress config dex tokenIn tokenOut publicClient
          = Ok (Some pair) ->
          (exists e, pair_getReserves chain pair = Throw e)
          \/ (exists e, pair_token0 chain pair = Throw e) ->
          BaseDexService.calculatePriceImpact config rt dex tokenIn tokenOut amountIn
            publicClient = Ok 0%float)
    /\ (forall chain pair r0 r1 ts t0,
          publicClient = Some chain ->
          BaseDexService.getPairAddress config dex tokenIn tokenOut publicClient
          = Ok (Some pair) ->
          pair <> "" ->
          pair_getReserves chain pair = Ok (r0, r1, ts) ->
          pair_token0 chain pair = Ok t0 ->
          let reserveIn :=
            if Js.toLowerCase t0 =? Js.toLowerCase (BaseDexService.resolve config tokenIn)
            then r0 else r1 in
          let amountInValue := parseFloat rt amountIn in
          let reserveInFormatted :=
            parseFloat rt (formatUnits rt (Z.of_N reserveIn) (decimals tokenIn)) in
          let impact :=
            JsMath.min (amountInValue / (reserveInFormatted + amountInValue) * 100)%float
              100%float in
          BaseDexService.calculatePriceImpact config rt dex tokenIn tokenOut amountIn
            publicClient = Ok impact
          /\ (is_nan impact = true \/ (impact <=? 100)%float = true)
          /\ ((0 <=? amountInValue)%float = true ->
              (0 <=? reserveInFormatted)%float = true ->
              is_nan impact = true
              \/ ((0 <=? impact)%float = true /\ (impact <=? 100)%float = true))
          /\ ((0 <? amountInValue)%float = true ->
              (amountInValue <? infinity)%float = true ->
              (0 <=? reserveInFormatted)%float = true ->
              (reserveInFormatted <? infinity)%float = true ->
              (0 <=? impact)%float = true /\ (impact <=? 100)%float = true))).
  { intros dex. split; [|split].
    - intros H. unfold BaseDexService.calculatePriceImpact. rewrite H. reflexivity.
    - intros chain pair -> H F. unfold BaseDexService.calculatePriceImpact.
      rewrite H. cbn. destruct (negb (pair =? "")); cbn; [|reflexivity].
      destruct F as [[e F]|[e F]].
      + rewrite F. reflexivity.
      + destruct (pair_getReserves chain pair) as [[[r0 r1] ts]|e']; cbn;
          [rewrite F|]; reflexivity.
    - intros chain pair r0 r1 ts t0 -> H NE R T reserveIn amountInValue
        reserveInFormatted impact.
      split; [|split; [|split]].
      + unfold BaseDexService.calculatePriceImpact. rewrite H. cbn.
        destruct (String.eqb_spec pair "") as [E|_]; [congruence|]. cbn.
        rewrite R. cbn. rewrite T. reflexivity.
      + apply min_100_upper.
      + intros A R0. subst impact.
        apply min_100_range.
        apply impact_notNegative;
          [apply (leb_zero_notNegative _ A) | apply (leb_zero_notNegative _ R0)].
      + intros A0 A1 R0 R1. subst impact.
        destruct (impact_defined _ _ A0 A1 R0 R1) as [N D].
        destruct (min_100_range _ N) as [I|Range]; [|exact Range].
        exfalso. exact (eq_true_false_abs _ I (min_100_defined _ D)). }
  destruct a; cbn [service getPairAddress calculatePriceImpact]; apply G.
Qed.

Lemma calculatePriceImpact_contract_witness :
  (0 <? parseFloat Reference.runtime "100")%float = true
  /\ (parseFloat Reference.runtime "100" <? infinity)%float = true
  /\ (0 <=? parseFloat Reference.runtime
              (formatUnits Reference.runtime 100000000000000000000 18))%float = true
  /\ (parseFloat Reference.runtime
        (formatUnits Reference.runtime 100000000000000000000 18) <? infinity)%float = true
  /\ exists impact,
       calculatePriceImpact (service KalySwap Sample.kalyswap Reference.runtime)
         KSWAP wKLC "100" (Some Sample.chain) = Ok impact
       /\ impact = 50%float
       /\ (0 <=? impact)%float = true
       /\ (impact <=? 100)%float = true.
Proof.
  split; [vm_compute; reflexivity|]. split; [vm_compute; reflexivity|].
  split; [vm_compute; reflexivity|]. split; [vm_compute; reflexivity|].
  destruct (calculatePriceImpact_contract KalySwap Sample.kalyswap Reference.runtime
              KSWAP wKLC "100" (Some Sample.chain)) as [_ [_ H]].
  destruct (H Sample.chain (Sample.pool_address Sample.poolKswap)
              (Sample.pool_reserve0 Sample.poolKswap)
              (Sample.pool_reserve1 Sample.poolKswap) 0%N (address wKLC)
              eq_refl eq_refl ltac:(discriminate) eq_refl eq_refl)
    as [E [_ [_ Range]]].
  eexists. split; [exact E|]. split; [vm_compute; reflexivity|].
  apply Range; vm_compute; reflexivity.
Defined.




(** * Further properties of the services *)

(** ** The further definitions on sample inputs *)

Example reference_numberToString :
  map (fun s => Reference.numberToString (Reference.parseFloat s))
      ["0.1"; "99.5"; "100"; "1e21"; "1.5e-7"; "0.000001"; "-2.5"; "abc"; "-0";
       "0.30000000000000004"; "1e23"]
  = ["0.1"; "99.5"; "100"; "1e+21"; "1.5e-7"; "0.000001"; "-2.5"; "NaN"; "0";
     "0.30000000000000004"; "1e+23"].
Proof. vm_compute. reflexivity. Qed.

Example reference_toFixed :
  map (fun '(s, digits) => Reference.toFixed (Reference.parseFloat s) digits)
      [("0.5", 2%Z); ("2.5", 0%Z); ("1.005", 2%Z); ("-0.001", 2%Z); ("0", 2%Z);
       ("8.345", 2%Z); ("1e21", 2%Z)]
  = ["0.50"; "3"; "1.00"; "-0.00"; "0.00"; "8.35"; "1e+21"].
Proof. vm_compute. reflexivity. Qed.

Example formatPriceImpact_samples :
  map (fun s => MultichainPriceImpact.formatPriceImpact Reference.toFixed
                  (Reference.parseFloat s))
      ["0"; "0.004"; "0.5"; "2.55"; "50"; "-1.0101"; "abc"]
  = ["0.00%"; "< 0.01%"; "0.50%"; "2.5%"; "50%"; "< 0.01%"; "NaN%"].
Proof. vm_compute. reflexivity. Qed.

Example getAmountOutMin_samples :
  map (fun s => BaseDexService.getAmountOutMin Reference.runtime
                  Reference.numberToString s 0.5)
      ["100"; "0"; "-4"; "abc"]
  = ["99.5"; "0"; "-3.98"; "NaN"]
  /\ map (fun s => MultichainPriceImpact.calculateMinAmountOut Reference.runtime
                     Reference.numberToString s 0.5)
         ["100"; "0"; "-4"; "abc"]
     = ["99.5"; "0"; "0"; "0"].
Proof. split; vm_compute; reflexivity. Qed.

(** In the sample pools wKLC is [token0]: the KLC price is read from the
    reserves in base units (18 and 6 decimals), and the KSWAP price takes
    the wKLC reserve for the KSWAP one. *)
Example price_helpers_on_sample_pools :
  KalySwapService.getKLCPrice Sample.kalyswap Reference.runtime Sample.chain
  = Ok (Reference.parseFloat "5e-14")
  /\ KalySwapService.getKSWAPPrice Sample.kalyswap Reference.runtime Sample.chain
     = Ok (Reference.parseFloat "0.025" * Reference.parseFloat "5e-14")%float
  /\ KalySwapService.getKLCPrice Sample.kalyswap Reference.runtime Sample.unreachable
     = Ok 0%float.
Proof. repeat split; vm_compute; reflexivity. Qed.

Example getTokensForChain_sample :
  TokenListService.getTokensForChain (list string) SampleLists.fetch
    SampleLists.configs 3888 []
  = ([KLC; wKLC; SampleLists.tether; KSWAP; DAI],
     ["/api/token-lists/default"; "https://lists.example/community.json";
      "https://lists.example/mirror.json"])
  /\ TokenListService.getTokensForChain (list string) SampleLists.fetch
       SampleLists.configs 56 []
     = ([], []).
Proof. split; vm_compute; reflexivity. Qed.

(** ** Routes *)

Section RouteShape.

Variable config : DexConfig.
Variable dex : string.
Variables (tokenIn tokenOut : Token) (publicClient : PublicClient).

Let addressIn := BaseDexService.resolve config tokenIn.
Let addressOut := BaseDexService.resolve config tokenOut.

Lemma guard_distinct (x y b : string) :
  negb (x =? b) && negb (y =? b) = true -> b <> x /\ b <> y.
Proof.
  intros H. apply andb_true_iff in H. destruct H as [H1 H2].
  apply negb_true_iff in H1, H2. apply String.eqb_neq in H1, H2.
  split; congruence.
Qed.

Lemma stable_step_shape (sym : string) (rest : result (list string)) :
  (exists path, rest = Ok path /\ (path = [] \/ bridged config tokenIn tokenOut path)) ->
  exists path,
    or_else
      match find (fun t => symbol t =? sym) (tokens config) with
      | Some stable =>
          if negb (addressIn =? address stable) && negb (addressOut =? address stable) then
            c0 <- BaseDexService.canSwapDirectly config dex tokenIn stable publicClient ;;
            c1 <- BaseDexService.canSwapDirectly config dex stable tokenOut publicClient ;;
            if c0 && c1 then Ok (Some [addressIn; address stable; addressOut])
            else Ok None
          else Ok None
      | None => Ok None
      end
      rest = Ok path
    /\ (path = [] \/ bridged config tokenIn tokenOut path).
Proof.
  intros [path [-> P]]. unfold or_else.
  destruct (find _ (tokens config)) as [stable|]; cbn; [|eauto].
  destruct (negb (addressIn =? address stable) && negb (addressOut =? address stable))
    eqn:G; cbn; [|eauto].
  rewrite canSwapDirectly_eq; cbn. rewrite canSwapDirectly_eq; cbn.
  destruct (Spec.hasPair config publicClient _ _ && Spec.hasPair config publicClient _ _);
    cbn; [|eauto].
  eexists. split; [reflexivity|]. right. exists (address stable).
  split; [reflexivity|]. apply guard_distinct. exact G.
Qed.

Lemma wrapped_step_shape (rest : result (list string)) :
  (exists path, rest = Ok path /\ (path = [] \/ bridged config tokenIn tokenOut path)) ->
  exists path,
    or_else
      (if negb (addressIn =? BaseDexService.getWethAddress config)
          && negb (addressOut =? BaseDexService.getWethAddress config) then
         match find (fun t => Js.toLowerCase (address t)
                              =? Js.toLowerCase (BaseDexService.getWethAddress config))
                    (tokens config) with
         | Some wrapped =>
             c0 <- BaseDexService.canSwapDirectly config dex tokenIn wrapped publicClient ;;
             c1 <- BaseDexService.canSwapDirectly config dex wrapped tokenOut publicClient ;;
             if c0 && c1
             then Ok (Some [addressIn; BaseDexService.getWethAddress config; addressOut])
             else Ok None
         | None => Ok None
         end
       else Ok None)
      rest = Ok path
    /\ (path = [] \/ bridged config tokenIn tokenOut path).
Proof.
  intros [path [-> P]]. unfold or_else.
  destruct (negb (addressIn =? BaseDexService.getWethAddress config)
            && negb (addressOut =? BaseDexService.getWethAddress config))
    eqn:G; cbn; [|eauto].
  destruct (find _ (tokens config)) as [wrapped|]; cbn; [|eauto].
  rewrite canSwapDirectly_eq; cbn. rewrite canSwapDirectly_eq; cbn.
  destruct (Spec.hasPair config publicClient _ _ && Spec.hasPair config publicClient _ _);
    cbn; [|eauto].
  eexists. split; [reflexivity|]. right. exists (BaseDexService.getWethAddress config).
  split; [reflexivity|]. apply guard_distinct. exact G.
Qed.

End RouteShape.

(** X1.  Whatever the registry and the chain, the planner of every adapter
    resolves, and with one of three shapes: the empty route; the two
    resolved endpoints, exactly when they have a direct pair; or the two
    resolved endpoints around one bridge address that differs from both. *)
Theorem getSwapRoute_shape
    (a : Adapter) (config : DexConfig) (rt : Runtime)
    (tokenIn tokenOut : Token) (publicClient : PublicClient) :
  exists path,
    getSwapRoute (service a config rt) tokenIn tokenOut publicClient = Ok path
    /\ (path = []
        \/ path = [BaseDexService.resolve config tokenIn;
                   BaseDexService.resolve config tokenOut]
        \/ exists bridge,
             path = [BaseDexService.resolve config tokenIn; bridge;
                     BaseDexService.resolve config tokenOut]
             /\ bridge <> BaseDexService.resolve config tokenIn
             /\ bridge <> BaseDexService.resolve config tokenOut)
    /\ (path = [BaseDexService.resolve config tokenIn;
                BaseDexService.resolve config tokenOut]
        <-> Spec.hasPair config publicClient
              (BaseDexService.resolve config tokenIn)
              (BaseDexService.resolve config tokenOut) = true).
Proof.
  assert (E : exists path : list string,
            Ok ([] : list string) = Ok path
            /\ (path = [] \/ bridged config tokenIn tokenOut path)) by eauto.
  destruct a; unfold_route;
    (destruct (Spec.hasPair config publicClient _ _) eqn:Direct;
     [ eexists; split; [reflexivity|]; split; [auto | tauto] | ]).
  - destruct (wrapped_step_shape config UniswapV2Service.getName tokenIn tokenOut
                publicClient _
                (stable_step_shape config UniswapV2Service.getName tokenIn tokenOut
                   publicClient "USDC" _
                   (stable_step_shape config UniswapV2Service.getName tokenIn tokenOut
                      publicClient "USDT" _ E)))
      as [path [R S]].
    exists path. split; [exact R|]. split.
    + destruct S as [->|[b [-> N]]]; [auto|]. right. right. exists b. auto.
    + split; [|discriminate]. intros ->.
      destruct S as [S|[b [S _]]]; discriminate.
  - destruct (wrapped_step_shape config PancakeSwapService.getName tokenIn tokenOut
                publicClient _
                (stable_step_shape config PancakeSwapService.getName tokenIn tokenOut
                   publicClient "USDT" _
                   (stable_step_shape config PancakeSwapService.getName tokenIn tokenOut
                      publicClient "BUSD" _ E)))
      as [path [R S]].
    exists path. split; [exact R|]. split.
    + destruct S as [->|[b [-> N]]]; [auto|]. right. right. exists b. auto.
    + split; [|discriminate]. intros ->.
      destruct S as [S|[b [S _]]]; discriminate.
  - destruct (wrapped_step_shape config KalySwapService.getName tokenIn tokenOut
                publicClient _
                (stable_step_shape config KalySwapService.getName tokenIn tokenOut
                   publicClient "USDT" _ E))
      as [path [R S]].
    exists path. split; [exact R|]. split.
    + destruct S as [->|[b [-> N]]]; [auto|]. right. right. exists b. auto.
    + split; [|discriminate]. intros ->.
      destruct S as [S|[b [S _]]]; discriminate.
Qed.

Ltac unfold_swap :=
  cbn [service executeSwap getSwapRoute isWrapOperation isUnwrapOperation getName] in *;
  unfold UniswapV2Service.executeSwap, PancakeSwapService.executeSwap,
    KalySwapService.executeSwap, catchTx, bindTx, liftTx, writeContract, deadlineAt,
    swapFailure.

(** X2.  The override of every adapter extends the planner of the base
    class: a route the base planner finds is the route of the adapter. *)
Theorem adapter_route_extends_base
    (a : Adapter) (config : DexConfig) (rt : Runtime) (dex : string)
    (tokenIn tokenOut : Token) (publicClient : PublicClient) (path : list string) :
  BaseDexService.getSwapRoute config dex tokenIn tokenOut publicClient = Ok path ->
  path <> [] ->
  getSwapRoute (service a config rt) tokenIn tokenOut publicClient = Ok path.
Proof.
  unfold BaseDexService.getSwapRoute. cbv zeta.
  rewrite canSwapDirectly_eq. cbn [bind].
  intros H N.
  destruct a; unfold_route;
    (destruct (Spec.hasPair config publicClient _ _) eqn:Direct; [exact H|]);
    revert H; unfold or_else;
    (destruct (negb (BaseDexService.resolve config tokenIn
                     =? BaseDexService.getWethAddress config)
               && negb (BaseDexService.resolve config tokenOut
                        =? BaseDexService.getWethAddress config));
     cbn; [|congruence]);
    (destruct (find _ (tokens config)) as [wrapped|]; cbn; [|congruence]);
    repeat (rewrite canSwapDirectly_eq; cbn);
    (destruct (Spec.hasPair config publicClient _ _
               && Spec.hasPair config publicClient _ _); cbn; congruence).
Qed.

Lemma adapter_route_extends_base_witness :
  getSwapRoute (service KalySwap Sample.kalyswap Reference.runtime)
    KSWAP USDT (Some Sample.chain)
  = Ok [address KSWAP; address wKLC; address USDT].
Proof.
  apply (adapter_route_extends_base KalySwap Sample.kalyswap Reference.runtime
           "KalySwap" KSWAP USDT (Some Sample.chain)).
  - vm_compute. reflexivity.
  - discriminate.
Defined.

(** ** Quotes *)

(** X3.  Whatever makes a quote fail, [getQuote] rejects with a [DexError]:
    a foreign error (a failed read, a viem error, a [TypeError]) never
    leaves it. *)
Theorem getQuote_rejects_with_DexError
    (a : Adapter) (config : DexConfig) (rt : Runtime)
    (tokenIn tokenOut : Token) (amountIn : string) (publicClient : PublicClient)
    (e : exn) :
  getQuote (service a config rt) tokenIn tokenOut amountIn publicClient = Throw e ->
  instanceofDexError e = true.
Proof.
  assert (G : forall dex planner,
    BaseDexService.getQuote config rt dex planner tokenIn tokenOut amountIn publicClient
    = Throw e -> instanceofDexError e = true).
  { intros dex planner. unfold BaseDexService.getQuote, try_catch.
    destruct (bind _ _) as [q|e']; [discriminate|].
    destruct e'; intros H; inversion H; reflexivity. }
  destruct a; unfold_quote; (destruct (_ || _); [discriminate|apply G]).
Qed.

Lemma getQuote_rejects_with_DexError_witness :
  exists e,
    getQuote (service KalySwap Sample.kalyswap Reference.runtime)
      KSWAP USDT "abc" (Some Sample.chain) = Throw e
    /\ instanceofDexError e = true.
Proof.
  eexists. split; [vm_compute; reflexivity|].
  eapply (getQuote_rejects_with_DexError KalySwap Sample.kalyswap Reference.runtime
            KSWAP USDT "abc" (Some Sample.chain)).
  vm_compute. reflexivity.
Defined.

(** X4.  A quote that is not the wrap short-circuit and resolves was made
    as follows: the route is the one of the planner and is not empty; the
    amount was parsed with the decimals of the input token; the router
    simulated that amount along the route; the amount out is the last
    amount of its answer, formatted with the decimals of the output token;
    the gas estimate is the fixed 200000. *)
Theorem getQuote_anatomy
    (a : Adapter) (config : DexConfig) (rt : Runtime)
    (tokenIn tokenOut : Token) (amountIn : string) (publicClient : PublicClient)
    (q : QuoteResult) :
  isWrapOperation a tokenIn tokenOut = false ->
  isUnwrapOperation a tokenIn tokenOut = false ->
  getQuote (service a config rt) tokenIn tokenOut amountIn publicClient = Ok q ->
  exists chain wei amounts out,
    publicClient = Some chain
    /\ getSwapRoute (service a config rt) tokenIn tokenOut publicClient = Ok (route q)
    /\ route q <> []
    /\ parseUnits rt amountIn (decimals tokenIn) = Ok wei
    /\ router_getAmountsOut chain (router config) wei (route q) = Ok amounts
    /\ last (map Some amounts) None = Some out
    /\ amountOut q = formatUnits rt out (decimals tokenOut)
    /\ gasEstimate q = Some "200000"
    /\ executionPrice q = None.
Proof.
  intros W U.
  assert (G : forall dex planner,
    BaseDexService.getQuote config rt dex planner tokenIn tokenOut amountIn publicClient
    = Ok q ->
    exists chain wei amounts out,
      publicClient = Some chain
      /\ planner tokenIn tokenOut publicClient = Ok (route q)
      /\ route q <> []
      /\ parseUnits rt amountIn (decimals tokenIn) = Ok wei
      /\ router_getAmountsOut chain (router config) wei (route q) = Ok amounts
      /\ last (map Some amounts) None = Some out
      /\ amountOut q = formatUnits rt out (decimals tokenOut)
      /\ gasEstimate q = Some "200000"
      /\ executionPrice q = None).
  { intros dex planner. unfold BaseDexService.getQuote.
    destruct (planner tokenIn tokenOut publicClient) as [path|e]; cbn.
    2:{ destruct e; discriminate. }
    destruct path as [|x path]; cbn; [discriminate|].
    destruct (parseUnits rt amountIn (decimals tokenIn)) as [wei|e]; cbn.
    2:{ destruct e; discriminate. }
    destruct publicClient as [chain|]; cbn; [|discriminate].
    destruct (router_getAmountsOut chain _ _ _) as [amounts|e] eqn:R; cbn.
    2:{ destruct e; discriminate. }
    destruct (last (map Some amounts) None) as [out|] eqn:L; cbn; [|discriminate].
    destruct (BaseDexService.calculatePriceImpact _ _ _ _ _ _ _) as [impact|e]; cbn.
    2:{ destruct e; discriminate. }
    intros H. inversion H; subst; clear H. cbn.
    exists chain, wei, amounts, out. repeat split; auto. discriminate. }
  destruct a; unfold_quote; cbn [isWrapOperation isUnwrapOperation] in W, U;
    rewrite W, U; cbn [orb]; apply G.
Qed.

Lemma getQuote_anatomy_witness :
  exists q,
    getQuote (service KalySwap Sample.kalyswap Reference.runtime)
      KSWAP USDT "100" (Some Sample.chain) = Ok q
    /\ getSwapRoute (service KalySwap Sample.kalyswap Reference.runtime)
         KSWAP USDT (Some Sample.chain) = Ok (route q)
    /\ route q <> []
    /\ gasEstimate q = Some "200000".
Proof.
  eexists. split; [vm_compute; reflexivity|].
  edestruct (getQuote_anatomy KalySwap Sample.kalyswap Reference.runtime
               KSWAP USDT "100" (Some Sample.chain))
    as (chain & wei & amounts & out & _ & R & N & _ & _ & _ & _ & G & _);
    [reflexivity|reflexivity|vm_compute; reflexivity|].
  split; [exact R|]. split; [exact N|exact G].
Defined.



(** ** Swaps *)

(** X6.  A wrap is executed as one [deposit()] on the wrapped-native
    contract of the chain, with the parsed amount as value and no argument;
    the contract is the one the adapter is written for, whatever the address
    of the output token, and neither the route, the recipient, the minimum
    output nor the deadline of the parameters enters the call. *)
Theorem executeSwap_wrap_is_deposit
    (a : Adapter) (config : DexConfig) (rt : Runtime)
    (params : SwapParams) (wallet : WalletClient) (now : Z) (log : list WriteCall)
    (acct : string) (amountIn : Z) :
  account wallet = Some acct ->
  parseUnits rt (p_amountIn params) (decimals (p_tokenIn params)) = Ok amountIn ->
  isWrapOperation a (p_tokenIn params) (p_tokenOut params) = true ->
  let call := {| call_address := Spec.wrappedAddress a;
                 call_functionName := "deposit";
                 call_args := [];
                 call_value := Some amountIn;
                 call_account := acct |} in
  fst (executeSwap (service a config rt) params (Some wallet) now log) = log ++ [call]
  /\ (forall txHash, wallet_send wallet call = Ok txHash ->
      snd (executeSwap (service a config rt) params (Some wallet) now log) = Ok txHash).
Proof.
  intros Acct In W call. subst call.
  destruct a; unfold_swap; rewrite Acct, In, W;
    unfold UniswapV2Service.WETH_ADDRESS, PancakeSwapService.WBNB_ADDRESS,
      KalySwapService.WKLC_ADDRESS; cbn [Spec.wrappedAddress];
    (split; [destruct (wallet_send wallet _); reflexivity|]);
    intros txHash S; rewrite S; reflexivity.
Qed.

Lemma executeSwap_wrap_is_deposit_witness :
  fst (executeSwap (service KalySwap Sample.kalyswap Reference.runtime)
         (Sample.swap KLC wKLC "1" "1" None) (Some Sample.wallet) 1700000000123 [])
  = [ {| call_address := "0x069255299Bb729399f3CECaBdc73d15d3D10a2A3";
         call_functionName := "deposit";
         call_args := [];
         call_value := Some 1000000000000000000%Z;
         call_account := "0x6000000000000000000000000000000000000001" |} ].
Proof.
  pose proof (executeSwap_wrap_is_deposit KalySwap Sample.kalyswap Reference.runtime
           (Sample.swap KLC wKLC "1" "1" None) Sample.wallet 1700000000123 []
           "0x6000000000000000000000000000000000000001" 1000000000000000000
           eq_refl eq_refl eq_refl) as H.
  cbv zeta in H. destruct H as [F _]. exact F.
Defined.

(** X7.  An unwrap that is not also a wrap is executed as one
    [withdraw(amount)] on the wrapped-native contract of the chain, without
    value. *)
Theorem executeSwap_unwrap_is_withdraw
    (a : Adapter) (config : DexConfig) (rt : Runtime)
    (params : SwapParams) (wallet : WalletClient) (now : Z) (log : list WriteCall)
    (acct : string) (amountIn : Z) :
  account wallet = Some acct ->
  parseUnits rt (p_amountIn params) (decimals (p_tokenIn params)) = Ok amountIn ->
  isWrapOperation a (p_tokenIn params) (p_tokenOut params) = false ->
  isUnwrapOperation a (p_tokenIn params) (p_tokenOut params) = true ->
  let call := {| call_address := Spec.wrappedAddress a;
                 call_functionName := "withdraw";
                 call_args := [AUint amountIn];
                 call_value := None;
                 call_account := acct |} in
  fst (executeSwap (service a config rt) params (Some wallet) now log) = log ++ [call]
  /\ (forall txHash, wallet_send wallet call = Ok txHash ->
      snd (executeSwap (service a config rt) params (Some wallet) now log) = Ok txHash).
Proof.
  intros Acct In W U call. subst call.
  destruct a; unfold_swap; rewrite Acct, In, W, U;
    unfold UniswapV2Service.WETH_ADDRESS, PancakeSwapService.WBNB_ADDRESS,
      KalySwapService.WKLC_ADDRESS; cbn [Spec.wrappedAddress];
    (split; [destruct (wallet_send wallet _); reflexivity|]);
    intros txHash S; rewrite S; reflexivity.
Qed.

Lemma executeSwap_unwrap_is_withdraw_witness :
  fst (executeSwap (service KalySwap Sample.kalyswap Reference.runtime)
         (Sample.swap wKLC KLC "1" "1" None) (Some Sample.wallet) 1700000000123 [])
  = [ {| call_address := "0x069255299Bb729399f3CECaBdc73d15d3D10a2A3";
         call_functionName := "withdraw";
         call_args := [AUint 1000000000000000000];
         call_value := None;
         call_account := "0x6000000000000000000000000000000000000001" |} ].
Proof.
  pose proof (executeSwap_unwrap_is_withdraw KalySwap Sample.kalyswap Reference.runtime
           (Sample.swap wKLC KLC "1" "1" None) Sample.wallet 1700000000123 []
           "0x6000000000000000000000000000000000000001" 1000000000000000000
           eq_refl eq_refl eq_refl eq_refl) as H.
  cbv zeta in H. destruct H as [F _]. exact F.
Defined.

Ltac rejected :=
  left;
  match goal with
  | e : exn |- _ => destruct e as [| | | |? [?|]]
  | _ => idtac
  end;
  eexists; reflexivity.

Ltac submitted wallet :=
  right; exists wallet; eexists; split; [reflexivity|];
  split; [destruct (wallet_send wallet _); reflexivity|];
  destruct (wallet_send wallet _) as [h|e]; cbn;
  [reflexivity|destruct e as [| | | |? [?|]]; reflexivity].

Ltac at_most_one wrapTest unwrapTest :=
  match goal with
  | |- context [match ?w with Some _ => _ | None => _ end] =>
      destruct w as [wallet|]; [|rejected];
      destruct (account wallet) as [acct|]; [|rejected];
      match goal with
      | |- context [parseUnits ?rt (p_amountIn ?params) ?d] =>
          destruct (parseUnits rt (p_amountIn params) d) as [amountIn|e];
          [|rejected];
          destruct (wrapTest (p_tokenIn params) (p_tokenOut params));
          [submitted wallet|];
          destruct (unwrapTest (p_tokenIn params) (p_tokenOut params));
          [submitted wallet|];
          match goal with
          | |- context [match p_route params with Some r => Ok r | None => ?g end] =>
              destruct (match p_route params with Some r => Ok r | None => g end)
                as [path|e]; [|rejected];
              destruct path as [|hop path]; cbn [List.length Nat.eqb]; [rejected|];
              destruct (parseUnits rt (p_amountOutMin params) (decimals (p_tokenOut params)))
                as [amountOutMin|e]; [|rejected];
              destruct (native (p_tokenIn params));
              [|destruct (native (p_tokenOut params))];
              submitted wallet
          end
      end
  end.

(** X8.  [executeSwap] submits at most one call.  Either it rejects and
    nothing was submitted, or exactly one call went to the wallet and the
    outcome is the one of that submission: the transaction hash when the
    wallet accepts it; when it does not, the [DexError] it rejected with, or
    a [SwapFailedError] with the message of any other error (with
    "Unknown error" when it has none). *)
Theorem executeSwap_submits_at_most_one_call
    (a : Adapter) (config : DexConfig) (rt : Runtime)
    (params : SwapParams) (walletClient : option WalletClient) (now : Z)
    (log : list WriteCall) :
  (exists e,
     executeSwap (service a config rt) params walletClient now log = (log, Throw e))
  \/ (exists wallet call,
        walletClient = Some wallet
        /\ fst (executeSwap (service a config rt) params walletClient now log)
           = log ++ [call]
        /\ match wallet_send wallet call with
           | Ok txHash =>
               snd (executeSwap (service a config rt) params walletClient now log)
               = Ok txHash
           | Throw failure =>
               snd (executeSwap (service a config rt) params walletClient now log)
               = Throw match failure with
                       | JsError _ (Some message) =>
                           SwapFailedError (getName (service a config rt)) message
                       | JsError _ None =>
                           SwapFailedError (getName (service a config rt)) "Unknown error"
                       | _ => failure
                       end
           end).
Proof.
  destruct a; unfold_swap.
  - at_most_one UniswapV2Service.isWrapOperation UniswapV2Service.isUnwrapOperation.
  - at_most_one PancakeSwapService.isWrapOperation PancakeSwapService.isUnwrapOperation.
  - at_most_one KalySwapService.isWrapOperation KalySwapService.isUnwrapOperation.
Qed.

Ltac explore wrapTest unwrapTest finish :=
  match goal with
  | |- context [match ?w with Some _ => _ | None => _ end] =>
      destruct w as [wallet|]; [|finish];
      destruct (account wallet) as [acct|]; [|finish];
      match goal with
      | |- context [parseUnits ?rt (p_amountIn ?params) ?d] =>
          destruct (parseUnits rt (p_amountIn params) d) as [amountIn|e];
          [|finish];
          destruct (wrapTest (p_tokenIn params) (p_tokenOut params));
          [finish|];
          destruct (unwrapTest (p_tokenIn params) (p_tokenOut params));
          [finish|];
          match goal with
          | |- context [match p_route params with Some r => Ok r | None => ?g end] =>
              destruct (match p_route params with Some r => Ok r | None => g end)
                as [path|e]; [|finish];
              destruct path as [|hop path]; cbn [List.length Nat.eqb]; [finish|];
              destruct (parseUnits rt (p_amountOutMin params) (decimals (p_tokenOut params)))
                as [amountOutMin|e]; [|finish];
              destruct (native (p_tokenIn params));
              [|destruct (native (p_tokenOut params))];
              finish
          end
      end
  end.

Ltac is_dex_error :=
  repeat match goal with
    | e : exn |- _ => destruct e as [| | | |? [?|]]
    end;
  try match goal with
    | |- context [wallet_send ?w ?c] =>
        destruct (wallet_send w c) as [?|[| | | |? [?|]]]
    end;
  cbn; intros H; inversion H; reflexivity.

(** X9.  Whatever makes a swap fail, [executeSwap] rejects with a
    [DexError]: a foreign error of the wallet, of viem or of a read is
    wrapped as a [SwapFailedError] before it leaves. *)
Theorem executeSwap_rejects_with_DexError
    (a : Adapter) (config : DexConfig) (rt : Runtime)
    (params : SwapParams) (walletClient : option WalletClient) (now : Z)
    (log : list WriteCall) (err : exn) :
  snd (executeSwap (service a config rt) params walletClient now log) = Throw err ->
  instanceofDexError err = true.
Proof.
  revert err.
  destruct a; unfold_swap; intros err.
  - explore UniswapV2Service.isWrapOperation UniswapV2Service.isUnwrapOperation
      is_dex_error.
  - explore PancakeSwapService.isWrapOperation PancakeSwapService.isUnwrapOperation
      is_dex_error.
  - explore KalySwapService.isWrapOperation KalySwapService.isUnwrapOperation
      is_dex_error.
Qed.

Lemma executeSwap_rejects_with_DexError_witness :
  exists err,
    snd (executeSwap (service KalySwap Sample.kalyswap Reference.runtime)
           (Sample.swap KLC USDT "abc" "0.04" None) (Some Sample.wallet)
           1700000000123 []) = Throw err
    /\ instanceofDexError err = true.
Proof.
  eexists. split; [vm_compute; reflexivity|].
  eapply (executeSwap_rejects_with_DexError KalySwap Sample.kalyswap Reference.runtime
            (Sample.swap KLC USDT "abc" "0.04" None) (Some Sample.wallet)
            1700000000123 []).
  vm_compute. reflexivity.
Defined.

(** X10.  Without a wallet client [executeSwap] rejects with code
    [NO_WALLET], and with a wallet client that has no account with code
    [NO_ACCOUNT]; both are tested before the amount is parsed, and nothing
    is submitted. *)
Theorem executeSwap_needs_wallet_and_account
    (a : Adapter) (config : DexConfig) (rt : Runtime)
    (params : SwapParams) (now : Z) (log : list WriteCall) :
  executeSwap (service a config rt) params None now log
  = (log, Throw (DexError "Wallet client not available" "NO_WALLET"
                   (getName (service a config rt))))
  /\ forall wallet,
       account wallet = None ->
       executeSwap (service a config rt) params (Some wallet) now log
       = (log, Throw (DexError "No account found in wallet client" "NO_ACCOUNT"
                        (getName (service a config rt)))).
Proof.
  destruct a; unfold_swap; (split; [reflexivity|]); intros wallet ->; reflexivity.
Qed.

(** X11.  A route given in the parameters is taken as it is, also when it is
    empty: the planner is asked only when the parameters have no route.  A
    swap that is neither a wrap nor an unwrap and whose route is empty
    rejects with [SwapFailedError] "No swap route available", and nothing is
    submitted. *)
Theorem executeSwap_empty_route
    (a : Adapter) (config : DexConfig) (rt : Runtime)
    (params : SwapParams) (wallet : WalletClient) (now : Z) (log : list WriteCall)
    (acct : string) (amountIn : Z) :
  account wallet = Some acct ->
  parseUnits rt (p_amountIn params) (decimals (p_tokenIn params)) = Ok amountIn ->
  isWrapOperation a (p_tokenIn params) (p_tokenOut params) = false ->
  isUnwrapOperation a (p_tokenIn params) (p_tokenOut params) = false ->
  p_route params = Some []
  \/ (p_route params = None
      /\ getSwapRoute (service a config rt) (p_tokenIn params) (p_tokenOut params)
           (Some (wallet_reads wallet)) = Ok []) ->
  executeSwap (service a config rt) params (Some wallet) now log
  = (log, Throw (SwapFailedError (getName (service a config rt))
                   "No swap route available")).
Proof.
  intros Acct In W U R.
  destruct a; unfold_swap; rewrite Acct, In, W, U;
    (destruct R as [->|[-> ->]]; reflexivity).
Qed.

Lemma executeSwap_empty_route_witness :
  getSwapRoute (service KalySwap Sample.kalyswap Reference.runtime) KLC USDT
    (Some Sample.chain) = Ok [address wKLC; address USDT]
  /\ executeSwap (service KalySwap Sample.kalyswap Reference.runtime)
       (Sample.swap KLC USDT "1" "0.04" (Some [])) (Some Sample.wallet)
       1700000000123 []
     = ([], Throw (SwapFailedError "KalySwap" "No swap route available")).
Proof.
  split; [vm_compute; reflexivity|].
  apply (executeSwap_empty_route KalySwap Sample.kalyswap Reference.runtime
           (Sample.swap KLC USDT "1" "0.04" (Some [])) Sample.wallet 1700000000123 []
           "0x6000000000000000000000000000000000000001" 1000000000000000000).
  - reflexivity.
  - reflexivity.
  - reflexivity.
  - reflexivity.
  - left. reflexivity.
Defined.

(** X12.  With a route in the parameters, [executeSwap] reads nothing from
    the chain: the outcome is the same whatever the reads of the wallet
    client answer. *)
Theorem executeSwap_supplied_route_reads_nothing
    (a : Adapter) (config : DexConfig) (rt : Runtime)
    (params : SwapParams) (wallet : WalletClient) (reads : Chain) (now : Z)
    (log : list WriteCall) (path : list string) :
  p_route params = Some path ->
  executeSwap (service a config rt) params (Some wallet) now log
  = executeSwap (service a config rt) params
      (Some {| account := account wallet;
               wallet_send := wallet_send wallet;
               wallet_reads := reads |}) now log.
Proof.
  intros R. destruct a; unfold_swap; rewrite R; reflexivity.
Qed.

Lemma executeSwap_supplied_route_reads_nothing_witness :
  executeSwap (service KalySwap Sample.kalyswap Reference.runtime)
    (Sample.swap KSWAP USDT "1" "0.04" (Some [address KSWAP; address USDT]))
    (Some Sample.wallet) 1700000000123 []
  = executeSwap (service KalySwap Sample.kalyswap Reference.runtime)
      (Sample.swap KSWAP USDT "1" "0.04" (Some [address KSWAP; address USDT]))
      (Some {| account := account Sample.wallet;
               wallet_send := wallet_send Sample.wallet;
               wallet_reads := Sample.unreachable |}) 1700000000123 [].
Proof.
  apply (executeSwap_supplied_route_reads_nothing KalySwap Sample.kalyswap
           Reference.runtime
           (Sample.swap KSWAP USDT "1" "0.04" (Some [address KSWAP; address USDT]))
           Sample.wallet Sample.unreachable 1700000000123 []
           [address KSWAP; address USDT]).
  reflexivity.
Defined.

(** X13.  The wrap short-circuit of [getQuote] does not look at the
    amount: it quotes a string that [parseUnits] rejects, for which
    [executeSwap] then rejects with a [SwapFailedError] carrying the message
    of [parseUnits], without submitting anything. *)
Theorem wrap_quote_does_not_validate_amount
    (a : Adapter) (config : DexConfig) (rt : Runtime)
    (params : SwapParams) (wallet : WalletClient) (publicClient : PublicClient)
    (now : Z) (log : list WriteCall) (acct text message : string) :
  isWrapOperation a (p_tokenIn params) (p_tokenOut params)
  || isUnwrapOperation a (p_tokenIn params) (p_tokenOut params) = true ->
  account wallet = Some acct ->
  parseUnits rt (p_amountIn params) (decimals (p_tokenIn params))
  = Throw (JsError text (Some message)) ->
  (exists q,
     getQuote (service a config rt) (p_tokenIn params) (p_tokenOut params)
       (p_amountIn params) publicClient = Ok q
     /\ amountOut q = p_amountIn params)
  /\ executeSwap (service a config rt) params (Some wallet) now log
     = (log, Throw (SwapFailedError (getName (service a config rt)) message)).
Proof.
  intros W Acct P. split.
  - eexists. split; [apply wrap_short_circuit; exact W|reflexivity].
  - destruct a; unfold_swap; rewrite Acct, P; reflexivity.
Qed.

Lemma wrap_quote_does_not_validate_amount_witness :
  (exists q,
     getQuote (service KalySwap Sample.kalyswap Reference.runtime)
       KLC wKLC "abc" (Some Sample.chain) = Ok q
     /\ amountOut q = "abc")
  /\ executeSwap (service KalySwap Sample.kalyswap Reference.runtime)
       (Sample.swap KLC wKLC "abc" "abc" None) (Some Sample.wallet) 1700000000123 []
     = ([], Throw (SwapFailedError "KalySwap" "not a valid decimal number")).
Proof.
  apply (wrap_quote_does_not_validate_amount KalySwap Sample.kalyswap Reference.runtime
           (Sample.swap KLC wKLC "abc" "abc" None) Sample.wallet (Some Sample.chain)
           1700000000123 [] "0x6000000000000000000000000000000000000001"
           "InvalidDecimalNumberError" "not a valid decimal number").
  - reflexivity.
  - reflexivity.
  - reflexivity.
Defined.

(** ** The order of doubles *)

Section Order.

Import FloatOrder.

Lemma SFcompare_rank (x y : spec_float) :
  x <> S754_nan -> y <> S754_nan ->
  SFcompare x y = Some (lexCompare (rank x) (rank y)).
Proof.
  intros X Y.
  destruct x as [sx|sx| |sx mx ex], y as [sy|sy| |sy my ey];
    try congruence; try destruct sx; try destruct sy; try reflexivity;
    unfold SFcompare, rank, lexCompare;
    change (IntDef.Z.compare ?a ?b) with (Z.compare a b);
    change (PosDef.Pos.compare_cont Eq ?a ?b) with (Pos.compare a b);
    change (-1 ?= -1)%Z with Eq; change (1 ?= 1)%Z with Eq; cbv iota.
  rewrite Z.compare_opp, (Z.compare_antisym ey ex).
  destruct (Z.compare ey ex); reflexivity.
Qed.

Lemma lexCompare_trans (a b c : Z * Z * Z) :
  lexCompare a b = Lt -> lexCompare b c <> Gt -> lexCompare a c = Lt.
Proof.
  destruct a as [[a1 a2] a3], b as [[b1 b2] b3], c as [[c1 c2] c3].
  unfold lexCompare.
  destruct (Z.compare_spec a1 b1), (Z.compare_spec a2 b2), (Z.compare_spec a3 b3),
    (Z.compare_spec b1 c1), (Z.compare_spec b2 c2), (Z.compare_spec b3 c3),
    (Z.compare_spec a1 c1), (Z.compare_spec a2 c2), (Z.compare_spec a3 c3);
    intros; try congruence; try lia.
Qed.

Lemma lexCompare_trans' (a b c : Z * Z * Z) :
  lexCompare a b <> Gt -> lexCompare b c = Lt -> lexCompare a c = Lt.
Proof.
  destruct a as [[a1 a2] a3], b as [[b1 b2] b3], c as [[c1 c2] c3].
  unfold lexCompare.
  destruct (Z.compare_spec a1 b1), (Z.compare_spec a2 b2), (Z.compare_spec a3 b3),
    (Z.compare_spec b1 c1), (Z.compare_spec b2 c2), (Z.compare_spec b3 c3),
    (Z.compare_spec a1 c1), (Z.compare_spec a2 c2), (Z.compare_spec a3 c3);
    intros; try congruence; try lia.
Qed.

Lemma SFcompare_defined (x y : spec_float) (c : comparison) :
  SFcompare x y = Some c -> x <> S754_nan /\ y <> S754_nan.
Proof.
  destruct x as [sx|sx| |sx mx ex], y as [sy|sy| |sy my ey];
    cbn; intros H; try discriminate; split; discriminate.
Qed.

(** [x < y] and [y <= z] give [x < z]; so do [x <= y] and [y < z]. *)
Lemma ltb_leb_trans (x y z : float) :
  (x <? y)%float = true -> (y <=? z)%float = true -> (x <? z)%float = true.
Proof.
  rewrite !FloatAxioms.ltb_spec, FloatAxioms.leb_spec. unfold SFltb, SFleb.
  destruct (SFcompare (Prim2SF x) (Prim2SF y)) as [[| |]|] eqn:A; try discriminate.
  destruct (SFcompare (Prim2SF y) (Prim2SF z)) as [c|] eqn:B; try discriminate.
  intros _ C.
  destruct (SFcompare_defined _ _ _ A) as [X Y].
  destruct (SFcompare_defined _ _ _ B) as [_ Z'].
  rewrite (SFcompare_rank _ _ X Y) in A. rewrite (SFcompare_rank _ _ Y Z') in B.
  rewrite (SFcompare_rank _ _ X Z').
  rewrite (lexCompare_trans (rank (Prim2SF x)) (rank (Prim2SF y)) (rank (Prim2SF z)));
    [reflexivity|congruence|].
  injection B as B. rewrite B. destruct c; congruence.
Qed.

Lemma leb_ltb_trans (x y z : float) :
  (x <=? y)%float = true -> (y <? z)%float = true -> (x <? z)%float = true.
Proof.
  rewrite !FloatAxioms.ltb_spec, FloatAxioms.leb_spec. unfold SFltb, SFleb.
  destruct (SFcompare (Prim2SF x) (Prim2SF y)) as [c|] eqn:A; try discriminate.
  destruct (SFcompare (Prim2SF y) (Prim2SF z)) as [[| |]|] eqn:B; try discriminate.
  intros C _.
  destruct (SFcompare_defined _ _ _ A) as [X Y].
  destruct (SFcompare_defined _ _ _ B) as [_ Z'].
  rewrite (SFcompare_rank _ _ X Y) in A. rewrite (SFcompare_rank _ _ Y Z') in B.
  rewrite (SFcompare_rank _ _ X Z').
  rewrite (lexCompare_trans' (rank (Prim2SF x)) (rank (Prim2SF y)) (rank (Prim2SF z)));
    [reflexivity| |congruence].
  injection A as A. rewrite A. destruct c; congruence.
Qed.

Lemma ltb_leb (x y : float) : (x <? y)%float = true -> (x <=? y)%float = true.
Proof.
  rewrite FloatAxioms.ltb_spec, FloatAxioms.leb_spec. unfold SFltb, SFleb.
  destruct (SFcompare _ _) as [[| |]|]; congruence.
Qed.

Lemma ltb_trans (x y z : float) :
  (x <? y)%float = true -> (y <? z)%float = true -> (x <? z)%float = true.
Proof. intros A B. exact (ltb_leb_trans x y z A (ltb_leb y z B)). Qed.

(** Two doubles that are not [NaN] compare one way or the other. *)
Lemma leb_negb_ltb (x y : float) :
  is_nan x = false -> is_nan y = false -> (y <=? x)%float = negb (x <? y)%float.
Proof.
  intros X Y.
  assert (X' : Prim2SF x <> S754_nan)
    by (intros E; apply is_nan_spec in E; congruence).
  assert (Y' : Prim2SF y <> S754_nan)
    by (intros E; apply is_nan_spec in E; congruence).
  rewrite FloatAxioms.ltb_spec, FloatAxioms.leb_spec. unfold SFltb, SFleb.
  rewrite (SFcompare_antisym (Prim2SF x) (Prim2SF y)).
  rewrite (SFcompare_rank _ _ X' Y').
  destruct (lexCompare _ _); reflexivity.
Qed.

(** Every comparison with [NaN] is false. *)
Lemma nan_compares_false (x y : float) :
  is_nan x = true ->
  (x <? y)%float = false /\ (y <? x)%float = false
  /\ (x <=? y)%float = false /\ (y <=? x)%float = false
  /\ (x =? y)%float = false.
Proof.
  intros X. apply is_nan_spec in X.
  rewrite !FloatAxioms.ltb_spec, !FloatAxioms.leb_spec, FloatAxioms.eqb_spec.
  unfold SFltb, SFleb, SFeqb. rewrite X.
  destruct (Prim2SF y) as [s|s| |s m e]; try destruct s; repeat split; reflexivity.
Qed.

Lemma ltb_not_nan (x y : float) :
  (x <? y)%float = true -> is_nan x = false /\ is_nan y = false.
Proof.
  intros L.
  split.
  - destruct (is_nan x) eqn:N; [|reflexivity].
    destruct (nan_compares_false x y N) as [A _]. congruence.
  - destruct (is_nan y) eqn:N; [|reflexivity].
    destruct (nan_compares_false y x N) as [_ [A _]]. congruence.
Qed.

End Order.

(** ** The display of the price impact *)

Section Display.

Import MultichainPriceImpact.

Lemma one_below_three : (1 <? 3)%float = true.
Proof. vm_compute. reflexivity. Qed.

Lemma three_below_five : (3 <? 5)%float = true.
Proof. vm_compute. reflexivity. Qed.

Lemma zero_below_hundredth : (0 <? 0x1.47ae147ae147bp-7)%float = true.
Proof. vm_compute. reflexivity. Qed.

(** X14.  A warning is shown exactly when the severity is [high] or
    [critical], and [shouldWarnPriceImpact] agrees with both on every
    number; on [NaN], which [calculatePriceImpact] can return, it says
    [false] while the severity is [critical] and the warning the strongest
    one. *)
Theorem warning_matches_severity (p : float) :
  (getPriceImpactWarning p = None
   <-> getPriceImpactSeverity p = low \/ getPriceImpactSeverity p = medium)
  /\ (shouldWarnPriceImpact p = true -> getPriceImpactWarning p <> None)
  /\ (is_nan p = false ->
      getPriceImpactWarning p <> None -> shouldWarnPriceImpact p = true)
  /\ (is_nan p = true ->
      shouldWarnPriceImpact p = false
      /\ getPriceImpactWarning p
         = Some "Extremely high price impact. This swap is not recommended."
      /\ getPriceImpactSeverity p = critical
      /\ getPriceImpactColor p = "text-red-400").
Proof.
  unfold getPriceImpactWarning, getPriceImpactSeverity, shouldWarnPriceImpact,
    getPriceImpactColor.
  split; [split|split; [|split]].
  - destruct (p <? 3)%float eqn:L3.
    + destruct (p <? 1)%float; auto.
    + destruct (p <? 5)%float; [discriminate|].
      destruct (p <? 15)%float; discriminate.
  - destruct (p <? 1)%float eqn:L1.
    + rewrite (ltb_trans p 1 3 L1 one_below_three). reflexivity.
    + destruct (p <? 3)%float; [reflexivity|].
      destruct (p <? 5)%float; intros [H|H]; discriminate.
  - intros W.
    assert (N : is_nan p = false).
    { destruct (is_nan p) eqn:N; [|reflexivity].
      destruct (nan_compares_false p 3 N) as (_ & _ & _ & A & _). congruence. }
    rewrite (leb_negb_ltb p 3 N eq_refl) in W.
    destruct (p <? 3)%float; [discriminate|].
    destruct (p <? 5)%float; [discriminate|].
    destruct (p <? 15)%float; discriminate.
  - intros N W. rewrite (leb_negb_ltb p 3 N eq_refl).
    destruct (p <? 3)%float; [congruence|reflexivity].
  - intros N.
    destruct (nan_compares_false p 1 N) as (L1 & _).
    destruct (nan_compares_false p 3 N) as (L3 & _ & _ & A & _).
    destruct (nan_compares_false p 5 N) as (L5 & _).
    destruct (nan_compares_false p 15 N) as (L15 & _).
    rewrite L1, L3, L5, L15, A. repeat split; reflexivity.
Qed.

(** [getPriceImpactColor] is one colour per level. *)
Lemma color_of_severity (p : float) :
  getPriceImpactColor p
  = match getPriceImpactSeverity p with
    | low => "text-green-400"
    | medium => "text-yellow-400"
    | high => "text-orange-400"
    | critical => "text-red-400"
    end.
Proof.
  unfold getPriceImpactColor, getPriceImpactSeverity.
  destruct (p <? 1)%float, (p <? 3)%float, (p <? 5)%float; reflexivity.
Qed.

(** X15.  A higher price impact never gets a lower severity. *)
Theorem severity_is_monotone (p q : float) :
  (p <=? q)%float = true ->
  (level (getPriceImpactSeverity p) <= level (getPriceImpactSeverity q))%nat.
Proof.
  intros L. unfold getPriceImpactSeverity.
  destruct (q <? 1)%float eqn:Q1.
  { rewrite (leb_ltb_trans p q 1 L Q1). cbn. lia. }
  destruct (q <? 3)%float eqn:Q3.
  { pose proof (leb_ltb_trans p q 3 L Q3) as P3. rewrite P3.
    destruct (p <? 1)%float; cbn; lia. }
  destruct (q <? 5)%float eqn:Q5.
  { pose proof (leb_ltb_trans p q 5 L Q5) as P5. rewrite P5.
    destruct (p <? 1)%float, (p <? 3)%float; cbn; lia. }
  destruct (p <? 1)%float, (p <? 3)%float, (p <? 5)%float; cbn; lia.
Qed.

Lemma severity_is_monotone_witness :
  (2 <=? 4)%float = true
  /\ (level (getPriceImpactSeverity 2) <= level (getPriceImpactSeverity 4))%nat.
Proof.
  split; [vm_compute; reflexivity|].
  apply (severity_is_monotone 2 4). vm_compute. reflexivity.
Defined.

(** X16.  The slippage [getRecommendedSlippage] recommends is one
    [isValidSlippage] accepts, and it does not depend on the order of the
    two symbols. *)
Theorem recommended_slippage_is_valid (tokenASymbol tokenBSymbol : string) :
  isValidSlippage (getRecommendedSlippage tokenASymbol tokenBSymbol) = true
  /\ getRecommendedSlippage tokenASymbol tokenBSymbol
     = getRecommendedSlippage tokenBSymbol tokenASymbol.
Proof.
  unfold getRecommendedSlippage.
  set (stablecoins := ["USDT"; "USDC"; "USDC.e"; "DAI"; "BUSD"; "FRAX"]).
  set (majorTokens := ["ETH"; "WETH"; "BTC"; "WBTC"; "BNB"; "WBNB"; "KLC"; "wKLC"]).
  cbv zeta.
  destruct (includes stablecoins tokenASymbol), (includes stablecoins tokenBSymbol),
    (includes majorTokens tokenASymbol), (includes majorTokens tokenBSymbol);
    split; vm_compute; reflexivity.
Qed.

(** X17.  On an amount that parses to a positive number,
    [calculateMinAmountOut] is [getAmountOutMin] of the service; on every
    other amount (zero, negative, not a number) it is "0", where the
    service prints what the product gives. *)
Theorem calculateMinAmountOut_guards_getAmountOutMin
    (rt : Runtime) (numberToString : float -> string)
    (amountOut : string) (slippageTolerance : float) :
  calculateMinAmountOut rt numberToString amountOut slippageTolerance
  = if (0 <? parseFloat rt amountOut)%float
    then BaseDexService.getAmountOutMin rt numberToString amountOut slippageTolerance
    else "0".
Proof.
  unfold calculateMinAmountOut, BaseDexService.getAmountOutMin.
  set (amount := parseFloat rt amountOut).
  destruct (is_nan amount) eqn:N.
  - destruct (nan_compares_false amount 0 N) as (_ & A & _). rewrite A. reflexivity.
  - rewrite (leb_negb_ltb 0 amount eq_refl N).
    destruct (0 <? amount)%float; reflexivity.
Qed.

(** X18.  A negative price impact, which [calculatePriceImpact] returns for
    a negative amount, is displayed as "< 0.01%". *)
Theorem negative_impact_is_displayed_as_tiny
    (toFixed : float -> Z -> string) (p : float) :
  (p <? 0)%float = true ->
  formatPriceImpact toFixed p = "< 0.01%".
Proof.
  intros L. unfold formatPriceImpact.
  rewrite (ltb_trans p 0 0x1.47ae147ae147bp-7 L zero_below_hundredth).
  replace (p =? 0)%float with false; [reflexivity|].
  revert L. rewrite FloatAxioms.ltb_spec, FloatAxioms.eqb_spec.
  unfold SFltb, SFeqb. destruct (SFcompare _ _) as [[| |]|]; congruence.
Qed.

Lemma negative_impact_is_displayed_as_tiny_witness :
  ((-1) <? 0)%float = true
  /\ formatPriceImpact Reference.toFixed (-1) = "< 0.01%".
Proof.
  split; [vm_compute; reflexivity|].
  apply (negative_impact_is_displayed_as_tiny Reference.toFixed (-1)).
  vm_compute. reflexivity.
Defined.

End Display.

(** ** The token registry *)






(** ** The price helpers *)

Ltac unfold_price :=
  cbn [getNativePrice getOwnTokenPrice quoteSymbol ownSymbol] in *;
  unfold UniswapV2Service.getARBPrice, PancakeSwapService.getCAKEPrice,
    KalySwapService.getKSWAPPrice,
    UniswapV2Service.getETHPrice, PancakeSwapService.getBNBPrice,
    KalySwapService.getKLCPrice in *.

Lemma caught_as_zero (c : result float) :
  exists v, try_catch c (fun _ => Ok 0%float) = Ok v.
Proof. destruct c as [v|e]; cbn; eauto. Qed.

(** [getPairInfo] on a pair that the factory lists and whose contract
    answers: the two reserves as the contract orders them. *)
Lemma getPairInfo_listed (config : DexConfig) (dex : string) (tokenA tokenB : Token)
    (chain : Chain) (found : string) (r0 r1 stamp supply : N) :
  factory_getPair chain (factory config)
    (BaseDexService.resolve config tokenA) (BaseDexService.resolve config tokenB)
  = Ok found ->
  (found =? ZERO_ADDRESS) = false ->
  Js.truthy (Some found) = true ->
  pair_getReserves chain found = Ok (r0, r1, stamp) ->
  pair_totalSupply chain found = Ok supply ->
  BaseDexService.getPairInfo config dex tokenA tokenB (Some chain)
  = Ok (Some {| token0 := tokenA;
                token1 := tokenB;
                pairAddress := found;
                reserve0 := Js.bigintToString (Z.of_N r0);
                reserve1 := Js.bigintToString (Z.of_N r1);
                totalSupply := Js.bigintToString (Z.of_N supply) |}).
Proof.
  intros F Z' T R S.
  unfold BaseDexService.getPairInfo. rewrite getPairAddress_eq, F, Z'.
  cbn [bind]. rewrite T. cbn. rewrite R. cbn. rewrite S. reflexivity.
Qed.

(** X20.  The price helpers never reject: each resolves with a number, which
    is 0 when the registry lacks one of the two tokens it looks up. *)
Theorem price_helpers_never_reject
    (a : Adapter) (config : DexConfig) (rt : Runtime) (chain : Chain) :
  exists v w,
    getNativePrice a config rt chain = Ok v
    /\ getOwnTokenPrice a config rt chain = Ok w
    /\ (find native (tokens config) = None -> v = 0%float /\ w = 0%float)
    /\ (find (fun t => symbol t =? quoteSymbol a) (tokens config) = None ->
        v = 0%float)
    /\ (find (fun t => symbol t =? ownSymbol a) (tokens config) = None ->
        w = 0%float).
Proof.
  destruct (caught_as_zero
    (match find native (tokens config),
           find (fun t => symbol t =? quoteSymbol a) (tokens config) with
     | Some n, Some q =>
         bind (BaseDexService.getPairInfo config (getName (service a config rt)) n q
                 (Some chain))
           (fun pairInfo =>
              match pairInfo with
              | None => Ok 0%float
              | Some pairInfo =>
                  Ok (parseFloat rt (reserve1 pairInfo)
                      / parseFloat rt (reserve0 pairInfo))%float
              end)
     | _, _ => Ok 0%float
     end)) as [v V].
  destruct (caught_as_zero
    (match find (fun t => symbol t =? ownSymbol a) (tokens config),
           find native (tokens config) with
     | Some o, Some n =>
         bind (BaseDexService.getPairInfo config (getName (service a config rt)) o n
                 (Some chain))
           (fun pairInfo =>
              match pairInfo with
              | None => Ok 0%float
              | Some pairInfo =>
                  bind (getNativePrice a config rt chain)
                    (fun nativePrice =>
                       Ok (parseFloat rt (reserve1 pairInfo)
                           / parseFloat rt (reserve0 pairInfo) * nativePrice)%float)
              end)
     | _, _ => Ok 0%float
     end)) as [w W].
  exists v, w.
  destruct a; unfold_price; cbn [getName service] in *;
    (split; [exact V|]); (split; [exact W|]); (split; [|split]).
  all: try (intros E; rewrite E in *;
            repeat match goal with
                   | H : try_catch (match ?x with _ => _ end) _ = _ |- _ => destruct x
                   end;
            cbn in *; try split; congruence).
Qed.

(** X21.  Where the registry has the native token and the quote stablecoin
    and their pair answers, the native price is the quotient of the two
    reserves as the pair contract orders and counts them: [reserve1] over
    [reserve0] in base units, whichever of the two tokens the pair holds as
    [token0] and whatever their decimals are. *)
Theorem native_price_is_raw_reserve_quotient
    (a : Adapter) (config : DexConfig) (rt : Runtime) (chain : Chain)
    (nativeToken quoteToken : Token) (found : string) (r0 r1 stamp supply : N) :
  find native (tokens config) = Some nativeToken ->
  find (fun t => symbol t =? quoteSymbol a) (tokens config) = Some quoteToken ->
  factory_getPair chain (factory config)
    (BaseDexService.resolve config nativeToken)
    (BaseDexService.resolve config quoteToken) = Ok found ->
  (found =? ZERO_ADDRESS) = false ->
  Js.truthy (Some found) = true ->
  pair_getReserves chain found = Ok (r0, r1, stamp) ->
  pair_totalSupply chain found = Ok supply ->
  getNativePrice a config rt chain
  = Ok (parseFloat rt (Js.bigintToString (Z.of_N r1))
        / parseFloat rt (Js.bigintToString (Z.of_N r0)))%float.
Proof.
  intros N Q F Z' T R S.
  destruct a; unfold_price; rewrite N, Q;
    rewrite (getPairInfo_listed _ _ _ _ _ _ _ _ _ _ F Z' T R S); reflexivity.
Qed.

Lemma native_price_is_raw_reserve_quotient_witness :
  getNativePrice KalySwap Sample.kalyswap Reference.runtime Sample.chain
  = Ok (Reference.parseFloat "50000000"
        / Reference.parseFloat "1000000000000000000000")%float.
Proof.
  apply (native_price_is_raw_reserve_quotient KalySwap Sample.kalyswap
           Reference.runtime Sample.chain KLC USDT
           "0x5000000000000000000000000000000000000002"
           1000000000000000000000 50000000 0 200000000000000).
  - reflexivity.
  - reflexivity.
  - reflexivity.
  - reflexivity.
  - reflexivity.
  - reflexivity.
  - reflexivity.
Defined.

(** X22.  Where the registry has the exchange's own token and the native
    one and their pair answers, the price of the own token is the quotient
    of the pair's reserves, [reserve1] over [reserve0] as the contract
    orders them, times the native price. *)
Theorem own_token_price_is_product
    (a : Adapter) (config : DexConfig) (rt : Runtime) (chain : Chain)
    (ownToken nativeToken : Token) (found : string) (r0 r1 stamp supply : N)
    (nativePrice : float) :
  find (fun t => symbol t =? ownSymbol a) (tokens config) = Some ownToken ->
  find native (tokens config) = Some nativeToken ->
  factory_getPair chain (factory config)
    (BaseDexService.resolve config ownToken)
    (BaseDexService.resolve config nativeToken) = Ok found ->
  (found =? ZERO_ADDRESS) = false ->
  Js.truthy (Some found) = true ->
  pair_getReserves chain found = Ok (r0, r1, stamp) ->
  pair_totalSupply chain found = Ok supply ->
  getNativePrice a config rt chain = Ok nativePrice ->
  getOwnTokenPrice a config rt chain
  = Ok (parseFloat rt (Js.bigintToString (Z.of_N r1))
        / parseFloat rt (Js.bigintToString (Z.of_N r0)) * nativePrice)%float.
Proof.
  intros O N F Z' T R S P.
  destruct a; cbn [getNativePrice] in P; cbn [getOwnTokenPrice ownSymbol] in *;
    unfold UniswapV2Service.getARBPrice, PancakeSwapService.getCAKEPrice,
      KalySwapService.getKSWAPPrice;
    rewrite O, N, (getPairInfo_listed _ _ _ _ _ _ _ _ _ _ F Z' T R S);
    cbn [bind reserve0 reserve1]; rewrite P; reflexivity.
Qed.

Lemma own_token_price_is_product_witness :
  getOwnTokenPrice KalySwap Sample.kalyswap Reference.runtime Sample.chain
  = Ok (Reference.parseFloat "100000000000000000000"
        / Reference.parseFloat "4000000000000000000000"
        * (Reference.parseFloat "50000000"
           / Reference.parseFloat "1000000000000000000000"))%float.
Proof.
  apply (own_token_price_is_product KalySwap Sample.kalyswap
           Reference.runtime Sample.chain KSWAP KLC
           "0x5000000000000000000000000000000000000001"
           4000000000000000000000 100000000000000000000 0 600000000000000000000).
  - reflexivity.
  - reflexivity.
  - reflexivity.
  - reflexivity.
  - reflexivity.
  - reflexivity.
  - reflexivity.
  - vm_compute. reflexivity.
Defined.

(** ** Token lists *)

Lemma NoDup_snoc {A : Type} (l : list A) (x : A) :
  NoDup l -> ~ In x l -> NoDup (l ++ [x]).
Proof.
  induction l as [|y l IH]; cbn; intros D N.
  - constructor; [intros []|constructor].
  - inversion D as [|? ? Y D']; subst. constructor.
    + intros I. apply in_app_or in I. destruct I as [I|[E|[]]]; [auto|].
      apply N. now left.
    + apply IH; [exact D'|]. intros I. apply N. now right.
Qed.

Section MapEntries.

Context {V : Type}.

Implicit Types (m : list (string * V)) (k : string) (v : V).

Lemma get_In m k v : JsMap.get m k = Some v -> In (k, v) m.
Proof.
  induction m as [|[k' v'] m IH]; cbn; [discriminate|].
  destruct (String.eqb_spec k' k) as [->|N].
  - intros [= ->]. now left.
  - intros G. right. auto.
Qed.

Lemma get_None m k : JsMap.get m k = None <-> ~ In k (JsMap.keys m).
Proof.
  induction m as [|[k' v'] m IH]; cbn; [tauto|].
  destruct (String.eqb_spec k' k) as [->|N].
  - split; [discriminate|]. intros H. exfalso. apply H. now left.
  - rewrite IH. split; [intros H [E|I]; auto|intros H I; apply H; now right].
Qed.

Lemma In_set m k v k' v' :
  In (k', v') (JsMap.set m k v) -> (k' = k /\ v' = v) \/ In (k', v') m.
Proof.
  induction m as [|[k0 v0] m IH]; cbn.
  - intros [[= <- <-]|[]]. now left.
  - destruct (String.eqb_spec k0 k) as [->|N]; cbn.
    + intros [[= <- <-]|I]; [now left|right; now right].
    + intros [E|I]; [right; now left|].
      destruct (IH I) as [L|R]; [now left|right; now right].
Qed.

Lemma set_present m k v x :
  JsMap.get m k = Some x -> JsMap.keys (JsMap.set m k v) = JsMap.keys m.
Proof.
  induction m as [|[k0 v0] m IH]; cbn; [discriminate|].
  destruct (String.eqb_spec k0 k) as [->|N]; cbn; [reflexivity|].
  intros G. f_equal. auto.
Qed.

Lemma set_absent m k v :
  JsMap.get m k = None -> JsMap.set m k v = m ++ [(k, v)].
Proof.
  induction m as [|[k0 v0] m IH]; cbn; [reflexivity|].
  destruct (String.eqb_spec k0 k) as [->|N]; [discriminate|].
  intros G. f_equal. auto.
Qed.

Lemma get_set_same m k v : JsMap.get (JsMap.set m k v) k = Some v.
Proof.
  induction m as [|[k0 v0] m IH]; cbn.
  - now rewrite String.eqb_refl.
  - destruct (String.eqb_spec k0 k) as [->|N]; cbn.
    + now rewrite String.eqb_refl.
    + destruct (String.eqb_spec k0 k); [contradiction|exact IH].
Qed.

Lemma get_set_other m k v k' :
  k' <> k -> JsMap.get (JsMap.set m k v) k' = JsMap.get m k'.
Proof.
  intros N. induction m as [|[k0 v0] m IH]; cbn.
  - destruct (String.eqb_spec k k'); [congruence|reflexivity].
  - destruct (String.eqb_spec k0 k) as [->|N0]; cbn.
    + destruct (String.eqb_spec k k'); [congruence|reflexivity].
    + destruct (String.eqb_spec k0 k'); [reflexivity|exact IH].
Qed.

End MapEntries.

Section Deduplication.

Import TokenListService.

Lemma kept_start : kept [] [].
Proof.
  split; [constructor|]. split; [intros k v []|intros t []].
Qed.

Lemma kept_step tokenMap seen t :
  kept tokenMap seen -> kept (keepHighest tokenMap t) (seen ++ [t]).
Proof.
  intros (D & E & H). unfold keepHighest.
  destruct (JsMap.get tokenMap (keyOf (token t))) as [existing|] eqn:G.
  - destruct (Z.gtb_spec (token_priority t) (token_priority existing)) as [P|P].
    + split; [now rewrite (set_present _ _ _ _ G)|]. split.
      * intros k v I. apply In_set in I. destruct I as [[-> ->]|I].
        -- split; [reflexivity|]. apply in_or_app. right. now left.
        -- destruct (E k v I) as [A B]. split; [exact A|]. apply in_or_app. now left.
      * intros u I. apply in_app_or in I.
        destruct (String.eqb_spec (keyOf (token u)) (keyOf (token t))) as [K|K].
        -- rewrite K, get_set_same. exists t. split; [reflexivity|].
           destruct I as [I|[<-|[]]]; [|lia].
           destruct (H u I) as (v & Gv & Pv). rewrite K, G in Gv.
           injection Gv as <-. lia.
        -- rewrite (get_set_other _ _ _ _ K).
           destruct I as [I|[<-|[]]]; [exact (H u I)|congruence].
    + split; [exact D|]. split.
      * intros k v I. destruct (E k v I) as [A B]. split; [exact A|].
        apply in_or_app. now left.
      * intros u I. apply in_app_or in I.
        destruct I as [I|[<-|[]]]; [exact (H u I)|].
        exists existing. split; [exact G|lia].
  - rewrite (set_absent _ _ _ G). split.
    + unfold JsMap.keys. rewrite map_app. cbn.
      apply NoDup_snoc; [exact D|]. now apply get_None.
    + split.
      * intros k v I. apply in_app_or in I. destruct I as [I|[[= <- <-]|[]]].
        -- destruct (E k v I) as [A B]. split; [exact A|]. apply in_or_app. now left.
        -- split; [reflexivity|]. apply in_or_app. right. now left.
      * intros u I. rewrite <- (set_absent _ _ t G). apply in_app_or in I.
        destruct (String.eqb_spec (keyOf (token u)) (keyOf (token t))) as [K|K].
        -- rewrite K, get_set_same. exists t. split; [reflexivity|].
           destruct I as [I|[<-|[]]]; [|lia].
           destruct (H u I) as (v & Gv & Pv). rewrite K, G in Gv. discriminate.
        -- rewrite (get_set_other _ _ _ _ K).
           destruct I as [I|[<-|[]]]; [exact (H u I)|congruence].
Qed.

Lemma kept_fold all tokenMap seen :
  kept tokenMap seen -> kept (fold_left keepHighest all tokenMap) (seen ++ all).
Proof.
  revert tokenMap seen. induction all as [|t all IH]; intros tokenMap seen K; cbn.
  - now rewrite app_nil_r.
  - replace (seen ++ t :: all) with ((seen ++ [t]) ++ all)
      by (rewrite <- app_assoc; reflexivity).
    apply IH, kept_step, K.
Qed.

Lemma kept_all all : kept (fold_left keepHighest all []) all.
Proof. exact (kept_fold all [] [] kept_start). Qed.

Lemma keys_of_kept tokenMap seen :
  kept tokenMap seen ->
  map keyOf (map token (JsMap.values tokenMap)) = JsMap.keys tokenMap.
Proof.
  intros (_ & E & _). unfold JsMap.values, JsMap.keys. rewrite !map_map.
  apply map_ext_in. intros [k v] I. cbn. symmetry. apply (E k v I).
Qed.

End Deduplication.

Section Deduplicated.

Import TokenListService.

Lemma In_get {V : Type} (m : list (string * V)) (k : string) (v : V) :
  NoDup (JsMap.keys m) -> In (k, v) m -> JsMap.get m k = Some v.
Proof.
  induction m as [|[k0 v0] m IH]; cbn; [intros _ []|].
  intros D I. inversion D as [|? ? N D']; subst.
  destruct (String.eqb_spec k0 k) as [->|K].
  - destruct I as [[= ->]|I]; [reflexivity|].
    exfalso. apply N. change k with (fst (k, v)). now apply in_map.
  - destruct I as [[= E _]|I]; [congruence|auto].
Qed.

Lemma deduplicated_entry (all : list PrioritizedToken) (x : Token) :
  In x (deduplicateTokens all) ->
  exists k v, In (k, v) (fold_left keepHighest all []) /\ token v = x.
Proof.
  unfold deduplicateTokens, JsMap.values. rewrite map_map.
  intros I. apply in_map_iff in I. destruct I as ([k v] & E & I). eauto.
Qed.

Lemma entry_deduplicated (all : list PrioritizedToken) (k : string)
    (v : PrioritizedToken) :
  In (k, v) (fold_left keepHighest all []) -> In (token v) (deduplicateTokens all).
Proof.
  intros I. unfold deduplicateTokens, JsMap.values. rewrite map_map.
  apply in_map_iff. exists (k, v). auto.
Qed.

End Deduplicated.

Lemma deduplicateTokens_distinct_keys
    (all : list TokenListService.PrioritizedToken) :
  NoDup (map TokenListService.keyOf (TokenListService.deduplicateTokens all)).
Proof.
  unfold TokenListService.deduplicateTokens.
  rewrite (keys_of_kept _ _ (kept_all all)). apply (kept_all all).
Qed.

(** X23.  [deduplicateTokens] returns no two tokens with the same chain id
    and the same address up to case. *)
Theorem deduplicateTokens_keys_distinct
    (all : list TokenListService.PrioritizedToken) :
  NoDup (map TokenListService.keyOf (TokenListService.deduplicateTokens all)).
Proof. exact (deduplicateTokens_distinct_keys all). Qed.

(** X24.  [deduplicateTokens] loses no key: for every token it is given, it
    returns a token it was given with the same key and a priority that is
    not lower. *)
Theorem deduplicateTokens_loses_no_key
    (all : list TokenListService.PrioritizedToken)
    (t : TokenListService.PrioritizedToken) :
  In t all ->
  exists v,
    In v all
    /\ TokenListService.keyOf (TokenListService.token v)
       = TokenListService.keyOf (TokenListService.token t)
    /\ (TokenListService.token_priority t <= TokenListService.token_priority v)%Z
    /\ In (TokenListService.token v) (TokenListService.deduplicateTokens all).
Proof.
  intros I. destruct (kept_all all) as (D & E & H).
  destruct (H t I) as (v & G & P). apply get_In in G.
  destruct (E _ _ G) as [K Iv].
  exists v. repeat split; auto. exact (entry_deduplicated all _ _ G).
Qed.

Lemma deduplicateTokens_loses_no_key_witness :
  exists v,
    In v [ TokenListService.mkPrioritized USDT 1;
           TokenListService.mkPrioritized SampleLists.tether 2 ]
    /\ TokenListService.keyOf (TokenListService.token v) = TokenListService.keyOf USDT
    /\ (1 <= TokenListService.token_priority v)%Z
    /\ In (TokenListService.token v)
         (TokenListService.deduplicateTokens
            [ TokenListService.mkPrioritized USDT 1;
              TokenListService.mkPrioritized SampleLists.tether 2 ]).
Proof.
  apply (deduplicateTokens_loses_no_key
           [ TokenListService.mkPrioritized USDT 1;
             TokenListService.mkPrioritized SampleLists.tether 2 ]
           (TokenListService.mkPrioritized USDT 1)).
  left. reflexivity.
Defined.

(** X25.  Every token [deduplicateTokens] returns is one it was given, and
    none of the tokens given under the same key has a higher priority. *)
Theorem deduplicateTokens_keeps_highest_priority
    (all : list TokenListService.PrioritizedToken) (x : Token) :
  In x (TokenListService.deduplicateTokens all) ->
  exists v,
    In v all /\ TokenListService.token v = x
    /\ forall u, In u all ->
         TokenListService.keyOf (TokenListService.token u)
         = TokenListService.keyOf x ->
         (TokenListService.token_priority u <= TokenListService.token_priority v)%Z.
Proof.
  intros I. destruct (deduplicated_entry all x I) as (k & v & M & <-).
  destruct (kept_all all) as (D & E & H).
  destruct (E _ _ M) as [K Iv].
  exists v. repeat split; auto.
  intros u Iu Ku. destruct (H u Iu) as (v' & G & P).
  rewrite Ku, <- K, (In_get _ _ _ D M) in G. injection G as <-. exact P.
Qed.

Lemma deduplicateTokens_keeps_highest_priority_witness :
  exists v,
    In v [ TokenListService.mkPrioritized USDT 1;
           TokenListService.mkPrioritized SampleLists.tether 2 ]
    /\ TokenListService.token v = SampleLists.tether
    /\ forall u,
         In u [ TokenListService.mkPrioritized USDT 1;
                TokenListService.mkPrioritized SampleLists.tether 2 ] ->
         TokenListService.keyOf (TokenListService.token u)
         = TokenListService.keyOf SampleLists.tether ->
         (TokenListService.token_priority u <= TokenListService.token_priority v)%Z.
Proof.
  apply (deduplicateTokens_keeps_highest_priority
           [ TokenListService.mkPrioritized USDT 1;
             TokenListService.mkPrioritized SampleLists.tether 2 ]
           SampleLists.tether).
  vm_compute. left. reflexivity.
Defined.

Lemma keepHighest_distinct (all : list TokenListService.PrioritizedToken)
    (tokenMap : list (string * TokenListService.PrioritizedToken)) :
  NoDup (JsMap.keys tokenMap
         ++ map (fun t => TokenListService.keyOf (TokenListService.token t)) all) ->
  fold_left TokenListService.keepHighest all tokenMap
  = tokenMap
    ++ map (fun t => (TokenListService.keyOf (TokenListService.token t), t)) all.
Proof.
  revert tokenMap. induction all as [|t all IH]; intros tokenMap D; cbn.
  - now rewrite app_nil_r.
  - assert (G : JsMap.get tokenMap (TokenListService.keyOf (TokenListService.token t))
                = None).
    { apply get_None. intros I. cbn in D. apply NoDup_remove_2 in D.
      apply D. apply in_or_app. now left. }
    unfold TokenListService.keepHighest at 2. rewrite G, (set_absent _ _ _ G).
    rewrite IH.
    + rewrite <- app_assoc. reflexivity.
    + unfold JsMap.keys in *. rewrite map_app, <- app_assoc. exact D.
Qed.

(** X26.  A list in which no key occurs twice is returned as it is, in its
    order, without the priorities. *)
Theorem deduplicateTokens_keeps_distinct_list
    (all : list TokenListService.PrioritizedToken) :
  NoDup (map (fun t => TokenListService.keyOf (TokenListService.token t)) all) ->
  TokenListService.deduplicateTokens all = map TokenListService.token all.
Proof.
  intros D. unfold TokenListService.deduplicateTokens.
  rewrite (keepHighest_distinct all [] D). cbn.
  unfold JsMap.values. rewrite !map_map. reflexivity.
Qed.

Lemma deduplicateTokens_keeps_distinct_list_witness :
  TokenListService.deduplicateTokens
    [ TokenListService.mkPrioritized KLC 1;
      TokenListService.mkPrioritized USDT 1;
      TokenListService.mkPrioritized Sample.WETH 2 ]
  = [KLC; USDT; Sample.WETH].
Proof.
  apply (deduplicateTokens_keeps_distinct_list
           [ TokenListService.mkPrioritized KLC 1;
             TokenListService.mkPrioritized USDT 1;
             TokenListService.mkPrioritized Sample.WETH 2 ]).
  repeat constructor; cbn; intuition discriminate.
Defined.

Section TokensForChain.

Import TokenListService.

Variable World : Type.
Variable fetchTokenList : string -> World -> option TokenList * World.

Lemma addList_on_chain (id : Z) (configs : list TokenListConfig)
    (allTokens : list PrioritizedToken) (w : World) :
  Forall (fun t => chainId (token t) = id) allTokens ->
  Forall (fun t => chainId (token t) = id)
    (fst (fold_left (addList World fetchTokenList id) configs (allTokens, w))).
Proof.
  revert allTokens w. induction configs as [|c configs IH]; intros allTokens w F; cbn.
  - exact F.
  - destruct (fetchTokenList (url c) w) as [[tokenList|] w']; apply IH; [|exact F].
    apply Forall_app. split; [exact F|].
    apply Forall_forall. intros t I. apply in_map_iff in I.
    destruct I as (x & <- & I). apply filter_In in I. cbn. now apply Z.eqb_eq.
Qed.

End TokensForChain.

(** X27.  The tokens [getTokensForChain] returns for a chain all carry its
    chain id, and no two of them have the same address up to case,
    whatever the lists fetched hold. *)
Theorem getTokensForChain_on_chain_and_distinct
    (World : Type)
    (fetchTokenList : string -> World -> option TokenListService.TokenList * World)
    (TOKEN_LIST_CONFIGS : Z -> option (list TokenListService.TokenListConfig))
    (id : Z) (w : World) :
  let found :=
    fst (TokenListService.getTokensForChain World fetchTokenList TOKEN_LIST_CONFIGS
           id w) in
  Forall (fun t => chainId t = id) found
  /\ NoDup (map (fun t => Js.toLowerCase (address t)) found).
Proof.
  unfold TokenListService.getTokensForChain.
  set (enabledConfigs := filter TokenListService.enabled _).
  destruct (List.length enabledConfigs =? 0)%nat.
  { cbn. split; constructor. }
  pose proof (addList_on_chain World fetchTokenList id enabledConfigs [] w
                (Forall_nil _)) as F.
  destruct (fold_left _ enabledConfigs ([], w)) as [allTokens w']. cbn in F |- *.
  assert (C : Forall (fun t => chainId t = id)
                (TokenListService.deduplicateTokens allTokens)).
  { apply Forall_forall. intros x I.
    destruct (deduplicated_entry allTokens x I) as (k & v & M & <-).
    destruct (kept_all allTokens) as (_ & E & _).
    destruct (E _ _ M) as [_ Iv].
    rewrite Forall_forall in F. exact (F v Iv). }
  split; [exact C|].
  pose proof (deduplicateTokens_distinct_keys allTokens) as D.
  apply (NoDup_map_inv
           (fun lowered => Js.bigintToString id ++ "-" ++ lowered)%string).
  rewrite map_map.
  erewrite map_ext_in; [exact D|].
  intros t I. rewrite Forall_forall in C. unfold TokenListService.keyOf.
  now rewrite (C t I).
Qed.
